(** * Voice: ASR client, session manager, rewrite service and PCM conversion

  A shallow embedding of the TypeScript sources

    - [app/main/asr/audio-processor.ts]  (modules [Audio], [AudioBuffer])
    - [app/main/asr/asr-client.ts]       (module [Client])
    - [app/main/asr/asr-manager.ts]      (module [Manager])
    - [app/main/rewrite/index.ts]        (module [Rewrite])

  followed by the properties of the specification that are stated about
  them.  Library functions that the sources call but do not define
  (gzip, gunzip, TextDecoder, JSON.parse, fetch) are Section variables;
  timers, the clock and the WebSocket peer are explicit environments. *)

From Stdlib Require Import ZArith NArith List Bool Lia String Ascii.
From Stdlib Require Import DecimalString Permutation.
From Stdlib Require Import Floats.SpecFloat.
From Stdlib Require Strings.Byte.
Import ListNotations.

Local Open Scope Z_scope.

#[local] Set Warnings "-register-all".

(* ================================================================== *)
(** * JavaScript strings and values                                     *)
(* ================================================================== *)

Module JS.

(** A JavaScript string is a sequence of UTF-16 code units. *)
Definition jsstring := list N.

(** An ASCII literal as a JavaScript string. *)
Definition lit (s : string) : jsstring :=
  map N_of_ascii (list_ascii_of_string s).

(** [WhiteSpace] and [LineTerminator] of ECMAScript, the code units that
    [String.prototype.trim] strips. *)
Definition isWhiteSpace (c : N) : bool :=
  ((9 <=? c) && (c <=? 13) || (c =? 32) || (c =? 160) || (c =? 5760)
   || (8192 <=? c) && (c <=? 8202)
   || (c =? 8232) || (c =? 8233) || (c =? 8239) || (c =? 8287)
   || (c =? 12288) || (c =? 65279))%N.

Fixpoint trimStart (s : jsstring) : jsstring :=
  match s with
  | c :: r => if isWhiteSpace c then trimStart r else s
  | [] => []
  end.

Definition trimEnd (s : jsstring) : jsstring := rev (trimStart (rev s)).

(** [s.trim()] *)
Definition trim (s : jsstring) : jsstring := trimEnd (trimStart s).

(** [String(n)] / template interpolation of an integral Number. *)
Definition decimal (z : Z) : jsstring :=
  lit (NilZero.string_of_int (Z.to_int z)).

(** [s1.includes(s2)] as a proposition: [s2] occurs inside [s1]. *)
Definition includes (s1 s2 : jsstring) : Prop :=
  exists pre post, s1 = pre ++ s2 ++ post.

(** The values [JSON.parse] can build, plus [undefined].  An object keeps
    its members in source order; JSON numbers are taken to be integers
    (codes, sizes and millisecond times in this protocol). *)
Inductive value :=
| Undefined
| Null
| Boolean (b : bool)
| Number (n : Z)
| String (s : jsstring)
| Array (l : list value)
| Object (members : list (jsstring * value)).

Definition jsstring_eqb (a b : jsstring) : bool :=
  if list_eq_dec N.eq_dec a b then true else false.

(** Member lookup; on a duplicated key the last member wins, as in
    [JSON.parse]. *)
Fixpoint member (k : jsstring) (ms : list (jsstring * value)) : value :=
  match ms with
  | [] => Undefined
  | (k', v) :: r =>
      match member k r with
      | Undefined => if jsstring_eqb k k' then v else Undefined
      | found => found
      end
  end.

(** [ToBoolean] *)
Definition truthy (v : value) : bool :=
  match v with
  | Undefined | Null => false
  | Boolean b => b
  | Number n => negb (n =? 0)
  | String s => match s with [] => false | _ => true end
  | Array _ | Object _ => true
  end.

(** [a || b] on already evaluated operands (both are side-effect free
    wherever this is used). *)
Definition or (a b : value) : value := if truthy a then a else b.

Definition nullish (v : value) : bool :=
  match v with Undefined | Null => true | _ => false end.

(** What a [throw] carries, as far as [catch] blocks of the sources look
    at it: [error instanceof Error ? error.message : String(error)]. *)
Inductive Thrown :=
| ErrorObject (message : jsstring)
| NonError (asString : jsstring).

Definition thrownMessage (e : Thrown) : jsstring :=
  match e with
  | ErrorObject m => m
  | NonError s => s
  end.

(** Completion of a computation that may throw. *)
Inductive Res (A : Type) :=
| Ok (a : A)
| Throw (e : Thrown).
Arguments Ok {A} a.
Arguments Throw {A} e.

Definition bind {A B} (c : Res A) (k : A -> Res B) : Res B :=
  match c with
  | Ok a => k a
  | Throw e => Throw e
  end.

(** The errors the engine itself raises.  Their message text is engine
    specific and is a parameter wherever it is observed. *)
Inductive EngineError :=
| TypeError_nullish       (* property read on null / undefined *)
| TypeError_not_callable  (* call of something that is no function *)
| RangeError_bounds       (* DataView access outside the buffer *)
| Error_zlib              (* gunzip of malformed data *)
| SyntaxError_json.       (* JSON.parse of malformed text *)

Section Engine.
Variable engineText : EngineError -> jsstring.

Definition raise {A} (k : EngineError) : Res A :=
  Throw (ErrorObject (engineText k)).

(** [v.k] for a fixed key that is none of the built-in members. *)
Definition get (v : value) (k : jsstring) : Res value :=
  match v with
  | Undefined | Null => raise TypeError_nullish
  | Object ms => Ok (member k ms)
  | _ => Ok Undefined
  end.

(** [v?.k] *)
Definition optGet (v : value) (k : jsstring) : Res value :=
  if nullish v then Ok Undefined else get v k.

(** [v.length] *)
Definition getLength (v : value) : Res value :=
  match v with
  | Undefined | Null => raise TypeError_nullish
  | Array l => Ok (Number (Z.of_nat (List.length l)))
  | String s => Ok (Number (Z.of_nat (List.length s)))
  | Object ms => Ok (member (lit "length") ms)
  | _ => Ok Undefined
  end.

(** [v[0]] *)
Definition getIndex0 (v : value) : Res value :=
  match v with
  | Undefined | Null => raise TypeError_nullish
  | Array l => Ok (match l with x :: _ => x | [] => Undefined end)
  | String s => Ok (match s with c :: _ => String [c] | [] => Undefined end)
  | Object ms => Ok (member (lit "0") ms)
  | _ => Ok Undefined
  end.

(** [v?.trim()]: [undefined] on a nullish receiver, the trimmed string
    on a string, a TypeError on anything else (no other parsed value
    has a callable [trim]). *)
Definition optCallTrim (v : value) : Res value :=
  match v with
  | Undefined | Null => Ok Undefined
  | String s => Ok (String (trim s))
  | _ => raise TypeError_not_callable
  end.
End Engine.

(** [ToString], as [Array.prototype.join] applies it to the elements. *)
Fixpoint ToString (v : value) : jsstring :=
  match v with
  | Undefined => lit "undefined"
  | Null => lit "null"
  | Boolean b => if b then lit "true" else lit "false"
  | Number n => decimal n
  | String s => s
  | Array l =>
      (fix joinComma (l : list value) : jsstring :=
         match l with
         | [] => []
         | x :: r =>
             (if nullish x then [] else ToString x)
               ++ match r with
                  | [] => []
                  | _ => lit "," ++ joinComma r
                  end
         end) l
  | Object _ => lit "[object Object]"
  end.

(** [l.join('')] *)
Definition joinEmpty (l : list value) : jsstring :=
  List.concat (map (fun x => if nullish x then [] else ToString x) l).

(** [v > 0] for a Number operand.  The only other operands the sources
    can feed it come from a non-array [utterances], for which the
    following [.map] call throws whatever the comparison yields. *)
Definition gtZero (v : value) : bool :=
  match v with
  | Number n => 0 <? n
  | Boolean b => b
  | _ => false
  end.

End JS.

(* ================================================================== *)
(** * audio-processor.ts                                                *)
(* ================================================================== *)

Module Audio.

(** IEEE 754 binary64 (JavaScript Number) and binary32 (Float32Array
    element), over the specification floats of the standard library. *)
Definition prec64 : Z := 53.
Definition emax64 : Z := 1024.
Definition prec32 : Z := 24.
Definition emax32 : Z := 128.

(** Reading a Float32Array element gives the same value as a Number. *)
Definition toNumber (x : spec_float) : spec_float :=
  match x with
  | S754_finite s m e => binary_round prec64 emax64 s m e
  | _ => x
  end.

(** Storing a Number into a Float32Array rounds it to binary32. *)
Definition toFloat32 (x : spec_float) : spec_float :=
  match x with
  | S754_finite s m e => binary_round prec32 emax32 s m e
  | _ => x
  end.

(** An integer literal or Int16Array element as a Number. *)
Definition ofInt (z : Z) : spec_float :=
  binary_normalize prec64 emax64 z 0 false.

Definition mul (x y : spec_float) : spec_float := SFmul prec64 emax64 x y.
Definition div (x y : spec_float) : spec_float := SFdiv prec64 emax64 x y.
Definition ltb (x y : spec_float) : bool := SFltb x y.

Definition isNaN (x : spec_float) : bool :=
  match x with S754_nan => true | _ => false end.

(** [Math.min(a, b)]: NaN if either is NaN, and -0 below +0. *)
Definition Math_min (a b : spec_float) : spec_float :=
  if isNaN a || isNaN b then S754_nan
  else match SFcompare a b with
       | Some Lt => a
       | Some Gt => b
       | _ => match a, b with
              | S754_zero true, _ => a
              | _, S754_zero true => b
              | _, _ => a
              end
       end.

(** [Math.max(a, b)] *)
Definition Math_max (a b : spec_float) : spec_float :=
  if isNaN a || isNaN b then S754_nan
  else match SFcompare a b with
       | Some Lt => b
       | Some Gt => a
       | _ => match a, b with
              | S754_zero false, _ => a
              | _, S754_zero false => b
              | _, _ => a
              end
       end.

(** The integral part of a Number, rounding toward zero; 0 for NaN and
    the infinities, as in [ToInt16]. *)
Definition truncate (x : spec_float) : Z :=
  match x with
  | S754_finite s m e =>
      let a := match e with
               | Zneg p => Z.shiftr (Zpos m) (Zpos p)
               | _ => Z.shiftl (Zpos m) e
               end in
      if s then - a else a
  | _ => 0
  end.

(** Storing a Number into an Int16Array: [ToInt16]. *)
Definition ToInt16 (x : spec_float) : Z :=
  (truncate x + 32768) mod 65536 - 32768.

(** Loop body of [float32ToInt16] for one element. *)
Definition float32ToInt16_sample (x : spec_float) : Z :=
  let sample := Math_max (ofInt (-1)) (Math_min (ofInt 1) (toNumber x)) in
  ToInt16 (if ltb sample (ofInt 0)
           then mul sample (ofInt 32768)    (* 0x8000 *)
           else mul sample (ofInt 32767)).  (* 0x7fff *)

Definition float32ToInt16 (float32Array : list spec_float) : list Z :=
  map float32ToInt16_sample float32Array.

(** Loop body of [int16ToFloat32] for one element. *)
Definition int16ToFloat32_sample (x : Z) : spec_float :=
  toFloat32 (if x <? 0
             then div (ofInt x) (ofInt 32768)
             else div (ofInt x) (ofInt 32767)).

Definition int16ToFloat32 (int16Array : list Z) : list spec_float :=
  map int16ToFloat32_sample int16Array.

(** The float literals of the specification. *)
Definition f_zero : spec_float := S754_zero false.
Definition f_one : spec_float := toFloat32 (ofInt 1).
Definition f_minus_one : spec_float := toFloat32 (ofInt (-1)).
Definition f_one_and_half : spec_float := S754_finite false 12582912 (-23).

(** [x > 1.0] and [x < -1.0] as the comparison of Numbers. *)
Definition gtOne (x : spec_float) : bool := ltb (ofInt 1) (toNumber x).
Definition ltMinusOne (x : spec_float) : bool := ltb (toNumber x) (ofInt (-1)).

(** Deviation check of the round trip on [n] consecutive int16 values. *)
Fixpoint roundTripWithin1 (n : nat) (lo : Z) : bool :=
  match n with
  | O => true
  | S k =>
      match float32ToInt16 (int16ToFloat32 [lo]) with
      | [y] => (Z.abs (y - lo) <=? 1) && roundTripWithin1 k (lo + 1)
      | _ => false
      end
  end.

(** [int16ToUint8]: a byte view of the Int16Array's buffer, two bytes per
    element in two's complement, low byte first (the byte order of the
    platforms the code runs on, which its own test asserts). *)
Definition int16ToUint8 (int16Array : list Z) : list Z :=
  flat_map (fun x => [x mod 256; (x / 256) mod 256]) int16Array.

(** [float32ToPCMBytes] *)
Definition float32ToPCMBytes (float32Array : list spec_float) : list Z :=
  int16ToUint8 (float32ToInt16 float32Array).

(** [calculatePeak] *)
Definition calculatePeak (data : list spec_float) : spec_float :=
  fold_left (fun peak x =>
               let abs := SFabs (toNumber x) in
               if ltb peak abs then abs else peak)
            data (ofInt 0).

End Audio.

Notation "x <- c ;; k" := (JS.bind c (fun x => k))
  (at level 61, c at next level, right associativity).

(* ================================================================== *)
(** * shared/types/asr.ts                                               *)
(* ================================================================== *)

Module Shared.
Import JS.

(** [ASRState]: "idle", "connecting", "ready", "recording", "processing",
    "completed", "error". *)
Inductive ASRState :=
| Idle | Connecting | Ready | Recording | Processing | Completed | Error.

Definition stateName (s : ASRState) : jsstring :=
  match s with
  | Idle => lit "idle"
  | Connecting => lit "connecting"
  | Ready => lit "ready"
  | Recording => lit "recording"
  | Processing => lit "processing"
  | Completed => lit "completed"
  | Error => lit "error"
  end.

Definition ASRState_eqb (a b : ASRState) : bool :=
  match a, b with
  | Idle, Idle | Connecting, Connecting | Ready, Ready
  | Recording, Recording | Processing, Processing
  | Completed, Completed | Error, Error => true
  | _, _ => false
  end.

(** [ASRUtterance] and [ASRResult].  The declared field types are erased
    at run time and the client fills the fields straight from the parsed
    payload, so they hold arbitrary values. *)
Record ASRUtterance := {
  u_text : value;
  u_startTime : value;
  u_endTime : value;
  u_definite : value
}.

Record ASRResult := {
  text : value;
  isPartial : bool;
  utterances : option (list ASRUtterance);
  error : option jsstring
}.

(** [ASREventType]: "state-change", "result", "error", "connected",
    "disconnected". *)
Inductive ASREventType :=
| EvStateChange | EvResult | EvError | EvConnected | EvDisconnected.

(** [ASREvent], without its timestamp. *)
Record ASREvent := {
  ev_type : ASREventType;
  ev_state : ASRState;
  ev_result : option ASRResult;
  ev_error : option jsstring
}.

End Shared.

(* ================================================================== *)
(** * asr-client.ts                                                     *)
(* ================================================================== *)

Module Client.
Import JS Shared.

Definition bytes := list Byte.byte.

(** Reading and writing one element of a Uint8Array. *)
Definition u8 (b : Byte.byte) : Z := Z.of_N (Byte.to_N b).

Definition toU8 (z : Z) : Byte.byte :=
  match Byte.of_N (Z.to_N (z mod 256)) with
  | Some b => b
  | None => Byte.x00
  end.

(** Protocol constants. *)
Definition ProtocolVersion_V1 : Z := 1.
Definition CLIENT_FULL_REQUEST : Z := 1.
Definition CLIENT_AUDIO_ONLY_REQUEST : Z := 2.
Definition SERVER_FULL_RESPONSE : Z := 9.
Definition SERVER_ERROR_RESPONSE : Z := 15.
Definition NO_SEQUENCE : Z := 0.
Definition POS_SEQUENCE : Z := 1.
Definition NEG_SEQUENCE : Z := 2.
Definition NEG_WITH_SEQUENCE : Z := 3.
Definition NO_SERIALIZATION : Z := 0.
Definition JSON : Z := 1.
Definition NO_COMPRESSION : Z := 0.
Definition GZIP : Z := 1.

Inductive ConnectionState := disconnected | connecting | connected | closing.

(** What the client does to the outside, in order.  [console.log] calls
    are left out; [console.warn] and [console.error] are kept. *)
Inductive Effect :=
| SetInterval
| ClearInterval
| WsSend (frame : bytes)
| WsClose
| ConsoleWarn
| ConsoleError
| Callback (r : ASRResult).

(** The mutable fields of [ASRClient]: [ws] and [sendInterval] record
    whether the field is non-null. *)
Record ASRClient := {
  ws : bool;
  connectionState : ConnectionState;
  audioBuffer : list bytes;
  sendInterval : bool
}.

(** State after the constructor. *)
Definition new : ASRClient :=
  {| ws := false; connectionState := disconnected;
     audioBuffer := []; sendInterval := false |}.

Definition isConnected (c : ASRClient) : bool :=
  match connectionState c with connected => true | _ => false end.

Definition stateName (s : ConnectionState) : jsstring :=
  match s with
  | disconnected => lit "disconnected"
  | connecting => lit "connecting"
  | connected => lit "connected"
  | closing => lit "closing"
  end.

(** Message texts of the source, as code units. *)
Definition msg_cannotConnect : jsstring :=   (* asr-client.ts line 153 *)
  [26080; 27861; 36830; 25509; 65306; 24403; 21069; 29366; 24577; 20026; 32]%N.
Definition msg_connectFailed : jsstring :=   (* asr-client.ts line 209 *)
  lit "WebSocket " ++ [36830; 25509; 22833; 36133]%N.
Definition msg_connectionError : jsstring := (* asr-client.ts line 204 *)
  [36830; 25509; 38169; 35823; 58; 32]%N.
Definition msg_errorCode : jsstring :=       (* asr-client.ts line 490 *)
  [38169; 35823; 30721; 32]%N.

(** [buildHeader] *)
Definition buildHeader (messageType flags serialization compression : Z)
  : bytes :=
  [ toU8 (Z.lor (Z.shiftl ProtocolVersion_V1 4) 1);
    toU8 (Z.lor (Z.shiftl messageType 4) flags);
    toU8 (Z.lor (Z.shiftl serialization 4) compression);
    toU8 0 ].

(** [DataView.setUint32(offset, n, false)]: four bytes, big endian. *)
Definition be32 (n : Z) : bytes :=
  [ toU8 (Z.shiftr n 24); toU8 (Z.shiftr n 16); toU8 (Z.shiftr n 8); toU8 n ].

Section WithLibraries.
(** [zlib.gzip], [zlib.gunzip] (failing on malformed input),
    [new TextDecoder().decode], [JSON.parse] (failing on malformed text),
    the engine's error texts, and the encoded initial request
    [TextEncoder.encode(JSON.stringify(payload))] of the configuration. *)
Variable gzip : bytes -> bytes.
Variable gunzip : bytes -> option bytes.
Variable utf8_decode : bytes -> jsstring.
Variable JSON_parse : jsstring -> option value.
Variable engineText : EngineError -> jsstring.
Variable initPayload : bytes.

Definition stopAudioSender (c : ASRClient) : ASRClient * list Effect :=
  if sendInterval c
  then ({| ws := ws c; connectionState := connectionState c;
           audioBuffer := audioBuffer c; sendInterval := false |},
        [ClearInterval])
  else (c, []).

Definition startAudioSender (c : ASRClient) : ASRClient * list Effect :=
  ({| ws := ws c; connectionState := connectionState c;
      audioBuffer := audioBuffer c; sendInterval := true |},
   [SetInterval]).

Definition setConnectionState (s : ConnectionState) (c : ASRClient)
  : ASRClient :=
  {| ws := ws c; connectionState := s;
     audioBuffer := audioBuffer c; sendInterval := sendInterval c |}.

(** [mergeAudioBuffer]: the chunks in arrival order, and the emptied
    queue. *)
Definition mergeAudioBuffer (c : ASRClient) : bytes * ASRClient :=
  (List.concat (audioBuffer c),
   {| ws := ws c; connectionState := connectionState c;
      audioBuffer := []; sendInterval := sendInterval c |}).

(** The bytes [sendAudioPacket] assembles. *)
Definition audioFrame (audioData : bytes) (isLast : bool) : bytes :=
  let compressedAudio := gzip audioData in
  let flags := if isLast then NEG_SEQUENCE else NO_SEQUENCE in
  let header := buildHeader CLIENT_AUDIO_ONLY_REQUEST flags
                            NO_SERIALIZATION GZIP in
  header ++ be32 (Z.of_nat (List.length compressedAudio)) ++ compressedAudio.

Definition sendAudioPacket (audioData : bytes) (isLast : bool)
  (c : ASRClient) : list Effect :=
  if negb (ws c) || negb (isConnected c) then []
  else [WsSend (audioFrame audioData isLast)].

(** [sendFullClientRequest] *)
Definition sendFullClientRequest (c : ASRClient) : list Effect :=
  let compressedPayload := gzip initPayload in
  let header := buildHeader CLIENT_FULL_REQUEST NO_SEQUENCE JSON GZIP in
  let request :=
    header ++ be32 (Z.of_nat (List.length compressedPayload))
           ++ compressedPayload in
  if ws c then [WsSend request] else [].

(** [sendAudio] *)
Definition sendAudio (audioData : bytes) (c : ASRClient)
  : ASRClient * list Effect :=
  if negb (isConnected c) then (c, [ConsoleWarn])
  else ({| ws := ws c; connectionState := connectionState c;
           audioBuffer := audioBuffer c ++ [audioData];
           sendInterval := sendInterval c |}, []).

(** One firing of the interval callback installed by [startAudioSender]. *)
Definition tick (c : ASRClient) : ASRClient * list Effect :=
  match audioBuffer c with
  | [] => (c, [])
  | _ =>
      if negb (isConnected c) then (c, [])
      else let (mergedData, c1) := mergeAudioBuffer c in
           (c1, sendAudioPacket mergedData false c1)
  end.

(** [finish] *)
Definition finish (c : ASRClient) : ASRClient * list Effect :=
  let (c1, e1) := stopAudioSender c in
  if negb (isConnected c1) then (c1, e1)
  else
    match audioBuffer c1 with
    | _ :: _ =>
        let (mergedData, c2) := mergeAudioBuffer c1 in
        (c2, e1 ++ sendAudioPacket mergedData true c2)
    | [] => (c1, e1 ++ sendAudioPacket [] true c1)
    end.

(** [close] *)
Definition close (c : ASRClient) : ASRClient * list Effect :=
  let (c1, e1) := stopAudioSender c in
  ({| ws := false; connectionState := disconnected;
      audioBuffer := []; sendInterval := sendInterval c1 |},
   e1 ++ (if ws c1 then [WsClose] else [])).

(** How the socket created by [connect] behaves. *)
Inductive ConnectEnv :=
| SocketOpens
| SocketErrors (eventText : jsstring)
| ConstructorThrows (e : Thrown).

(** [connect], run up to the settling of its promise. *)
Definition connect (env : ConnectEnv) (c : ASRClient)
  : ASRClient * list Effect * Res unit :=
  match connectionState c with
  | disconnected =>
      match env with
      | ConstructorThrows e =>
          (setConnectionState disconnected c, [], Throw e)
      | SocketOpens =>
          let c1 := {| ws := true; connectionState := connected;
                       audioBuffer := audioBuffer c;
                       sendInterval := sendInterval c |} in
          let e1 := sendFullClientRequest c1 in
          let (c2, e2) := startAudioSender c1 in
          (c2, e1 ++ e2, Ok tt)
      | SocketErrors eventText =>
          let c1 := {| ws := true; connectionState := disconnected;
                       audioBuffer := audioBuffer c;
                       sendInterval := sendInterval c |} in
          (c1,
           [ConsoleError;
            Callback {| text := String []; isPartial := true;
                        utterances := None;
                        error := Some (msg_connectionError ++ eventText) |}],
           Throw (ErrorObject msg_connectFailed))
      end
  | s => (c, [], Throw (ErrorObject (msg_cannotConnect ++ stateName s)))
  end.

(** The socket's [close] event. *)
Definition onSocketClose (c : ASRClient) : ASRClient * list Effect :=
  stopAudioSender (setConnectionState disconnected c).

(** [DataView.getUint32(0, false)] and [getInt32(0, false)] on a view
    over the whole of [payload]. *)
Definition getUint32 (payload : bytes) : Res Z :=
  match payload with
  | a :: b :: c :: d :: _ =>
      Ok (((u8 a * 256 + u8 b) * 256 + u8 c) * 256 + u8 d)
  | _ => raise engineText RangeError_bounds
  end.

Definition getInt32 (payload : bytes) : Res Z :=
  u <- getUint32 payload ;;
  Ok (if u <? 2 ^ 31 then u else u - 2 ^ 32).

Fixpoint mapM {A B} (f : A -> Res B) (l : list A) : Res (list B) :=
  match l with
  | [] => Ok []
  | x :: r => y <- f x ;; ys <- mapM f r ;; Ok (y :: ys)
  end.

(** [v.map(f)]: only an array has a callable [map]. *)
Definition callMap {B} (v : value) (f : value -> Res B) : Res (list B) :=
  match v with
  | Undefined | Null => raise engineText TypeError_nullish
  | Array l => mapM f l
  | _ => raise engineText TypeError_not_callable
  end.

Definition get := JS.get engineText.
Definition optGet := JS.optGet engineText.

(** The [text] expression of [handleResponse] (lines 526-530). *)
Definition extractText (result : value) : Res value :=
  t1 <- get result (lit "text") ;;
  if truthy t1 then Ok t1 else
  pm <- get result (lit "payload_msg") ;;
  r2 <- optGet pm (lit "result") ;;
  t2 <- optGet r2 (lit "text") ;;
  if truthy t2 then Ok t2 else
  us <- get result (lit "utterances") ;;
  nonEmpty <- (if truthy us
               then len <- getLength engineText us ;; Ok (gtZero len)
               else Ok false) ;;
  if nonEmpty : bool
  then texts <- callMap us (fun u => get u (lit "text")) ;;
       Ok (String (joinEmpty texts))
  else Ok (String []).

(** The arrow function mapped over [result.utterances] (lines 532-537). *)
Definition extractUtterance (u : value) : Res ASRUtterance :=
  t <- get u (lit "text") ;;
  s1 <- get u (lit "start_time") ;;
  s2 <- get u (lit "startTime") ;;
  e1 <- get u (lit "end_time") ;;
  e2 <- get u (lit "endTime") ;;
  d <- get u (lit "definite") ;;
  Ok {| u_text := t; u_startTime := JS.or s1 s2;
        u_endTime := JS.or e1 e2; u_definite := d |}.

(** [handleResponse] from line 522 on: the parsed payload to the
    callback. *)
Definition handleFullResponse (jsonData : value) (isLastPackage : bool)
  : Res (list Effect) :=
  pm <- get jsonData (lit "payload_msg") ;;
  r1 <- optGet pm (lit "result") ;;
  result <- (if truthy r1 then Ok r1 else get jsonData (lit "result")) ;;
  if truthy result then
    text <- extractText result ;;
    us <- get result (lit "utterances") ;;
    utterances <- (if nullish us then Ok None
                   else l <- callMap us extractUtterance ;; Ok (Some l)) ;;
    if truthy text || (match utterances with Some _ => true | None => false end)
    then Ok [Callback {| text := text; isPartial := negb isLastPackage;
                         utterances := utterances; error := None |}]
    else Ok []
  else Ok [].

(** [gunzip] then decode, or decode alone, by the compression nibble. *)
Definition decodePayload (compressionMethod : Z) (payload : bytes)
  : Res jsstring :=
  if compressionMethod =? GZIP
  then match gunzip payload with
       | Some decompressed => Ok (utf8_decode decompressed)
       | None => raise engineText Error_zlib
       end
  else Ok (utf8_decode payload).

(** [handleResponse] *)
Definition handleResponse (data : bytes) : Res (list Effect) :=
  match data with
  | d0 :: d1 :: d2 :: _ :: _ =>
      let headerSize := Z.land (u8 d0) 15 * 4 in
      let messageType := Z.land (Z.shiftr (u8 d1) 4) 15 in
      let messageFlags := Z.land (u8 d1) 15 in
      let compressionMethod := Z.land (u8 d2) 15 in
      let payload := skipn (Z.to_nat headerSize) data in
      let payload := if negb (Z.land messageFlags 1 =? 0)
                     then skipn 4 payload else payload in
      let isLastPackage := negb (Z.land messageFlags 2 =? 0) in
      if messageType =? SERVER_ERROR_RESPONSE then
        errorCode <- getInt32 payload ;;
        let payload := skipn 8 payload in
        errorMessage <- decodePayload compressionMethod payload ;;
        Ok [ConsoleError;
            Callback {| text := String []; isPartial := true;
                        utterances := None;
                        error := Some (msg_errorCode ++ decimal errorCode
                                         ++ lit ": " ++ errorMessage) |}]
      else if messageType =? SERVER_FULL_RESPONSE then
        payloadSize <- getUint32 payload ;;
        let payload := skipn 4 payload in
        match payload with
        | [] => Ok []
        | _ =>
            decoded <- decodePayload compressionMethod payload ;;
            match JSON_parse decoded with
            | Some jsonData => handleFullResponse jsonData isLastPackage
            | None => raise engineText SyntaxError_json
            end
        end
      else Ok []
  | _ => Ok [ConsoleError]
  end.

(** The socket's [message] listener: an exception of [handleResponse] is
    caught and logged. *)
Definition onMessage (data : bytes) : list Effect :=
  match handleResponse data with
  | Ok effects => effects
  | Throw _ => [ConsoleError]
  end.

(** The callback invocations among some effects. *)
Definition callbacks (l : list Effect) : list ASRResult :=
  flat_map (fun e => match e with Callback r => [r] | _ => [] end) l.

(** The frames sent among some effects. *)
Definition sent (l : list Effect) : list bytes :=
  flat_map (fun e => match e with WsSend f => [f] | _ => [] end) l.

(** A server error frame as the protocol lays it out: header, sequence
    number when flag bit 0 is set, error code, message length, message. *)
Definition errorFrame (flags compression : Z) (sequence code : Z)
  (body : bytes) : bytes :=
  buildHeader SERVER_ERROR_RESPONSE flags NO_SERIALIZATION compression
    ++ (if Z.testbit flags 0 then be32 sequence else [])
    ++ be32 code
    ++ be32 (Z.of_nat (List.length body))
    ++ body.

(** A server full-response frame: header, sequence number when flag bit 0
    is set, payload length, payload. *)
Definition fullResponseFrame (flags compression : Z) (sequence : Z)
  (body : bytes) : bytes :=
  buildHeader SERVER_FULL_RESPONSE flags JSON compression
    ++ (if Z.testbit flags 0 then be32 sequence else [])
    ++ be32 (Z.of_nat (List.length body))
    ++ body.

(** The client states that its own operations and the socket's [close]
    event produce from a fresh client. *)
Inductive reachable : ASRClient -> Prop :=
| reach_new : reachable new
| reach_connect env c :
    reachable c -> reachable (fst (fst (connect env c)))
| reach_sendAudio audioData c :
    reachable c -> reachable (fst (sendAudio audioData c))
| reach_tick c : reachable c -> reachable (fst (tick c))
| reach_finish c : reachable c -> reachable (fst (finish c))
| reach_close c : reachable c -> reachable (fst (close c))
| reach_onSocketClose c : reachable c -> reachable (fst (onSocketClose c)).

(** ** The asynchronous operations, step by step

    The [open] listener, the timer callback and [finish] each [await]
    a compression before they send, and other listeners and calls run
    while they wait.  [connect], [tick] and [finish] above run each of
    them to its end at once; the definitions below stop at the [await]
    and resume separately. *)

(** [connect] up to the creation of the socket (lines 152-172). *)
Definition connectBegins (c : ASRClient) : ASRClient * Res unit :=
  match connectionState c with
  | disconnected =>
      ({| ws := true; connectionState := connecting;
          audioBuffer := audioBuffer c; sendInterval := sendInterval c |},
       Ok tt)
  | s => (c, Throw (ErrorObject (msg_cannotConnect ++ stateName s)))
  end.

(** The socket's [open] listener up to the [await] of
    [sendFullClientRequest] (lines 175-176, 334). *)
Definition onOpenBegins (c : ASRClient) : ASRClient :=
  setConnectionState connected c.

(** The listener resumed, the compression done: the request goes to
    [this.ws?.send] and the timer is started (lines 352, 180-181). *)
Definition onOpenResumes (c : ASRClient) : ASRClient * list Effect :=
  let e1 := sendFullClientRequest c in
  let (c2, e2) := startAudioSender c in
  (c2, e1 ++ e2).

(** A call of [sendAudioPacket] that has passed its guard and awaits the
    compression of its data (line 410). *)
Record Packet := { p_audioData : bytes; p_isLast : bool }.

(** [sendAudioPacket] up to its [await] (lines 407-410). *)
Definition sendAudioPacketBegins (audioData : bytes) (isLast : bool)
  (c : ASRClient) : option Packet :=
  if negb (ws c) || negb (isConnected c) then None
  else Some {| p_audioData := audioData; p_isLast := isLast |}.

(** [sendAudioPacket] resumed: the frame is assembled and handed to
    [this.ws.send] (line 438), which throws when [close] has set [ws]
    to null meanwhile. *)
Definition sendAudioPacketResumes (p : Packet) (c : ASRClient)
  : list Effect * Res unit :=
  if ws c then ([WsSend (audioFrame (p_audioData p) (p_isLast p))], Ok tt)
  else ([], raise engineText TypeError_nullish).

(** The interval callback up to its [await]. *)
Definition tickBegins (c : ASRClient) : ASRClient * option Packet :=
  match audioBuffer c with
  | [] => (c, None)
  | _ =>
      if negb (isConnected c) then (c, None)
      else let (mergedData, c1) := mergeAudioBuffer c in
           (c1, sendAudioPacketBegins mergedData false c1)
  end.

(** [finish] up to its [await]. *)
Definition finishBegins (c : ASRClient)
  : ASRClient * list Effect * option Packet :=
  let (c1, e1) := stopAudioSender c in
  if negb (isConnected c1) then (c1, e1, None)
  else
    match audioBuffer c1 with
    | _ :: _ =>
        let (mergedData, c2) := mergeAudioBuffer c1 in
        (c2, e1, sendAudioPacketBegins mergedData true c2)
    | [] => (c1, e1, sendAudioPacketBegins [] true c1)
    end.

(** What happens on a client while its socket stays open: the caller
    hands in a chunk, the send timer fires, the compression that is the
    [i]-th of those under way (oldest first) completes, [finish] is
    called. *)
Inductive Event :=
| Offer (audioData : bytes)
| Fire
| Done (i : nat)
| Finish.

(** A client with the packets whose compression is under way, oldest
    first, and what it has done so far. *)
Record Running := {
  self : ASRClient;
  inFlight : list Packet;
  effects : list Effect
}.

Definition start (c : ASRClient) : Running :=
  {| self := c; inFlight := []; effects := [] |}.

Definition pending (p : option Packet) : list Packet :=
  match p with Some p => [p] | None => [] end.

(** One event.  A timer that is not running does not fire, and there is
    nothing to complete where no compression is under way. *)
Definition step (e : Event) (r : Running) : Running :=
  match e with
  | Offer audioData =>
      let (c1, e1) := sendAudio audioData (self r) in
      {| self := c1; inFlight := inFlight r; effects := effects r ++ e1 |}
  | Fire =>
      if sendInterval (self r)
      then let (c1, p) := tickBegins (self r) in
           {| self := c1; inFlight := inFlight r ++ pending p;
              effects := effects r |}
      else r
  | Done i =>
      match nth_error (inFlight r) i with
      | Some p =>
          {| self := self r;
             inFlight := firstn i (inFlight r) ++ skipn (S i) (inFlight r);
             effects := effects r
                          ++ fst (sendAudioPacketResumes p (self r)) |}
      | None => r
      end
  | Finish =>
      let '(c1, e1, p) := finishBegins (self r) in
      {| self := c1; inFlight := inFlight r ++ pending p;
         effects := effects r ++ e1 |}
  end.

Definition steps (evs : list Event) (r : Running) : Running :=
  fold_left (fun r e => step e r) evs r.

(** The frame of a packet, and the frames a running client has sent
    together with those it is about to send. *)
Definition frameOf (p : Packet) : bytes :=
  audioFrame (p_audioData p) (p_isLast p).

Definition committed (r : Running) : list bytes :=
  sent (effects r) ++ map frameOf (inFlight r).

(** A connected client whose socket is open. *)
Definition opened (queue : list bytes) (timer : bool) : ASRClient :=
  {| ws := true; connectionState := connected; audioBuffer := queue;
     sendInterval := timer |}.

End WithLibraries.

(** How the timer firings cut the chunks handed in into batches: a
    firing closes the batch of the chunks handed in since the previous
    one, if there are any; the chunks handed in after the last firing
    are left over.  [queue] holds the chunks handed in since the last
    firing. *)
Fixpoint batches (queue : list bytes) (evs : list Event)
  : list (list bytes) * list bytes :=
  match evs with
  | [] => ([], queue)
  | Offer audioData :: rest => batches (queue ++ [audioData]) rest
  | Fire :: rest =>
      match queue with
      | [] => batches [] rest
      | _ => let (closed, left) := batches [] rest in (queue :: closed, left)
      end
  | _ :: rest => batches queue rest
  end.

(** The chunks handed in during some events, in order. *)
Definition offered (evs : list Event) : list bytes :=
  flat_map (fun e => match e with Offer a => [a] | _ => [] end) evs.

(** Whether every compression completes before any that began after
    it. *)
Definition completesInOrder (evs : list Event) : bool :=
  forallb (fun e => match e with Done (S _) => false | _ => true end) evs.

End Client.

(* ================================================================== *)
(** * asr-manager.ts                                                    *)
(* ================================================================== *)

Module Manager.
Import JS Shared.

(** [TranscriptionHistoryEntry]; times are milliseconds since the epoch. *)
Record TranscriptionHistoryEntry := {
  id : jsstring;
  h_text : value;
  startTime : Z;
  endTime : Z;
  duration : Z
}.

(** What the manager does to the outside, in order: the events it emits,
    the effects of the client it owns, and its own [console.warn].
    Subscribers are the external collaborators; one is taken to be
    subscribed to "error" whenever that event is emitted. *)
Inductive Obs :=
| Emit (e : ASREvent)
| ClientDid (e : Client.Effect)
| Warn.

(** The fields of [ASRManager]; [autoSaveHistory] and [maxHistorySize] are
    the two configuration entries the manager itself reads, [log] is the
    trace of what it did so far. *)
Record ASRManager := {
  autoSaveHistory : bool;
  maxHistorySize : Z;
  client : option Client.ASRClient;
  currentState : ASRState;
  sessionStartTime : option Z;
  partialResults : list ASRResult;
  finalResult : option ASRResult;
  history : list TranscriptionHistoryEntry;
  log : list Obs
}.

(** The constructor; absent configuration entries default to [true] and
    [100]. *)
Definition new (autoSave : option bool) (maxHistory : option Z)
  : ASRManager :=
  {| autoSaveHistory := match autoSave with Some b => b | None => true end;
     maxHistorySize := match maxHistory with Some n => n | None => 100 end;
     client := None; currentState := Idle; sessionStartTime := None;
     partialResults := []; finalResult := None; history := []; log := [] |}.

Definition set_client (c : option Client.ASRClient) (m : ASRManager) :=
  {| autoSaveHistory := autoSaveHistory m; maxHistorySize := maxHistorySize m;
     client := c; currentState := currentState m;
     sessionStartTime := sessionStartTime m;
     partialResults := partialResults m; finalResult := finalResult m;
     history := history m; log := log m |}.

Definition set_currentState (s : ASRState) (m : ASRManager) :=
  {| autoSaveHistory := autoSaveHistory m; maxHistorySize := maxHistorySize m;
     client := client m; currentState := s;
     sessionStartTime := sessionStartTime m;
     partialResults := partialResults m; finalResult := finalResult m;
     history := history m; log := log m |}.

Definition set_sessionStartTime (t : option Z) (m : ASRManager) :=
  {| autoSaveHistory := autoSaveHistory m; maxHistorySize := maxHistorySize m;
     client := client m; currentState := currentState m;
     sessionStartTime := t;
     partialResults := partialResults m; finalResult := finalResult m;
     history := history m; log := log m |}.

Definition set_partialResults (l : list ASRResult) (m : ASRManager) :=
  {| autoSaveHistory := autoSaveHistory m; maxHistorySize := maxHistorySize m;
     client := client m; currentState := currentState m;
     sessionStartTime := sessionStartTime m;
     partialResults := l; finalResult := finalResult m;
     history := history m; log := log m |}.

Definition set_finalResult (r : option ASRResult) (m : ASRManager) :=
  {| autoSaveHistory := autoSaveHistory m; maxHistorySize := maxHistorySize m;
     client := client m; currentState := currentState m;
     sessionStartTime := sessionStartTime m;
     partialResults := partialResults m; finalResult := r;
     history := history m; log := log m |}.

Definition set_history (h : list TranscriptionHistoryEntry) (m : ASRManager) :=
  {| autoSaveHistory := autoSaveHistory m; maxHistorySize := maxHistorySize m;
     client := client m; currentState := currentState m;
     sessionStartTime := sessionStartTime m;
     partialResults := partialResults m; finalResult := finalResult m;
     history := h; log := log m |}.

Definition tell (o : list Obs) (m : ASRManager) :=
  {| autoSaveHistory := autoSaveHistory m; maxHistorySize := maxHistorySize m;
     client := client m; currentState := currentState m;
     sessionStartTime := sessionStartTime m;
     partialResults := partialResults m; finalResult := finalResult m;
     history := history m; log := log m ++ o |}.

(** Message texts of the source, as code units. *)
Definition msg_cannotStart : jsstring :=   (* asr-manager.ts line 145 *)
  [26080; 27861; 24320; 22987; 20250; 35805; 65306;
   24403; 21069; 29366; 24577; 20026; 32]%N.
Definition msg_notStarted : jsstring :=    (* lines 177 and 199 *)
  [20250; 35805; 26410; 24320; 22987]%N.
Definition msg_cannotStop : jsstring :=    (* line 206 *)
  [26080; 27861; 20572; 27490; 20250; 35805; 65306;
   24403; 21069; 29366; 24577; 20026; 32]%N.
Definition msg_waitTimeout : jsstring :=   (* line 328 *)
  [31561; 24453; 26368; 32456; 32467; 26524; 36229; 26102]%N.

(** The error classes of the specification.  The manager throws plain
    [Error] objects; a class is told by the message. *)
Definition InvalidStateError (e : Thrown) : Prop :=
  e = ErrorObject msg_notStarted
  \/ (exists s, e = ErrorObject (msg_cannotStart ++ stateName s))
  \/ (exists s, e = ErrorObject (msg_cannotStop ++ stateName s)).

Definition TimeoutError (e : Thrown) : Prop :=
  e = ErrorObject msg_waitTimeout.

(** Two managers with the same configuration, client, state, start time
    and history: they differ at most in the result buffers and the log. *)
Definition sameSession (m m' : ASRManager) : Prop :=
  autoSaveHistory m' = autoSaveHistory m
  /\ maxHistorySize m' = maxHistorySize m
  /\ client m' = client m
  /\ currentState m' = currentState m
  /\ sessionStartTime m' = sessionStartTime m
  /\ history m' = history m.

(** [emitEvent] *)
Definition emitEvent (type : ASREventType) (result : option ASRResult)
  (error : option jsstring) (m : ASRManager) : ASRManager :=
  tell [Emit {| ev_type := type; ev_state := currentState m;
                ev_result := result; ev_error := error |}] m.

(** [setState] *)
Definition setState (state : ASRState) (m : ASRManager) : ASRManager :=
  let previousState := currentState m in
  let m1 := set_currentState state m in
  if ASRState_eqb previousState state then m1
  else emitEvent EvStateChange None None m1.

(** [if (result.error)]: present and not the empty string. *)
Definition hasError (r : ASRResult) : bool :=
  match error r with
  | Some (_ :: _) => true
  | _ => false
  end.

(** [handleTranscriptionResult], the callback given to the client. *)
Definition handleTranscriptionResult (result : ASRResult) (m : ASRManager)
  : ASRManager :=
  if hasError result then emitEvent EvError (Some result) (error result) m
  else
    let m1 := if isPartial result
              then set_partialResults (partialResults m ++ [result]) m
              else set_finalResult (Some result) m in
    emitEvent EvResult (Some result) None m1.

Definition deliver (results : list ASRResult) (m : ASRManager) : ASRManager :=
  fold_left (fun m r => handleTranscriptionResult r m) results m.

(** The effects of a client call, recorded in order, with every callback
    invocation among them run through [handleTranscriptionResult]. *)
Definition runClientEffects (effects : list Client.Effect) (m : ASRManager)
  : ASRManager :=
  fold_left
    (fun m e =>
       let m1 := tell [ClientDid e] m in
       match e with
       | Client.Callback r => handleTranscriptionResult r m1
       | _ => m1
       end)
    effects m.

(** [(error as Error).message] *)
Definition messageProperty (e : Thrown) : option jsstring :=
  match e with
  | ErrorObject msg => Some msg
  | NonError _ => None
  end.

(** [{ ...lastPartial, isPartial: false }] *)
Definition promote (lastPartial : ASRResult) : ASRResult :=
  {| text := text lastPartial; isPartial := false;
     utterances := utterances lastPartial; error := error lastPartial |}.

(** [this.partialResults[this.partialResults.length - 1]] *)
Definition lastPartial (m : ASRManager) : option ASRResult :=
  match rev (partialResults m) with
  | r :: _ => Some r
  | [] => None
  end.

(** The surroundings of the polling loop: [sleepTime k] is how long the
    k-th [setTimeout(resolve, 100)] sleep lasts by [Date.now()], in
    milliseconds, and [arrivals k] are the results the socket delivers
    during that sleep.  A timer fires about 100 ms later, now a
    millisecond early by the clock, now late by any amount; all that is
    taken for granted is that the clock has moved on, by a millisecond
    or more, when the sleep is over. *)
Record WaitEnv := {
  sleepTime : nat -> positive;
  arrivals : nat -> list ASRResult
}.

(** [Date.now() - startTime] at the k-th evaluation of the timeout test. *)
Fixpoint elapsed (env : WaitEnv) (k : nat) : Z :=
  match k with
  | O => 0
  | S j => elapsed env j + Z.pos (sleepTime env j)
  end.

(** The results delivered during the first [k] sleeps, in order. *)
Definition arrived (env : WaitEnv) (k : nat) : list ASRResult :=
  flat_map (arrivals env) (seq 0 k).

(** The loop of [waitForFinalResult], entered for the k-th time.  The
    answer is the manager, the completion, and the number of sleeps gone
    through; [None] when [fuel] iterations were not enough. *)
Fixpoint waitLoop (fuel : nat) (timeoutMs : Z) (env : WaitEnv) (k : nat)
  (m : ASRManager) : option (ASRManager * Res ASRResult * nat) :=
  match fuel with
  | O => None
  | S fuel' =>
      match finalResult m with
      | Some r => Some (m, Ok r, k)
      | None =>
          if elapsed env k >? timeoutMs then
            match lastPartial m with
            | Some p => Some (tell [Warn] m, Ok (promote p), k)
            | None => Some (m, Throw (ErrorObject msg_waitTimeout), k)
            end
          else waitLoop fuel' timeoutMs env (S k) (deliver (arrivals env k) m)
      end
  end.

(** [waitForFinalResult]: a sleep lasts a millisecond or more, so the
    test after [timeoutMs + 1] of them is past the timeout. *)
Definition waitForFinalResult (timeoutMs : Z) (env : WaitEnv)
  (m : ASRManager) : option (ASRManager * Res ASRResult * nat) :=
  waitLoop (Z.to_nat timeoutMs + 2) timeoutMs env 0 m.

(** [Array.prototype.slice(0, k)] for an integral [k]. *)
Definition slice0 {A} (l : list A) (k : Z) : list A :=
  let len := Z.of_nat (List.length l) in
  let final := if k <? 0 then Z.max (len + k) 0 else Z.min k len in
  firstn (Z.to_nat final) l.

(** The entry [addToHistory] builds. *)
Definition mkEntry (uuid : jsstring) (result : ASRResult) (start now : Z)
  : TranscriptionHistoryEntry :=
  {| id := uuid; h_text := text result; startTime := start;
     endTime := now; duration := now - start |}.

(** [unshift] followed by the size limit. *)
Definition pushHistory (maxSize : Z) (entry : TranscriptionHistoryEntry)
  (h : list TranscriptionHistoryEntry) : list TranscriptionHistoryEntry :=
  let h1 := entry :: h in
  if Z.of_nat (List.length h1) >? maxSize then slice0 h1 maxSize else h1.

Section WithLibraries.
Variable gzip : Client.bytes -> Client.bytes.
Variable initPayload : Client.bytes.
Variable engineText : EngineError -> jsstring.

(** [addToHistory]; [now] is [new Date()] and [uuid] is
    [crypto.randomUUID()].  Reading the start time of a session that has
    none is a TypeError. *)
Definition addToHistory (result : ASRResult) (now : Z) (uuid : jsstring)
  (m : ASRManager) : Res ASRManager :=
  match sessionStartTime m with
  | None => raise engineText TypeError_nullish
  | Some start =>
      Ok (set_history
            (pushHistory (maxHistorySize m) (mkEntry uuid result start now)
                         (history m)) m)
  end.

(** [cleanup] *)
Definition cleanup (m : ASRManager) : ASRManager :=
  let m1 := match client m with
            | Some c =>
                let (c1, effects) := Client.close c in
                set_client None (runClientEffects effects m)
            | None => m
            end in
  set_sessionStartTime None m1.

(** [startSession]; [now] is [new Date()]. *)
Definition startSession (env : Client.ConnectEnv) (now : Z) (m : ASRManager)
  : ASRManager * Res unit :=
  match currentState m with
  | Idle =>
      let m1 := setState Connecting m in
      let m2 := set_finalResult None
                  (set_partialResults [] (set_sessionStartTime (Some now) m1)) in
      let '(c, effects, outcome) :=
        Client.connect gzip initPayload env Client.new in
      let m3 := runClientEffects effects (set_client (Some c) m2) in
      match outcome with
      | Ok _ => (emitEvent EvConnected None None (setState Ready m3), Ok tt)
      | Throw e =>
          (emitEvent EvError None (messageProperty e) (setState Error m3),
           Throw e)
      end
  | s => (m, Throw (ErrorObject (msg_cannotStart ++ stateName s)))
  end.

(** [sendAudio] *)
Definition sendAudio (audioData : Client.bytes) (m : ASRManager)
  : ASRManager * Res unit :=
  match client m with
  | None => (m, Throw (ErrorObject msg_notStarted))
  | Some c =>
      let m1 := match currentState m with
                | Ready => setState Recording m
                | _ => m
                end in
      match currentState m1 with
      | Recording =>
          let (c1, effects) := Client.sendAudio audioData c in
          (runClientEffects effects (set_client (Some c1) m1), Ok tt)
      | _ => (tell [Warn] m1, Ok tt)
      end
  end.

(** The surroundings of one [stopSession] call: the results delivered
    while [finish] is awaited, the polling environment, and the clock and
    identifier [addToHistory] would draw. *)
Record StopEnv := {
  duringFinish : list ASRResult;
  waitEnv : WaitEnv;
  stopNow : Z;
  uuid : jsstring
}.

(** The [catch] and [finally] blocks of [stopSession]. *)
Definition stopFailed (e : Thrown) (m : ASRManager)
  : ASRManager * option (Res ASRResult) :=
  (cleanup (emitEvent EvError None (messageProperty e) (setState Error m)),
   Some (Throw e)).

(** [stopSession]; the answer is [None] while the promise is pending. *)
Definition stopSession (env : StopEnv) (m : ASRManager)
  : ASRManager * option (Res ASRResult) :=
  match client m with
  | None => (m, Some (Throw (ErrorObject msg_notStarted)))
  | Some c =>
      match currentState m with
      | Recording | Ready =>
          let m1 := setState Processing m in
          let (c1, effects) := Client.finish gzip c in
          let m2 := runClientEffects effects (set_client (Some c1) m1) in
          let m3 := deliver (duringFinish env) m2 in
          match waitForFinalResult 5000 (waitEnv env) m3 with
          | None => (m3, None)
          | Some (m4, Throw e, _) => stopFailed e m4
          | Some (m4, Ok result, _) =>
              let m5 := setState Completed m4 in
              if autoSaveHistory m5 && truthy (text result) then
                match addToHistory result (stopNow env) (uuid env) m5 with
                | Ok m6 => (cleanup m6, Some (Ok result))
                | Throw e => stopFailed e m5
                end
              else (cleanup m5, Some (Ok result))
          end
      | s => (m, Some (Throw (ErrorObject (msg_cannotStop ++ stateName s))))
      end
  end.

(** [cancelSession].  The un-awaited [cleanup()] has run to its end by
    the time the caller's continuation is scheduled. *)
Definition cancelSession (m : ASRManager) : ASRManager :=
  let m1 := match client m with
            | Some c =>
                let (c1, effects) := Client.close c in
                runClientEffects effects (set_client (Some c1) m)
            | None => m
            end in
  setState Idle (cleanup m1).

(** [clearHistory] *)
Definition clearHistory (m : ASRManager) : ASRManager := set_history [] m.

(** The session lifecycle operations, and all public operations together
    with a result arriving from the socket between two calls. *)
Inductive Lifecycle :=
| StartSession (env : Client.ConnectEnv) (now : Z)
| SendAudio (audioData : Client.bytes)
| StopSession (env : StopEnv)
| CancelSession.

Inductive Op :=
| Call (l : Lifecycle)
| ClearHistory
| Incoming (r : ASRResult).

Definition runLifecycle (l : Lifecycle) (m : ASRManager) : ASRManager :=
  match l with
  | StartSession env now => fst (startSession env now m)
  | SendAudio audioData => fst (sendAudio audioData m)
  | StopSession env => fst (stopSession env m)
  | CancelSession => cancelSession m
  end.

Definition run (o : Op) (m : ASRManager) : ASRManager :=
  match o with
  | Call l => runLifecycle l m
  | ClearHistory => clearHistory m
  | Incoming r => handleTranscriptionResult r m
  end.

(** What reaches the manager between [startSession] and [stopSession]. *)
Inductive Feed :=
| Audio (audioData : Client.bytes)
| Heard (r : ASRResult).

Definition feed (f : Feed) (m : ASRManager) : ASRManager :=
  match f with
  | Audio audioData => fst (sendAudio audioData m)
  | Heard r => handleTranscriptionResult r m
  end.

(** One completed session with non-empty text: [startSession] succeeds,
    audio and results come in, [stopSession] returns a result whose text
    is not empty, and [cancelSession] brings the manager back to Idle.
    [entry] is the history entry such a session is due. *)
Inductive session (m : ASRManager) (entry : TranscriptionHistoryEntry)
  (m' : ASRManager) : Prop :=
| session_intro cenv start feeds senv r m1 m3 :
    startSession cenv start m = (m1, Ok tt) ->
    stopSession senv (fold_left (fun m f => feed f m) feeds m1)
      = (m3, Some (Ok r)) ->
    truthy (text r) = true ->
    entry = mkEntry (uuid senv) r start (stopNow senv) ->
    m' = cancelSession m3 ->
    session m entry m'.

(** Completed sessions one after the other, with the entries they are
    due, oldest first. *)
Inductive sessions : ASRManager -> list TranscriptionHistoryEntry
                     -> ASRManager -> Prop :=
| sessions_nil m : sessions m [] m
| sessions_cons m e m1 es m2 :
    session m e m1 -> sessions m1 es m2 -> sessions m (e :: es) m2.

(** The socket's [close] event while the manager holds the client: the
    listener installed by [connect] runs; the manager has no listener of
    its own. *)
Definition socketCloses (m : ASRManager) : ASRManager :=
  match client m with
  | Some c =>
      let (c1, effects) := Client.onSocketClose c in
      runClientEffects effects (set_client (Some c1) m)
  | None => m
  end.

End WithLibraries.

(** The frames a trace shows as sent on the socket, in order. *)
Definition framesSent (trace : list Obs) : list Client.bytes :=
  flat_map (fun o => match o with
                     | ClientDid (Client.WsSend frame) => [frame]
                     | _ => []
                     end)
           trace.

(** [getHistoryEntry] *)
Definition getHistoryEntry (wanted : jsstring) (m : ASRManager)
  : option TranscriptionHistoryEntry :=
  find (fun entry => jsstring_eqb (id entry) wanted) (history m).

(** The state carried by the last "state-change" event of a trace, Idle
    when there is none: what a subscriber that follows the events takes
    the state to be. *)
Definition lastState (trace : list Obs) : ASRState :=
  fold_left (fun s o =>
               match o with
               | Emit e => match ev_type e with
                           | EvStateChange => ev_state e
                           | _ => s
                           end
               | _ => s
               end)
            trace Idle.

(** Between two calls the manager is at rest: with a client and a start
    time in Ready and Recording, with neither in Idle and Completed, with
    both or neither in Error, and never in Connecting or Processing. *)
Definition atRest (m : ASRManager) : Prop :=
  match currentState m with
  | Ready | Recording => client m <> None /\ sessionStartTime m <> None
  | Idle | Completed => client m = None /\ sessionStartTime m = None
  | Error => client m = None <-> sessionStartTime m = None
  | Connecting | Processing => False
  end.

End Manager.

(* ================================================================== *)
(** * rewrite/index.ts                                                  *)
(* ================================================================== *)

Module Rewrite.
Import JS.

(** [Required<RewriteConfig>]; the temperature is a fraction. *)
Record RewriteConfig := {
  apiUrl : jsstring;
  apiKey : jsstring;
  model : jsstring;
  temperature : Z * positive;
  maxTokens : Z
}.

(** The constructor, with [DEFAULT_REWRITE_CONFIG] for what is absent. *)
Definition new (url key modelName : jsstring)
  (temp : option (Z * positive)) (maxTok : option Z) : RewriteConfig :=
  {| apiUrl := url; apiKey := key; model := modelName;
     temperature := match temp with Some t => t | None => (3, 10%positive) end;
     maxTokens := match maxTok with Some n => n | None => 4096 end |}.

Record RewriteResult := {
  original : jsstring;
  polished : jsstring;
  success : bool;
  error : option jsstring
}.

(** The arguments of the one [fetch] call, the body before
    [JSON.stringify]. *)
Record Request := {
  url : jsstring;
  authorization : jsstring;
  body_model : jsstring;
  systemContent : jsstring;
  userContent : jsstring;
  body_temperature : Z * positive;
  body_max_tokens : Z
}.

(** What the code reads of a [Response]: [ok], [status], and the outcome
    of awaiting [text()] and [json()]. *)
Record Response := {
  ok : bool;
  status : Z;
  textBody : Res jsstring;
  jsonBody : Res value
}.

(** Message texts of the source, as code units. *)
Definition msg_requestFailed : jsstring :=   (* index.ts line 118 *)
  lit "API " ++ [35831; 27714; 22833; 36133; 58; 32]%N.
Definition msg_emptyResult : jsstring :=     (* index.ts line 131 *)
  lit "API " ++ [36820; 22238; 31354; 32467; 26524]%N.

Section WithFetch.
(** The global [fetch] (a rejection is a [Throw]), the engine's error
    texts, and the [SYSTEM_PROMPT] constant. *)
Variable fetch : Request -> Res Response.
Variable engineText : EngineError -> jsstring.
Variable SYSTEM_PROMPT : jsstring.

(** [data.choices?.[0]?.message?.content?.trim()] *)
Definition completion (data : value) : Res value :=
  choices <- get engineText data (lit "choices") ;;
  first <- (if nullish choices then Ok Undefined
            else getIndex0 engineText choices) ;;
  message <- optGet engineText first (lit "message") ;;
  content <- optGet engineText message (lit "content") ;;
  optCallTrim engineText content.

Definition failure (text errorMessage : jsstring) : RewriteResult :=
  {| original := text; polished := text; success := false;
     error := Some errorMessage |}.

Definition mkRequest (config : RewriteConfig) (trimmedText : jsstring)
  : Request :=
  {| url := apiUrl config;
     authorization := lit "Bearer " ++ apiKey config;
     body_model := model config;
     systemContent := SYSTEM_PROMPT;
     userContent := trimmedText;
     body_temperature := temperature config;
     body_max_tokens := maxTokens config |}.

(** The body of the [try] block of [rewrite]. *)
Definition tryRewrite (config : RewriteConfig) (text trimmedText : jsstring)
  : Res RewriteResult :=
  response <- fetch (mkRequest config trimmedText) ;;
  if negb (ok response) then
    errorText <- textBody response ;;
    Ok (failure text (msg_requestFailed ++ decimal (status response)))
  else
    data <- jsonBody response ;;
    polished <- completion data ;;
    match polished with
    | String (c :: s) =>
        Ok {| original := text; polished := c :: s; success := true;
              error := None |}
    | _ => Ok (failure text msg_emptyResult)
    end.

(** [rewrite]: the result, and the requests handed to [fetch]. *)
Definition rewrite (config : RewriteConfig) (text : jsstring)
  : RewriteResult * list Request :=
  let trimmedText := trim text in
  match trimmedText with
  | [] =>
      ({| original := text; polished := []; success := true;
          error := None |}, [])
  | _ :: _ =>
      match apiKey config with
      | [] =>
          ({| original := text; polished := text; success := true;
              error := None |}, [])
      | _ :: _ =>
          (match tryRewrite config text trimmedText with
           | Ok result => result
           | Throw e => failure text (thrownMessage e)
           end,
           [mkRequest config trimmedText])
      end
  end.

(** [rewriteText]: a service built from the given configuration, and the
    polished text of its [rewrite]. *)
Definition rewriteText (text : jsstring) (url key modelName : jsstring)
  (temp : option (Z * positive)) (maxTok : option Z) : jsstring :=
  polished (fst (rewrite (new url key modelName temp maxTok) text)).

End WithFetch.

(** [createRewriteServiceFromEnv]; the arguments are the three
    environment variables, [None] when unset. *)
Definition createRewriteServiceFromEnv
  (transcribe_model_api_url transcribe_model_api_key transcribe_model
     : option jsstring) : option RewriteConfig :=
  match transcribe_model_api_url, transcribe_model_api_key,
        transcribe_model with
  | Some (u :: url'), Some (k :: key'), Some (m :: model') =>
      Some (new (u :: url') (k :: key') (m :: model') None None)
  | _, _, _ => None
  end.

End Rewrite.

(* ================================================================== *)
(** * audio-processor.ts: class AudioBuffer                             *)
(* ================================================================== *)

Module AudioBuffer.

Definition bytes := list Byte.byte.

(** [concatUint8Arrays] *)
Definition concatUint8Arrays (arrays : list bytes) : bytes :=
  List.concat arrays.

(** The two private fields. *)
Record AudioBuffer := {
  buffers : list bytes;
  totalLength : Z
}.

(** A fresh instance. *)
Definition new : AudioBuffer := {| buffers := []; totalLength := 0 |}.

(** [push] *)
Definition push (data : bytes) (b : AudioBuffer) : AudioBuffer :=
  {| buffers := buffers b ++ [data];
     totalLength := totalLength b + Z.of_nat (List.length data) |}.

(** [clear] *)
Definition clear (b : AudioBuffer) : AudioBuffer := new.

(** [flush]: the merged data and the buffer afterwards. *)
Definition flush (b : AudioBuffer) : bytes * AudioBuffer :=
  match buffers b with
  | [] => ([], b)
  | _ :: _ => (concatUint8Arrays (buffers b), clear b)
  end.

(** [peek]: [merged.slice(0, Math.min(length, merged.length))]. *)
Definition peek (length : Z) (b : AudioBuffer) : bytes :=
  let merged := concatUint8Arrays (buffers b) in
  Manager.slice0 merged (Z.min length (Z.of_nat (List.length merged))).

(** The [length] and [isEmpty] getters. *)
Definition length (b : AudioBuffer) : Z := totalLength b.

Definition isEmpty (b : AudioBuffer) : bool := totalLength b =? 0.

End AudioBuffer.

(* ================================================================== *)
(** * Concrete surroundings used to instantiate the statements          *)
(* ================================================================== *)

Module Example.
Import JS Shared.

(** A stand-in for gzip: the two magic bytes in front of the stored
    data; its inverse; a decoder for ASCII text. *)
Definition gzip (b : Client.bytes) : Client.bytes :=
  Byte.x1f :: Byte.x8b :: b.

Definition gunzip (b : Client.bytes) : option Client.bytes :=
  match b with
  | Byte.x1f :: Byte.x8b :: r => Some r
  | _ => None
  end.

Definition utf8_decode (b : Client.bytes) : jsstring := map Byte.to_N b.

Definition utf8_encode (s : string) : Client.bytes :=
  map Ascii.byte_of_ascii (list_ascii_of_string s).

Definition engineText (k : EngineError) : jsstring :=
  match k with
  | TypeError_nullish => lit "Cannot read properties of undefined"
  | TypeError_not_callable => lit "is not a function"
  | RangeError_bounds => lit "Offset is outside the bounds of the DataView"
  | Error_zlib => lit "incorrect header check"
  | SyntaxError_json => lit "Unexpected token"
  end.

Definition initPayload : Client.bytes := utf8_encode "{}".

(** Two audio chunks. *)
Definition chunk1 : Client.bytes := [Byte.x01; Byte.x02].
Definition chunk2 : Client.bytes := [Byte.x03].

(** A connected client with both chunks queued. *)
Definition liveClient : Client.ASRClient :=
  fst (Client.sendAudio chunk2
         (fst (Client.sendAudio chunk1
                 (fst (fst (Client.connect gzip initPayload
                                           Client.SocketOpens Client.new)))))).

(** A client right after its socket opened. *)
Definition connectedClient : Client.ASRClient :=
  fst (fst (Client.connect gzip initPayload Client.SocketOpens Client.new)).

(** A parsed response with a text, and the members of a result that has
    two utterances and no text. *)
Definition helloResponse : value :=
  Object [(lit "result", Object [(lit "text", String (lit "hello"))])].

Definition twoUtterances : list (jsstring * value) :=
  [(lit "utterances",
    Array [Object [(lit "text", String (lit "he"))];
           Object [(lit "text", String (lit "llo"))]])].

(** The payload of a response with empty text and no utterance: the 38
    bytes of the JSON text, what they parse to, and a parser that reads
    this one text. *)
Definition emptyUtterancesBody : Client.bytes :=
  [Byte.x7b; Byte.x22; Byte.x72; Byte.x65; Byte.x73; Byte.x75; Byte.x6c;
   Byte.x74; Byte.x22; Byte.x3a; Byte.x7b; Byte.x22; Byte.x74; Byte.x65;
   Byte.x78; Byte.x74; Byte.x22; Byte.x3a; Byte.x22; Byte.x22; Byte.x2c;
   Byte.x22; Byte.x75; Byte.x74; Byte.x74; Byte.x65; Byte.x72; Byte.x61;
   Byte.x6e; Byte.x63; Byte.x65; Byte.x73; Byte.x22; Byte.x3a; Byte.x5b;
   Byte.x5d; Byte.x7d; Byte.x7d].

Definition emptyUtterances : value :=
  Object [(lit "result",
           Object [(lit "text", String []); (lit "utterances", Array [])])].

Definition parseThisText (s : jsstring) : option value :=
  if jsstring_eqb s (utf8_decode emptyUtterancesBody)
  then Some emptyUtterances else None.

(** Results as the socket delivers them. *)
Definition partialHello : ASRResult :=
  {| text := String (lit "hello"); isPartial := true;
     utterances := None; error := None |}.

Definition finalText (s : string) : ASRResult :=
  {| text := String (lit s); isPartial := false;
     utterances := None; error := None |}.

(** Exact timers and a silent socket. *)
Definition quietWait : Manager.WaitEnv :=
  {| Manager.sleepTime := fun _ => 100%positive;
     Manager.arrivals := fun _ => [] |}.

Definition quietStop : Manager.StopEnv :=
  {| Manager.duringFinish := []; Manager.waitEnv := quietWait;
     Manager.stopNow := 7000; Manager.uuid := lit "id-0" |}.

(** Timers that fire a millisecond early by the clock, and a final
    result that arrives during the third sleep. *)
Definition earlyWait : Manager.WaitEnv :=
  {| Manager.sleepTime := fun _ => 99%positive;
     Manager.arrivals := fun k => if Nat.eqb k 2 then [finalText "done"]
                                  else [] |}.

Definition earlyStop : Manager.StopEnv :=
  {| Manager.duringFinish := []; Manager.waitEnv := earlyWait;
     Manager.stopNow := 7000; Manager.uuid := lit "id-0" |}.

(** A [stopSession] during whose [finish] the final result arrives. *)
Definition stopWith (r : ASRResult) (now : Z) (uuid : string)
  : Manager.StopEnv :=
  {| Manager.duringFinish := [r]; Manager.waitEnv := quietWait;
     Manager.stopNow := now; Manager.uuid := lit uuid |}.

Definition startSession := Manager.startSession gzip initPayload.
Definition stopSession := Manager.stopSession gzip engineText.
Definition cancelSession := Manager.cancelSession.
Definition sendAudio := Manager.sendAudio.

(** A manager right after a successful [startSession] at time 1000, the
    same after one chunk and one partial result, and the same with no
    partial result. *)
Definition readyManager : Manager.ASRManager :=
  fst (startSession Client.SocketOpens 1000 (Manager.new None None)).

Definition recordingManager : Manager.ASRManager :=
  fst (sendAudio chunk1 readyManager).

Definition heardPartial : Manager.ASRManager :=
  Manager.handleTranscriptionResult partialHello recordingManager.

(** Three sessions on a manager that keeps two entries. *)
Definition smallManager : Manager.ASRManager :=
  Manager.new None (Some 2).

Definition oneSession (r : ASRResult) (start now : Z) (uuid : string)
  (m : Manager.ASRManager) : Manager.ASRManager :=
  cancelSession
    (fst (stopSession (stopWith r now uuid)
            (fst (sendAudio chunk1
                    (fst (startSession Client.SocketOpens start m)))))).

Definition entryOf (r : ASRResult) (start now : Z) (uuid : string)
  : Manager.TranscriptionHistoryEntry :=
  Manager.mkEntry (lit uuid) r start now.

Definition r1 : ASRResult := finalText "one".
Definition r2 : ASRResult := finalText "two".
Definition r3 : ASRResult := finalText "three".

Definition after1 : Manager.ASRManager :=
  oneSession r1 1000 1500 "id-1" smallManager.
Definition after2 : Manager.ASRManager :=
  oneSession r2 2000 2500 "id-2" after1.
Definition after3 : Manager.ASRManager :=
  oneSession r3 3000 3500 "id-3" after2.

(** The third session under way, on the history the first two filled. *)
Definition thirdRecording : Manager.ASRManager :=
  fst (sendAudio chunk1 (fst (startSession Client.SocketOpens 3000 after2))).

(** A rewrite service with a key, a [fetch] that rejects with an error
    whose message is empty, and one that answers 401. *)
Definition rewriteConfig : Rewrite.RewriteConfig :=
  Rewrite.new (lit "https://api.example.com") (lit "key") (lit "model")
              None None.

Definition systemPrompt : jsstring := lit "polish".

Definition fetchRejectsBare (_ : Rewrite.Request) : Res Rewrite.Response :=
  Throw (ErrorObject []).

(** A completion body whose content has white space around it, and a
    [fetch] that answers with it. *)
Definition completionBody : value :=
  Object [(lit "choices",
           Array [Object [(lit "message",
                           Object [(lit "content",
                                    String (lit "  Hello world. "))])]])].

Definition fetchCompletes (_ : Rewrite.Request) : Res Rewrite.Response :=
  Ok {| Rewrite.ok := true; Rewrite.status := 200;
        Rewrite.textBody := Ok (lit "{}");
        Rewrite.jsonBody := Ok completionBody |}.

(** Three samples: 1.5, -1.5 and NaN. *)
Definition samples : list spec_float :=
  [Audio.f_one_and_half; SFopp Audio.f_one_and_half; S754_nan].

Definition fetchUnauthorized (_ : Rewrite.Request) : Res Rewrite.Response :=
  Ok {| Rewrite.ok := false; Rewrite.status := 401;
        Rewrite.textBody := Ok (lit "Unauthorized");
        Rewrite.jsonBody := Throw (ErrorObject (lit "not JSON")) |}.

End Example.

(* ================================================================== *)
(** * Properties of asr-client.ts                                       *)
(* ================================================================== *)

Section ClientArithmetic.
Import JS Shared Client.

Lemma u8_toU8 (z : Z) : u8 (toU8 z) = z mod 256.
Proof.
  unfold u8, toU8.
  assert (Hr : 0 <= z mod 256 < 256) by (apply Z.mod_pos_bound; lia).
  destruct (Byte.of_N (Z.to_N (z mod 256))) as [b|] eqn:E.
  - apply Byte.to_of_N in E. rewrite E. lia.
  - apply Byte.of_N_None_iff in E. lia.
Qed.

Lemma nibble_cases (x : Z) :
  0 <= x < 16 ->
  In x [0; 1; 2; 3; 4; 5; 6; 7; 8; 9; 10; 11; 12; 13; 14; 15].
Proof.
  intros H. simpl.
  assert (x = 0 \/ x = 1 \/ x = 2 \/ x = 3 \/ x = 4 \/ x = 5 \/ x = 6
          \/ x = 7 \/ x = 8 \/ x = 9 \/ x = 10 \/ x = 11 \/ x = 12
          \/ x = 13 \/ x = 14 \/ x = 15) as Hx by lia.
  repeat (destruct Hx as [->|Hx]; [auto 20|]). subst x. auto 20.
Qed.

(** The second and third header byte give back the nibbles they were
    built from. *)
Lemma header_nibbles (hi lo : Z) :
  0 <= hi < 16 -> 0 <= lo < 16 ->
  let b := u8 (toU8 (Z.lor (Z.shiftl hi 4) lo)) in
  Z.land (Z.shiftr b 4) 15 = hi /\ Z.land b 15 = lo.
Proof.
  intros Hhi Hlo.
  apply nibble_cases in Hhi. apply nibble_cases in Hlo.
  simpl in Hhi, Hlo.
  repeat (destruct Hhi as [<-|Hhi]); try contradiction;
    repeat (destruct Hlo as [<-|Hlo]); try contradiction;
    vm_compute; split; reflexivity.
Qed.

Lemma flag_bit0 (flags : Z) :
  0 <= flags < 16 ->
  negb (Z.land flags 1 =? 0) = Z.testbit flags 0.
Proof.
  intros H. apply nibble_cases in H. simpl in H.
  repeat (destruct H as [<-|H]); try contradiction; reflexivity.
Qed.

Lemma getUint32_be32 engineText (n : Z) (rest : bytes) :
  getUint32 engineText (be32 n ++ rest) = Ok (n mod 2 ^ 32).
Proof.
  unfold be32, getUint32. cbn [app]. rewrite !u8_toU8.
  rewrite !Z.shiftr_div_pow2 by lia. f_equal.
  change (2 ^ 24) with 16777216. change (2 ^ 16) with 65536.
  change (2 ^ 8) with 256. change (2 ^ 32) with 4294967296.
  Z.div_mod_to_equations. lia.
Qed.

Lemma getInt32_be32 engineText (n : Z) (rest : bytes) :
  - 2 ^ 31 <= n < 2 ^ 31 ->
  getInt32 engineText (be32 n ++ rest) = Ok n.
Proof.
  intros H. unfold getInt32. rewrite getUint32_be32. cbn [bind]. f_equal.
  change (2 ^ 31) with 2147483648 in *.
  change (2 ^ 32) with 4294967296 in *.
  destruct (n mod 4294967296 <? 2147483648) eqn:E;
    [apply Z.ltb_lt in E | apply Z.ltb_ge in E];
    Z.div_mod_to_equations; lia.
Qed.

Lemma skipn_be32 (n : Z) (rest : bytes) : skipn 4 (be32 n ++ rest) = rest.
Proof. reflexivity. Qed.

Lemma skipn4_cons {A} (a b c d : A) (l : list A) :
  skipn 4 (a :: b :: c :: d :: l) = l.
Proof. reflexivity. Qed.

Lemma includes_middle (a b c : jsstring) : includes (a ++ b ++ c) b.
Proof. exists a, c. reflexivity. Qed.

Lemma includes_suffix (a b : jsstring) : includes (a ++ b) b.
Proof. exists a, []. now rewrite app_nil_r. Qed.

End ClientArithmetic.

Section ClientFacts.
Import JS Shared Client.

Variable gzip : bytes -> bytes.
Variable gunzip : bytes -> option bytes.
Variable utf8_decode : bytes -> jsstring.
Variable JSON_parse : jsstring -> option value.
Variable engineText : EngineError -> jsstring.
Variable initPayload : bytes.

(** C5: a server error frame with code [code] and message bytes
    [message] (sent as they are, or gzip-compressed as [body]) makes the
    client invoke the callback exactly once, with empty text,
    [isPartial = true], and an error string that contains the decimal
    code and the decoded message. *)
Theorem server_error_frame_reported
  (flags compression sequence code : Z) (body message : bytes) :
  0 <= flags < 16 ->
  0 <= compression < 16 ->
  - 2 ^ 31 <= code < 2 ^ 31 ->
  (if compression =? GZIP then gunzip body = Some message
   else body = message) ->
  let frame := errorFrame flags compression sequence code body in
  let e := msg_errorCode ++ decimal code ++ lit ": " ++ utf8_decode message in
  let r := {| text := String []; isPartial := true; utterances := None;
              error := Some e |} in
  handleResponse gunzip utf8_decode JSON_parse engineText frame
    = Ok [ConsoleError; Callback r]
  /\ callbacks (onMessage gunzip utf8_decode JSON_parse engineText frame) = [r]
  /\ includes e (decimal code)
  /\ includes e (utf8_decode message).
Proof using Type.
  intros Hf Hc Hcode Hbody frame e r.
  assert (Hrun : handleResponse gunzip utf8_decode JSON_parse engineText frame
                 = Ok [ConsoleError; Callback r]).
  { unfold frame, errorFrame, buildHeader. cbn [app].
    unfold handleResponse.
    destruct (header_nibbles SERVER_ERROR_RESPONSE flags) as [Ht Hfl];
      [unfold SERVER_ERROR_RESPONSE; lia | exact Hf |].
    destruct (header_nibbles NO_SERIALIZATION compression) as [_ Hco];
      [unfold NO_SERIALIZATION; lia | exact Hc |].
    cbv zeta in Ht, Hfl, Hco. rewrite Ht, Hfl, Hco.
    change (Z.to_nat
              (Z.land (u8 (toU8 (Z.lor (Z.shiftl ProtocolVersion_V1 4) 1))) 15
               * 4)) with 4%nat.
    remember ((if Z.testbit flags 0 then be32 sequence else [])
                ++ be32 code ++ be32 (Z.of_nat (List.length body)) ++ body)
      as rest eqn:Hrest.
    rewrite skipn4_cons, (flag_bit0 flags Hf).
    change (SERVER_ERROR_RESPONSE =? SERVER_ERROR_RESPONSE) with true.
    cbv iota.
    assert (Hpay : (if Z.testbit flags 0 then skipn 4 rest else rest)
                   = be32 code ++ be32 (Z.of_nat (List.length body)) ++ body).
    { subst rest. destruct (Z.testbit flags 0); reflexivity. }
    rewrite Hpay. rewrite (getInt32_be32 engineText code _ Hcode). cbn [bind].
    change (skipn 8 (be32 code ++ be32 (Z.of_nat (List.length body)) ++ body))
      with body.
    unfold decodePayload.
    destruct (compression =? GZIP).
    - rewrite Hbody. reflexivity.
    - rewrite Hbody. reflexivity. }
  split; [exact Hrun|].
  split; [unfold onMessage; rewrite Hrun; reflexivity|].
  split.
  - apply includes_middle.
  - unfold e. rewrite !app_assoc. apply includes_suffix.
Qed.

Lemma full_response_path (d0 d1 d2 d3 : Byte.byte) (rest : bytes) :
  Z.land (Z.shiftr (u8 d1) 4) 15 = SERVER_FULL_RESPONSE ->
  Z.to_nat (Z.land (u8 d0) 15 * 4) = 4%nat ->
  Z.land (Z.land (u8 d1) 15) 1 = 0 ->
  handleResponse gunzip utf8_decode JSON_parse engineText
                 (d0 :: d1 :: d2 :: d3 :: rest)
  = (payloadSize <- getUint32 engineText rest ;;
     match skipn 4 rest with
     | [] => Ok []
     | _ :: _ =>
         decoded <- decodePayload gunzip utf8_decode engineText
                      (Z.land (u8 d2) 15) (skipn 4 rest) ;;
         match JSON_parse decoded with
         | Some jsonData =>
             handleFullResponse engineText jsonData
               (negb (Z.land (Z.land (u8 d1) 15) 2 =? 0))
         | None => raise engineText SyntaxError_json
         end
     end).
Proof using Type.
  intros Ht Hh Hs. unfold handleResponse.
  rewrite Ht, Hh, Hs, skipn4_cons.
  change (negb (0 =? 0)) with false.
  change (SERVER_FULL_RESPONSE =? SERVER_ERROR_RESPONSE) with false.
  change (SERVER_FULL_RESPONSE =? SERVER_FULL_RESPONSE) with true.
  cbv iota. destruct (getUint32 engineText rest); [|reflexivity].
  cbn [bind]. destruct (skipn 4 rest); reflexivity.
Qed.

(** The part of C3 that the code keeps: a full-response frame whose
    payload is empty invokes no callback. *)
Lemma empty_payload_no_callback (isLast : bool) (compression : Z) :
  0 <= compression < 16 ->
  onMessage gunzip utf8_decode JSON_parse engineText
    (fullResponseFrame (if isLast then NEG_SEQUENCE else NO_SEQUENCE)
                       compression 0 [])
  = [].
Proof using Type.
  intros Hc. unfold onMessage, fullResponseFrame, buildHeader.
  assert (Hb0 : Z.testbit (if isLast then NEG_SEQUENCE else NO_SEQUENCE) 0
                = false) by (destruct isLast; reflexivity).
  rewrite Hb0. cbn [app].
  rewrite full_response_path.
  - reflexivity.
  - destruct isLast; vm_compute; reflexivity.
  - reflexivity.
  - destruct isLast; vm_compute; reflexivity.
Qed.

Lemma handleFullResponse_empty_utterances (isLast : bool) :
  handleFullResponse engineText Example.emptyUtterances isLast
  = Ok [Callback {| text := String []; isPartial := negb isLast;
                    utterances := Some []; error := None |}].
Proof using Type. reflexivity. Qed.

(** C3, at the input where the code departs from it: a full-response
    frame whose payload parses to an object [result] with the empty
    string as [text] and the empty array as [utterances] carries neither
    text nor any utterance, and the callback is invoked all the same,
    once, with empty text and an empty utterance list. *)
Theorem empty_utterance_list_still_calls_back (body : bytes)
  (isLast : bool) :
  body <> [] ->
  JSON_parse (utf8_decode body) = Some Example.emptyUtterances ->
  callbacks (onMessage gunzip utf8_decode JSON_parse engineText
               (fullResponseFrame
                  (if isLast then NEG_SEQUENCE else NO_SEQUENCE)
                  NO_COMPRESSION 0 body))
  = [{| text := String []; isPartial := negb isLast;
        utterances := Some []; error := None |}].
Proof using Type.
  intros Hne Hparse. unfold onMessage, fullResponseFrame, buildHeader.
  assert (Hb0 : Z.testbit (if isLast then NEG_SEQUENCE else NO_SEQUENCE) 0
                = false) by (destruct isLast; reflexivity).
  rewrite Hb0. cbn [app].
  rewrite full_response_path;
    try (destruct isLast; vm_compute; reflexivity).
  rewrite getUint32_be32. cbn [bind]. rewrite skipn_be32.
  destruct body as [|b body']; [contradiction|].
  unfold decodePayload.
  change (Z.land (u8 (toU8 (Z.lor (Z.shiftl JSON 4) NO_COMPRESSION))) 15
          =? GZIP) with false.
  cbn [bind]. rewrite Hparse, handleFullResponse_empty_utterances.
  destruct isLast; reflexivity.
Qed.

Lemma reachable_connected_has_socket (c : ASRClient) :
  reachable gzip initPayload c -> isConnected c = true -> ws c = true.
Proof using Type.
  induction 1 as [|env c Hc IH|a c Hc IH|c Hc IH|c Hc IH|c Hc IH|c Hc IH].
  - discriminate.
  - unfold connect. destruct (connectionState c) eqn:E; try exact IH.
    destruct env; cbn; try discriminate; reflexivity.
  - unfold sendAudio. destruct (negb (isConnected c)); exact IH.
  - unfold tick. destruct (audioBuffer c); [exact IH|].
    destruct (negb (isConnected c)); exact IH.
  - unfold finish, stopAudioSender, mergeAudioBuffer, isConnected in *.
    destruct c as [w st buf timer]; cbn in *.
    destruct timer, st, buf; cbn in *; try discriminate; exact IH.
  - unfold close, stopAudioSender. destruct (sendInterval c); cbn; discriminate.
  - unfold onSocketClose, stopAudioSender, setConnectionState.
    destruct (sendInterval c); cbn; discriminate.
Qed.

(** C6: [finish] stops the flush timer before anything else; on a
    connected client it then sends exactly one frame, a ClientAudioOnly
    frame with flags NegativeSequence (header 11 22 01 00) that carries
    the gzip of all queued chunks concatenated, of the empty audio when
    nothing is queued, and empties the queue; on a client that is not
    connected it sends nothing and changes nothing else. *)
Theorem finish_sends_one_last_packet (c : ASRClient) :
  reachable gzip initPayload c ->
  let stopTimer := if sendInterval c then [ClearInterval] else [] in
  let lastFrame audio :=
    [Byte.x11; Byte.x22; Byte.x01; Byte.x00]
      ++ be32 (Z.of_nat (List.length (gzip audio))) ++ gzip audio in
  sendInterval (fst (finish gzip c)) = false
  /\ (isConnected c = true ->
        snd (finish gzip c)
          = stopTimer ++ [WsSend (lastFrame (List.concat (audioBuffer c)))]
        /\ audioBuffer (fst (finish gzip c)) = []
        /\ (audioBuffer c = [] ->
              sent (snd (finish gzip c)) = [lastFrame []]))
  /\ (isConnected c = false ->
        snd (finish gzip c) = stopTimer
        /\ sent (snd (finish gzip c)) = []
        /\ audioBuffer (fst (finish gzip c)) = audioBuffer c
        /\ connectionState (fst (finish gzip c)) = connectionState c
        /\ ws (fst (finish gzip c)) = ws c).
Proof using Type.
  intros Hreach stopTimer lastFrame.
  pose proof (reachable_connected_has_socket c Hreach) as Hws.
  subst stopTimer.
  unfold finish, stopAudioSender, sendAudioPacket, mergeAudioBuffer,
    isConnected in *.
  destruct c as [w st buf timer]; cbn in *.
  destruct st; cbn;
    try (split; [destruct timer; reflexivity|];
         split; [discriminate|]; intros _;
         destruct timer; cbn; repeat split; reflexivity).
  rewrite (Hws eq_refl).
  split; [destruct timer, buf; reflexivity|].
  split; [|discriminate]. intros _.
  destruct timer, buf; cbn; repeat split; try reflexivity; try discriminate.
Qed.
End ClientFacts.

Section ClientWitnesses.
Import JS Shared Client.

(** The theorem at a connected client with two chunks queued. *)
Lemma finish_sends_one_last_packet_witness :
  reachable Example.gzip Example.initPayload Example.liveClient
  /\ sent (snd (finish Example.gzip Example.liveClient))
     = [[Byte.x11; Byte.x22; Byte.x01; Byte.x00;
         Byte.x00; Byte.x00; Byte.x00; Byte.x05;
         Byte.x1f; Byte.x8b; Byte.x01; Byte.x02; Byte.x03]].
Proof.
  assert (Hr : reachable Example.gzip Example.initPayload Example.liveClient).
  { unfold Example.liveClient.
    apply reach_sendAudio, reach_sendAudio, reach_connect, reach_new. }
  split; [exact Hr|].
  destruct (finish_sends_one_last_packet Example.gzip Example.initPayload
              Example.liveClient Hr)
    as (_ & Hconn & _).
  destruct (Hconn eq_refl) as (Hsent & _ & _).
  rewrite Hsent. reflexivity.
Defined.

(** The theorem for the error frame of the specification: code 45000000,
    message "bad request", gzip-compressed, with a sequence number. *)
Lemma server_error_frame_reported_witness :
  let message := Example.utf8_encode "bad request" in
  let frame := errorFrame POS_SEQUENCE GZIP 1 45000000 (Example.gzip message) in
  (0 <= POS_SEQUENCE < 16 /\ 0 <= GZIP < 16
   /\ - 2 ^ 31 <= 45000000 < 2 ^ 31
   /\ Example.gunzip (Example.gzip message) = Some message)
  /\ callbacks (onMessage Example.gunzip Example.utf8_decode
                          (fun _ => None) Example.engineText frame)
     = [{| text := String []; isPartial := true; utterances := None;
           error := Some (msg_errorCode ++ lit "45000000: bad request") |}].
Proof.
  intros message frame.
  assert (H1 : 0 <= POS_SEQUENCE < 16) by (unfold POS_SEQUENCE; lia).
  assert (H2 : 0 <= GZIP < 16) by (unfold GZIP; lia).
  assert (H3 : - 2 ^ 31 <= 45000000 < 2 ^ 31) by lia.
  assert (H4 : Example.gunzip (Example.gzip message) = Some message)
    by reflexivity.
  split; [repeat split; first [apply H1 | apply H2 | apply H3 | exact H4]|].
  destruct (server_error_frame_reported
              Example.gunzip Example.utf8_decode (fun _ => None)
              Example.engineText POS_SEQUENCE GZIP 1 45000000
              (Example.gzip message) message H1 H2 H3 H4)
    as (_ & Hcb & _).
  exact Hcb.
Defined.

(** The frame with that payload, not the last one of its stream. *)
Lemma empty_utterance_list_still_calls_back_witness :
  Example.emptyUtterancesBody <> []
  /\ Example.parseThisText (Example.utf8_decode Example.emptyUtterancesBody)
     = Some Example.emptyUtterances
  /\ callbacks (onMessage Example.gunzip Example.utf8_decode
                          Example.parseThisText Example.engineText
                          (fullResponseFrame NO_SEQUENCE NO_COMPRESSION 0
                                             Example.emptyUtterancesBody))
     = [{| text := String []; isPartial := true;
           utterances := Some []; error := None |}].
Proof.
  assert (H1 : Example.emptyUtterancesBody <> []) by discriminate.
  assert (H2 : Example.parseThisText
                 (Example.utf8_decode Example.emptyUtterancesBody)
               = Some Example.emptyUtterances) by (vm_compute; reflexivity).
  split; [exact H1|]. split; [exact H2|].
  exact (empty_utterance_list_still_calls_back
           Example.gunzip Example.utf8_decode Example.parseThisText
           Example.engineText Example.emptyUtterancesBody false H1 H2).
Defined.

End ClientWitnesses.

(* ================================================================== *)
(** * Properties of asr-manager.ts                                      *)
(* ================================================================== *)

Section ManagerFacts.
Import JS Shared Manager.

Lemma tell_tell (a b : list Obs) (m : ASRManager) :
  tell b (tell a m) = tell (a ++ b) m.
Proof. unfold tell; cbn. f_equal. now rewrite app_assoc. Qed.

Lemma runClientEffects_quiet (effects : list Client.Effect) :
  Forall (fun e => match e with Client.Callback _ => False | _ => True end)
         effects ->
  forall m, runClientEffects effects m = tell (map ClientDid effects) m.
Proof.
  induction 1 as [|e l He Hl IH]; intros m.
  - destruct m; unfold tell; cbn. now rewrite app_nil_r.
  - unfold runClientEffects in *. cbn [fold_left map].
    destruct e; try contradiction; rewrite IH, tell_tell; reflexivity.
Qed.

Lemma close_quiet (c : Client.ASRClient) :
  Forall (fun e => match e with Client.Callback _ => False | _ => True end)
         (snd (Client.close c)).
Proof.
  destruct c as [w st buf timer]; destruct w, timer; cbn;
    repeat constructor.
Qed.

Lemma finish_quiet gzip (c : Client.ASRClient) :
  Forall (fun e => match e with Client.Callback _ => False | _ => True end)
         (snd (Client.finish gzip c)).
Proof.
  destruct c as [w st buf timer]; destruct w, timer, st, buf; cbn;
    repeat constructor.
Qed.

Lemma sendAudio_quiet a (c : Client.ASRClient) :
  Forall (fun e => match e with Client.Callback _ => False | _ => True end)
         (snd (Client.sendAudio a c)).
Proof.
  destruct c as [w st buf timer]; destruct st; cbn; repeat constructor.
Qed.

Lemma sameSession_refl m : sameSession m m.
Proof. repeat split. Qed.

Lemma sameSession_trans m1 m2 m3 :
  sameSession m1 m2 -> sameSession m2 m3 -> sameSession m1 m3.
Proof.
  unfold sameSession. intros (a1 & a2 & a3 & a4 & a5 & a6)
    (b1 & b2 & b3 & b4 & b5 & b6).
  repeat split; congruence.
Qed.

Lemma handleTranscriptionResult_same r m :
  sameSession m (handleTranscriptionResult r m).
Proof.
  unfold handleTranscriptionResult.
  destruct (hasError r); [repeat split|].
  destruct (isPartial r); repeat split.
Qed.

Lemma deliver_same rs : forall m, sameSession m (deliver rs m).
Proof.
  unfold deliver. induction rs as [|r rs IH]; intros m; cbn [fold_left].
  - apply sameSession_refl.
  - eapply sameSession_trans; [apply handleTranscriptionResult_same | apply IH].
Qed.

Lemma elapsed_lower env (k : nat) : Z.of_nat k <= elapsed env k.
Proof. induction k; cbn [elapsed]; lia. Qed.

Lemma deliver_app rs1 rs2 m :
  deliver (rs1 ++ rs2) m = deliver rs2 (deliver rs1 m).
Proof. unfold deliver. apply fold_left_app. Qed.

(** The buffers after some results were handed in. *)
Lemma deliver_buffers rs :
  forall m,
    partialResults (deliver rs m)
    = partialResults m
        ++ filter (fun r => negb (hasError r) && isPartial r) rs
    /\ finalResult (deliver rs m)
       = match rev (filter (fun r => negb (hasError r) && negb (isPartial r))
                           rs) with
         | r :: _ => Some r
         | [] => finalResult m
         end.
Proof.
  unfold deliver.
  induction rs as [|r rs IH]; intros m; cbn [fold_left filter rev].
  - rewrite app_nil_r. split; reflexivity.
  - destruct (IH (handleTranscriptionResult r m)) as (-> & ->).
    unfold handleTranscriptionResult.
    destruct (hasError r); cbn [negb andb]; [split; reflexivity|].
    destruct (isPartial r); cbn [negb].
    + cbn. rewrite <- app_assoc. split; reflexivity.
    + cbn [rev]. split; [reflexivity|].
      destruct (rev (filter (fun r0 => negb (hasError r0)
                                       && negb (isPartial r0)) rs));
        reflexivity.
Qed.

Lemma arrived_from env (k n : nat) :
  flat_map (arrivals env) (seq k (S n))
  = arrivals env k ++ flat_map (arrivals env) (seq (S k) n).
Proof. reflexivity. Qed.

Lemma waitLoop_same T env :
  forall fuel k m m' r k',
    waitLoop fuel T env k m = Some (m', r, k') -> sameSession m m'.
Proof.
  induction fuel as [|fuel IH]; intros k m m' r k'; cbn [waitLoop];
    [discriminate|].
  destruct (finalResult m).
  - intros [= <- _ _]. apply sameSession_refl.
  - destruct (elapsed env k >? T).
    + destruct (lastPartial m); intros [= <- _ _]; repeat split.
    + intros H. eapply sameSession_trans; [apply deliver_same|].
      eapply IH; eassumption.
Qed.

(** The run of the loop from its k-th test on: it ends, at the first
    test that finds a final result or the timeout passed. *)
Lemma waitLoop_spec T env :
  0 <= T ->
  forall fuel k m,
    Z.of_nat k <= T + 1 ->
    (fuel + k = Z.to_nat T + 2)%nat ->
    (forall j, (j < k)%nat -> elapsed env j <= T) ->
    exists m' r k',
      waitLoop fuel T env k m = Some (m', r, k')
      /\ (k <= k')%nat /\ Z.of_nat k' <= T + 1
      /\ (forall j, (j < k')%nat -> elapsed env j <= T)
      /\ (forall j, (k <= j < k')%nat ->
            finalResult
              (deliver (flat_map (arrivals env) (seq k (j - k))) m) = None)
      /\ partialResults m'
         = partialResults
             (deliver (flat_map (arrivals env) (seq k (k' - k))) m)
      /\ finalResult m'
         = finalResult
             (deliver (flat_map (arrivals env) (seq k (k' - k))) m)
      /\ match finalResult m' with
         | Some f => r = Ok f
         | None =>
             T < elapsed env k'
             /\ r = match lastPartial m' with
                    | Some p => Ok (promote p)
                    | None => Throw (ErrorObject msg_waitTimeout)
                    end
         end.
Proof.
  intros HT. induction fuel as [|fuel IH]; intros k m Hk Hfuel Hbefore.
  - lia.
  - cbn [waitLoop]. destruct (finalResult m) as [f|] eqn:Ef.
    + exists m, (Ok f), k. rewrite Ef, Nat.sub_diag.
      repeat split; auto; lia.
    + destruct (elapsed env k >? T) eqn:Et.
      * apply Z.gtb_lt in Et.
        destruct (lastPartial m) as [p|] eqn:Ep.
        -- exists (tell [Warn] m), (Ok (promote p)), k.
           change (finalResult (tell [Warn] m)) with (finalResult m).
           change (lastPartial (tell [Warn] m)) with (lastPartial m).
           rewrite Ef, Ep, Nat.sub_diag. repeat split; auto; lia.
        -- exists m, (Throw (ErrorObject msg_waitTimeout)), k.
           rewrite Ef, Ep, Nat.sub_diag. repeat split; auto; lia.
      * assert (Hle : elapsed env k <= T).
        { destruct (Z.gtb_spec (elapsed env k) T); [discriminate | lia]. }
        pose proof (elapsed_lower env k) as Hlow.
        destruct (IH (S k) (deliver (arrivals env k) m)) as
          (m' & r & k' & Hrun & Hkk & Hk'' & Hb & Hnone & Hp & Hf & Hres).
        -- lia.
        -- lia.
        -- intros j Hj. destruct (Nat.eq_dec j k) as [->|]; [exact Hle|].
           apply Hbefore. lia.
        -- assert (Hshift : forall j, (S k <= j)%nat ->
                     deliver (flat_map (arrivals env) (seq (S k) (j - S k)))
                             (deliver (arrivals env k) m)
                     = deliver (flat_map (arrivals env) (seq k (j - k))) m).
           { intros j Hj. rewrite <- deliver_app.
             replace (j - k)%nat with (S (j - S k)) by lia.
             rewrite arrived_from. reflexivity. }
           exists m', r, k'. split; [exact Hrun|]. split; [lia|].
           split; [exact Hk''|]. split; [exact Hb|].
           split; [|split; [|split]].
           ++ intros j Hj. destruct (Nat.eq_dec j k) as [->|Hne].
              ** rewrite Nat.sub_diag. exact Ef.
              ** rewrite <- Hshift by lia. apply Hnone. lia.
           ++ rewrite Hp. rewrite Hshift by lia. reflexivity.
           ++ rewrite Hf. rewrite Hshift by lia. reflexivity.
           ++ exact Hres.
Qed.

Lemma cleanup_fields (m : ASRManager) :
  client (cleanup m) = None
  /\ sessionStartTime (cleanup m) = None
  /\ currentState (cleanup m) = currentState m
  /\ partialResults (cleanup m) = partialResults m
  /\ finalResult (cleanup m) = finalResult m
  /\ history (cleanup m) = history m
  /\ autoSaveHistory (cleanup m) = autoSaveHistory m
  /\ maxHistorySize (cleanup m) = maxHistorySize m.
Proof.
  unfold cleanup. destruct (client m) as [c|] eqn:E.
  - pose proof (close_quiet c) as Hq.
    destruct (Client.close c) as [c1 effects]. cbn [snd] in Hq.
    rewrite (runClientEffects_quiet _ Hq). repeat split.
  - cbn. rewrite E. repeat split.
Qed.

Lemma setState_fields (s : ASRState) (m : ASRManager) :
  currentState (setState s m) = s
  /\ client (setState s m) = client m
  /\ sessionStartTime (setState s m) = sessionStartTime m
  /\ partialResults (setState s m) = partialResults m
  /\ finalResult (setState s m) = finalResult m
  /\ history (setState s m) = history m
  /\ autoSaveHistory (setState s m) = autoSaveHistory m
  /\ maxHistorySize (setState s m) = maxHistorySize m.
Proof.
  unfold setState. destruct (ASRState_eqb (currentState m) s); repeat split.
Qed.

Section WithLibraries.
Variable gzip : Client.bytes -> Client.bytes.
Variable initPayload : Client.bytes.
Variable engineText : EngineError -> jsstring.

(** [stopSession] on a live session, laid out along the run of the
    wait: what has been heard by each test, and the result. *)
Lemma stopSession_run (env : StopEnv) (m : ASRManager)
  (c : Client.ASRClient) :
  client m = Some c ->
  currentState m = Ready \/ currentState m = Recording ->
  let heard (j : nat) := duringFinish env ++ arrived (waitEnv env) j in
  let finalAt (j : nat) :=
    match rev (filter (fun r => negb (hasError r) && negb (isPartial r))
                      (heard j)) with
    | r :: _ => Some r
    | [] => finalResult m
    end in
  let partialsAt (j : nat) :=
    partialResults m
      ++ filter (fun r => negb (hasError r) && isPartial r) (heard j) in
  let waiting :=
    deliver (duringFinish env)
      (runClientEffects (snd (Client.finish gzip c))
         (set_client (Some (fst (Client.finish gzip c)))
                     (setState Processing m))) in
  exists m4 r k,
    waitForFinalResult 5000 (waitEnv env) waiting = Some (m4, r, k)
    /\ Z.of_nat k <= 5001
    /\ (forall j, (j < k)%nat ->
          finalAt j = None /\ elapsed (waitEnv env) j <= 5000)
    /\ finalResult m4 = finalAt k
    /\ partialResults m4 = partialsAt k
    /\ match finalResult m4 with
       | Some f => r = Ok f
       | None =>
           5000 < elapsed (waitEnv env) k
           /\ r = match lastPartial m4 with
                  | Some p => Ok (promote p)
                  | None => Throw (ErrorObject msg_waitTimeout)
                  end
       end
    /\ autoSaveHistory m4 = autoSaveHistory m
    /\ maxHistorySize m4 = maxHistorySize m
    /\ sessionStartTime m4 = sessionStartTime m
    /\ history m4 = history m
    /\ stopSession gzip engineText env m
       = match r with
         | Throw e => stopFailed e m4
         | Ok result =>
             if autoSaveHistory m && truthy (text result) then
               match addToHistory engineText result (stopNow env) (uuid env)
                                  (setState Completed m4) with
               | Ok m6 => (cleanup m6, Some (Ok result))
               | Throw e => stopFailed e (setState Completed m4)
               end
             else (cleanup (setState Completed m4), Some (Ok result))
         end.
Proof.
  intros Hc Hs heard finalAt partialsAt waiting.
  unfold stopSession. rewrite Hc.
  pose proof (finish_quiet gzip c) as Hq.
  subst waiting.
  destruct (Client.finish gzip c) as [c1 effects]. cbn [fst snd] in *.
  rewrite (runClientEffects_quiet _ Hq).
  set (m2 := tell (map ClientDid effects)
                  (set_client (Some c1) (setState Processing m))).
  set (m3 := deliver (duringFinish env) m2).
  destruct (waitLoop_spec 5000 (waitEnv env) ltac:(lia)
                          (Z.to_nat 5000 + 2)%nat 0%nat m3)
    as (m4 & r & k & Hrun & _ & Hk & Hbefore & Hnone & Hp & Hf & Hres).
  { cbn. lia. }
  { apply Nat.add_0_r. }
  { intros j Hj. lia. }
  assert (Hsame : sameSession m3 m4) by (eapply waitLoop_same; exact Hrun).
  assert (Hm3 : sameSession m2 m3) by apply deliver_same.
  destruct (setState_fields Processing m)
    as (_ & _ & Hp3 & Hp4 & Hp5 & Hp6 & Hp7 & Hp8).
  destruct Hsame as (a1 & a2 & a3 & a4 & a5 & a6).
  destruct Hm3 as (b1 & b2 & b3 & b4 & b5 & b6). cbn in b1, b2, b5, b6.
  assert (Hat : forall j,
             partialResults
               (deliver (flat_map (arrivals (waitEnv env)) (seq 0 (j - 0)))
                        m3) = partialsAt j
             /\ finalResult
                  (deliver (flat_map (arrivals (waitEnv env))
                                     (seq 0 (j - 0))) m3) = finalAt j).
  { intros j. subst m3. rewrite <- deliver_app, Nat.sub_0_r.
    destruct (deliver_buffers
                (duringFinish env
                   ++ flat_map (arrivals (waitEnv env)) (seq 0 j)) m2)
      as (-> & ->).
    subst m2 partialsAt finalAt heard. unfold arrived.
    cbn [tell set_client partialResults finalResult].
    rewrite Hp4, Hp5. split; reflexivity. }
  exists m4, r, k.
  assert (Hrun' : waitForFinalResult 5000 (waitEnv env) m3 = Some (m4, r, k))
    by exact Hrun.
  split; [exact Hrun'|].
  split; [lia|].
  split.
  { intros j Hj. split; [|apply Hbefore, Hj].
    rewrite <- (proj2 (Hat j)). apply Hnone. lia. }
  split; [rewrite Hf; apply Hat|].
  split; [rewrite Hp; apply Hat|].
  split; [exact Hres|].
  split; [congruence|]. split; [congruence|]. split; [congruence|].
  split; [congruence|].
  assert (Hauto : autoSaveHistory (setState Completed m4) = autoSaveHistory m).
  { destruct (setState_fields Completed m4) as (_ & _ & _ & _ & _ & _ & H & _).
    congruence. }
  destruct Hs as [Hs|Hs]; rewrite Hs; fold m2; fold m3; rewrite Hrun';
    destruct r; try rewrite Hauto; reflexivity.
Qed.

(** The same without the run. *)
Lemma stopSession_active (env : StopEnv) (m : ASRManager)
  (c : Client.ASRClient) :
  client m = Some c ->
  currentState m = Ready \/ currentState m = Recording ->
  exists m4 r k,
    Z.of_nat k <= 5001
    /\ (forall j, (j < k)%nat -> elapsed (waitEnv env) j <= 5000)
    /\ match finalResult m4 with
       | Some f => r = Ok f
       | None =>
           5000 < elapsed (waitEnv env) k
           /\ r = match lastPartial m4 with
                  | Some p => Ok (promote p)
                  | None => Throw (ErrorObject msg_waitTimeout)
                  end
       end
    /\ autoSaveHistory m4 = autoSaveHistory m
    /\ maxHistorySize m4 = maxHistorySize m
    /\ sessionStartTime m4 = sessionStartTime m
    /\ history m4 = history m
    /\ stopSession gzip engineText env m
       = match r with
         | Throw e => stopFailed e m4
         | Ok result =>
             if autoSaveHistory m && truthy (text result) then
               match addToHistory engineText result (stopNow env) (uuid env)
                                  (setState Completed m4) with
               | Ok m6 => (cleanup m6, Some (Ok result))
               | Throw e => stopFailed e (setState Completed m4)
               end
             else (cleanup (setState Completed m4), Some (Ok result))
         end.
Proof.
  intros Hc Hs.
  pose proof (stopSession_run env m c Hc Hs) as Hrun0. cbv zeta in Hrun0.
  destruct Hrun0 as (m4 & r & k & _ & Hk & Hbefore & _ & _ & Hres & Hrest).
  exists m4, r, k. split; [exact Hk|].
  split; [intros j Hj; apply Hbefore, Hj|].
  split; [exact Hres | exact Hrest].
Qed.


Lemma stopFailed_fields (e : Thrown) (m : ASRManager) :
  snd (stopFailed e m) = Some (Throw e)
  /\ client (fst (stopFailed e m)) = None
  /\ currentState (fst (stopFailed e m)) = Error
  /\ partialResults (fst (stopFailed e m)) = partialResults m
  /\ finalResult (fst (stopFailed e m)) = finalResult m
  /\ history (fst (stopFailed e m)) = history m
  /\ autoSaveHistory (fst (stopFailed e m)) = autoSaveHistory m
  /\ maxHistorySize (fst (stopFailed e m)) = maxHistorySize m.
Proof.
  unfold stopFailed. cbn [fst snd].
  destruct (cleanup_fields
              (emitEvent EvError None (messageProperty e) (setState Error m)))
    as (c1 & _ & c3 & c4 & c5 & c6 & c7 & c8).
  destruct (setState_fields Error m) as (s1 & _ & _ & s4 & s5 & s6 & s7 & s8).
  cbn [emitEvent tell currentState partialResults finalResult history
       autoSaveHistory maxHistorySize] in c3, c4, c5, c6, c7, c8.
  repeat split; congruence.
Qed.

(** The [try] block of [stopSession] after a successful wait. *)
Lemma stop_success_fields (result : ASRResult) (env : StopEnv)
  (m4 : ASRManager) (start : Z) :
  sessionStartTime m4 = Some start ->
  let out :=
    if autoSaveHistory m4 && truthy (text result) then
      match addToHistory engineText result (stopNow env) (uuid env)
                         (setState Completed m4) with
      | Ok m6 => (cleanup m6, Some (Ok result))
      | Throw e => stopFailed e (setState Completed m4)
      end
    else (cleanup (setState Completed m4), Some (Ok result)) in
  snd out = Some (Ok result)
  /\ client (fst out) = None
  /\ currentState (fst out) = Completed
  /\ partialResults (fst out) = partialResults m4
  /\ finalResult (fst out) = finalResult m4
  /\ history (fst out)
     = (if autoSaveHistory m4 && truthy (text result)
       then pushHistory (maxHistorySize m4)
              (mkEntry (uuid env) result start (stopNow env)) (history m4)
       else history m4)
  /\ autoSaveHistory (fst out) = autoSaveHistory m4
  /\ maxHistorySize (fst out) = maxHistorySize m4.
Proof.
  intros Hstart out. subst out.
  destruct (setState_fields Completed m4)
    as (s1 & s2 & s3 & s4 & s5 & s6 & s7 & s8).
  destruct (autoSaveHistory m4 && truthy (text result)).
  - unfold addToHistory. rewrite s3, Hstart, s6, s8. cbn [fst snd].
    match goal with |- context [cleanup ?x] =>
      destruct (cleanup_fields x) as (c1 & _ & c3 & c4 & c5 & c6 & c7 & c8)
    end.
    cbn [set_history currentState partialResults finalResult history
         autoSaveHistory maxHistorySize] in c3, c4, c5, c6, c7, c8.
    repeat split; congruence.
  - cbn [fst snd].
    destruct (cleanup_fields (setState Completed m4))
      as (c1 & _ & c3 & c4 & c5 & c6 & c7 & c8).
    repeat split; congruence.
Qed.

Lemma elapsed_exact (env : WaitEnv) :
  (forall j, sleepTime env j = 100%positive) ->
  forall k, elapsed env k = 100 * Z.of_nat k.
Proof.
  intros H. induction k; cbn [elapsed]; [reflexivity|]. rewrite H. lia.
Qed.

(** C1, as the code has it (with a listener subscribed to the error
    event, without which emitting that event throws in its turn): on a
    session in state Ready or Recording [stopSession] always settles and
    releases the client.  What has been heard by the k-th test is what
    arrived while [finish] was awaited and during the first k sleeps.
    The wait makes [k] sleeps, each test before the last one having
    found no final result and at most 5000 ms elapsed.  A final result
    heard by the last test is returned (the latest, when several were).
    Otherwise that test found MORE than 5000 ms elapsed, whatever the
    timers do (with sleeps of exactly 100 ms it is the test after 51
    sleeps, 5100 ms into the wait), and [stopSession] returns the most
    recent partial result with [isPartial] forced to false, without
    throwing, or fails with the timeout error when no partial result
    was recorded. *)
Theorem stopSession_wait_policy (env : StopEnv) (m : ASRManager)
  (c : Client.ASRClient) :
  client m = Some c ->
  currentState m = Ready \/ currentState m = Recording ->
  sessionStartTime m <> None ->
  let m' := fst (stopSession gzip engineText env m) in
  let out := snd (stopSession gzip engineText env m) in
  let heard (j : nat) := duringFinish env ++ arrived (waitEnv env) j in
  let finalAt (j : nat) :=
    match rev (filter (fun r => negb (hasError r) && negb (isPartial r))
                      (heard j)) with
    | r :: _ => Some r
    | [] => finalResult m
    end in
  let partialsAt (j : nat) :=
    partialResults m
      ++ filter (fun r => negb (hasError r) && isPartial r) (heard j) in
  let waiting :=
    deliver (duringFinish env)
      (runClientEffects (snd (Client.finish gzip c))
         (set_client (Some (fst (Client.finish gzip c)))
                     (setState Processing m))) in
  exists k : nat,
    (exists m4 r,
        waitForFinalResult 5000 (waitEnv env) waiting = Some (m4, r, k))
    /\ Z.of_nat k <= 5001
    /\ (forall j, (j < k)%nat ->
          finalAt j = None /\ elapsed (waitEnv env) j <= 5000)
    /\ client m' = None
    /\ finalResult m' = finalAt k
    /\ partialResults m' = partialsAt k
    /\ match finalAt k with
       | Some final => out = Some (Ok final) /\ currentState m' = Completed
       | None =>
           5000 < elapsed (waitEnv env) k
           /\ ((forall j, sleepTime (waitEnv env) j = 100%positive) ->
               k = 51%nat /\ elapsed (waitEnv env) k = 5100)
           /\ match rev (partialsAt k) with
              | p :: _ =>
                  out = Some (Ok (promote p))
                  /\ isPartial (promote p) = false
                  /\ text (promote p) = text p
                  /\ currentState m' = Completed
              | [] =>
                  out = Some (Throw (ErrorObject msg_waitTimeout))
                  /\ TimeoutError (ErrorObject msg_waitTimeout)
                  /\ currentState m' = Error
              end
       end.
Proof.
  intros Hc Hs Hstart. cbv zeta.
  pose proof (stopSession_run env m c Hc Hs) as Hrun0. cbv zeta in Hrun0.
  destruct Hrun0
    as (m4 & r & k & Hwait & Hk & Hbefore & Hf & Hp & Hres & Hauto & Hmax
        & Hst & Hh & Hrun).
  destruct (sessionStartTime m) as [start|] eqn:Estart; [|congruence].
  exists k. split; [exists m4, r; exact Hwait|].
  split; [exact Hk|]. split; [exact Hbefore|].
  assert (Hexact : 5000 < elapsed (waitEnv env) k ->
                   (forall j, sleepTime (waitEnv env) j = 100%positive) ->
                   k = 51%nat /\ elapsed (waitEnv env) k = 5100).
  { intros Hgt Hzero. rewrite (elapsed_exact _ Hzero) in Hgt.
    destruct k as [|k]; [lia|].
    destruct (Hbefore k ltac:(lia)) as [_ Hb].
    rewrite (elapsed_exact _ Hzero) in Hb.
    assert (k = 50%nat) by lia. subst k.
    split; [reflexivity|]. rewrite (elapsed_exact _ Hzero). reflexivity. }
  rewrite Hrun. rewrite <- Hauto.
  rewrite <- Hf, <- Hp.
  destruct (finalResult m4) as [final|] eqn:Ef.
  - subst r.
    destruct (stop_success_fields final env m4 start Hst)
      as (o1 & o2 & o3 & o4 & o5 & _).
    rewrite o5, o4. auto.
  - destruct Hres as [Hgt ->].
    unfold lastPartial.
    destruct (rev (partialResults m4)) as [|p ps] eqn:Ep.
    + destruct (stopFailed_fields (ErrorObject msg_waitTimeout) m4)
        as (o1 & o2 & o3 & o4 & o5 & _).
      rewrite o5, o4. unfold TimeoutError. auto 10.
    + destruct (stop_success_fields (promote p) env m4 start Hst)
        as (o1 & o2 & o3 & o4 & o5 & _).
      rewrite o5, o4. auto 10.
Qed.


Lemma runClientEffects_same (effects : list Client.Effect) :
  forall m, sameSession m (runClientEffects effects m).
Proof.
  unfold runClientEffects.
  induction effects as [|e l IH]; intros m; cbn [fold_left].
  - apply sameSession_refl.
  - eapply sameSession_trans; [|apply IH].
    destruct e; try (repeat split; fail).
    eapply sameSession_trans; [|apply handleTranscriptionResult_same].
    repeat split.
Qed.

Lemma sendAudio_state (a : Client.bytes) (m : ASRManager) :
  currentState (fst (sendAudio a m))
  = match client m with
    | None => currentState m
    | Some _ => match currentState m with
                | Ready => Recording
                | s => s
                end
    end.
Proof.
  unfold sendAudio. destruct (client m) as [c|]; [|reflexivity].
  destruct (Client.sendAudio a c) as [c1 effects].
  destruct (currentState m) eqn:E; unfold setState; rewrite ?E;
    cbn [ASRState_eqb emitEvent tell currentState set_currentState fst];
    rewrite ?E; cbn [fst tell currentState]; try exact E.
  all: try reflexivity.
  all: match goal with
    | |- currentState (runClientEffects ?l ?x) = _ =>
        destruct (runClientEffects_same l x) as (_ & _ & _ & -> & _)
    end; cbn [set_client currentState emitEvent tell set_currentState];
    try exact E; reflexivity.
Qed.

Lemma feed_keeps_state (f : Feed) (m : ASRManager) :
  currentState m <> Idle -> currentState (feed f m) <> Idle.
Proof.
  intros H. destruct f as [a|r]; cbn [feed].
  - rewrite sendAudio_state. destruct (client m); [|exact H].
    destruct (currentState m); congruence.
  - destruct (handleTranscriptionResult_same r m) as (_ & _ & _ & -> & _).
    exact H.
Qed.

Lemma startSession_leaves_idle env now (m : ASRManager) :
  currentState m = Idle ->
  currentState (fst (startSession gzip initPayload env now m)) <> Idle.
Proof.
  intros H. unfold startSession. rewrite H.
  destruct (Client.connect gzip initPayload env Client.new)
    as [[c effects] outcome].
  destruct outcome; cbn [fst emitEvent tell currentState].
  - destruct (setState_fields Ready
                (runClientEffects effects
                   (set_client (Some c)
                      (set_finalResult None
                         (set_partialResults []
                            (set_sessionStartTime (Some now)
                               (setState Connecting m)))))))
      as (-> & _). discriminate.
  - destruct (setState_fields Error
                (runClientEffects effects
                   (set_client (Some c)
                      (set_finalResult None
                         (set_partialResults []
                            (set_sessionStartTime (Some now)
                               (setState Connecting m)))))))
      as (-> & _). discriminate.
Qed.

Lemma runClientEffects_buffers (effects : list Client.Effect) :
  Forall (fun e => match e with
                   | Client.Callback r => hasError r = true
                   | _ => True
                   end) effects ->
  forall m,
    partialResults (runClientEffects effects m) = partialResults m
    /\ finalResult (runClientEffects effects m) = finalResult m.
Proof.
  unfold runClientEffects.
  induction 1 as [|e l He Hl IH]; intros m; cbn [fold_left]; [auto|].
  destruct e; try (destruct (IH (tell [ClientDid SetInterval] m)); fail);
    match goal with
    | |- context [fold_left _ l ?x] => destruct (IH x) as [-> ->]
    end; try (split; reflexivity).
  unfold handleTranscriptionResult. rewrite He. split; reflexivity.
Qed.

Lemma connect_effects env (c : Client.ASRClient) :
  Forall (fun e => match e with
                   | Client.Callback r => hasError r = true
                   | _ => True
                   end)
         (snd (fst (Client.connect gzip initPayload env c))).
Proof.
  unfold Client.connect, Client.sendFullClientRequest,
    Client.startAudioSender.
  destruct (Client.connectionState c); try constructor.
  destruct env; cbn [fst snd Client.ws app]; repeat constructor.
Qed.

Lemma startSession_buffers env now (m : ASRManager) :
  currentState m = Idle ->
  partialResults (fst (startSession gzip initPayload env now m)) = []
  /\ finalResult (fst (startSession gzip initPayload env now m)) = None.
Proof.
  intros H. unfold startSession. rewrite H.
  pose proof (connect_effects env Client.new) as Hq.
  destruct (Client.connect gzip initPayload env Client.new)
    as [[c effects] outcome]. cbn [fst snd] in Hq.
  match goal with
  | |- context [runClientEffects effects ?x] =>
      destruct (runClientEffects_buffers effects Hq x) as [Hp Hf];
      set (m3 := runClientEffects effects x) in *
  end.
  cbn [partialResults finalResult set_client set_finalResult
       set_partialResults] in Hp, Hf.
  destruct outcome; cbn [fst emitEvent tell partialResults finalResult].
  - destruct (setState_fields Ready m3) as (_ & _ & _ & -> & -> & _). auto.
  - destruct (setState_fields Error m3) as (_ & _ & _ & -> & -> & _). auto.
Qed.

Lemma startSession_refused env now (m : ASRManager) :
  currentState m <> Idle ->
  startSession gzip initPayload env now m
  = (m, Throw (ErrorObject (msg_cannotStart ++ stateName (currentState m)))).
Proof.
  intros H. unfold startSession. destruct (currentState m); congruence.
Qed.

(** C4: [startSession] fails with an invalid-state error in every state
    but Idle, in particular when it follows a [startSession] with only
    audio and results in between; [sendAudio] fails with an invalid-state
    error without a client, moves Ready to Recording and then hands the
    chunk to the client, and with a client in any state other than Ready
    and Recording drops the chunk with a warning and does not throw;
    [stopSession] fails with an invalid-state error in every state other
    than Ready and Recording. *)
Theorem session_state_guards :
  (forall env now m,
      currentState m <> Idle ->
      exists e, startSession gzip initPayload env now m = (m, Throw e)
                /\ InvalidStateError e)
  /\ (forall env1 now1 feeds env2 now2 m,
        currentState m = Idle ->
        let m1 := fold_left (fun m f => feed f m) feeds
                    (fst (startSession gzip initPayload env1 now1 m)) in
        exists e, startSession gzip initPayload env2 now2 m1 = (m1, Throw e)
                  /\ InvalidStateError e)
  /\ (forall audioData m,
        client m = None ->
        exists e, sendAudio audioData m = (m, Throw e)
                  /\ InvalidStateError e)
  /\ (forall audioData m c,
        client m = Some c ->
        currentState m = Ready \/ currentState m = Recording ->
        let m' := fst (sendAudio audioData m) in
        snd (sendAudio audioData m) = Ok tt
        /\ currentState m' = Recording
        /\ client m' = Some (fst (Client.sendAudio audioData c))
        /\ log m'
           = log m
             ++ (if ASRState_eqb (currentState m) Recording then []
                 else [Emit {| ev_type := EvStateChange;
                               ev_state := Recording;
                               ev_result := None; ev_error := None |}])
             ++ map ClientDid (snd (Client.sendAudio audioData c)))
  /\ (forall audioData m c,
        client m = Some c ->
        currentState m <> Ready -> currentState m <> Recording ->
        sendAudio audioData m = (tell [Warn] m, Ok tt))
  /\ (forall env m,
        currentState m <> Ready -> currentState m <> Recording ->
        exists e, stopSession gzip engineText env m = (m, Some (Throw e))
                  /\ InvalidStateError e).
Proof.
  split; [|split; [|split; [|split; [|split]]]].
  - intros env now m H. eexists. split; [apply startSession_refused, H|].
    right; left. eexists; reflexivity.
  - intros env1 now1 feeds env2 now2 m H m1.
    assert (Hm1 : currentState m1 <> Idle).
    { subst m1.
      generalize (startSession_leaves_idle env1 now1 m H).
      generalize (fst (startSession gzip initPayload env1 now1 m)).
      induction feeds as [|f l IH]; intros m0 H0; cbn [fold_left];
        [exact H0|]. apply IH, feed_keeps_state, H0. }
    eexists. split; [apply startSession_refused, Hm1|].
    right; left. eexists; reflexivity.
  - intros a m H. unfold sendAudio. rewrite H. eexists. split; [reflexivity|].
    left; reflexivity.
  - intros a m c Hc Hs m'. subst m'. unfold sendAudio. rewrite Hc.
    pose proof (sendAudio_quiet a c) as Hq.
    destruct (Client.sendAudio a c) as [c1 effects]. cbn [fst snd] in *.
    destruct Hs as [Hs|Hs]; rewrite Hs; unfold setState; rewrite ?Hs;
      cbn [ASRState_eqb set_currentState emitEvent tell currentState
           fst snd];
      rewrite (runClientEffects_quiet _ Hq);
      cbn [set_client set_currentState emitEvent tell currentState client
           log fst snd];
      rewrite <- ?app_assoc, ?Hs; repeat split; reflexivity.
  - intros a m c Hc H1 H2. unfold sendAudio. rewrite Hc.
    destruct (currentState m) eqn:E; try congruence; rewrite E; reflexivity.
  - intros env m H1 H2. unfold stopSession.
    destruct (client m).
    + destruct (currentState m); try congruence;
        (eexists; split; [reflexivity|]; right; right; eexists; reflexivity).
    + eexists; split; [reflexivity|]. left; reflexivity.
Qed.

(** C2, as the code has it: [cancelSession] closes the client (the
    effects of [close] are in the log), discards it, clears the start
    time and leaves the manager Idle; the partial results, the final
    result and the history stay as they were, and the next
    [startSession] is what empties the two result buffers. *)
Theorem cancelSession_resets_session_keeps_buffers (m : ASRManager) :
  let m' := cancelSession m in
  client m' = None
  /\ currentState m' = Idle
  /\ sessionStartTime m' = None
  /\ log m'
     = log m
       ++ match client m with
          | Some c => map ClientDid (snd (Client.close c))
          | None => []
          end
       ++ (if ASRState_eqb (currentState m) Idle then []
           else [Emit {| ev_type := EvStateChange; ev_state := Idle;
                         ev_result := None; ev_error := None |}])
  /\ partialResults m' = partialResults m
  /\ finalResult m' = finalResult m
  /\ history m' = history m
  /\ (forall env now,
        partialResults (fst (startSession gzip initPayload env now m')) = []
        /\ finalResult (fst (startSession gzip initPayload env now m')) = None).
Proof.
  intros m'.
  assert (H : client m' = None /\ currentState m' = Idle
              /\ sessionStartTime m' = None
              /\ log m'
                 = log m
                   ++ match client m with
                      | Some c => map ClientDid (snd (Client.close c))
                      | None => []
                      end
                   ++ (if ASRState_eqb (currentState m) Idle then []
                       else [Emit {| ev_type := EvStateChange;
                                     ev_state := Idle;
                                     ev_result := None; ev_error := None |}])
              /\ partialResults m' = partialResults m
              /\ finalResult m' = finalResult m
              /\ history m' = history m).
  { subst m'. unfold cancelSession, cleanup.
    destruct m as [auto maxH cl st start parts final hist lg]; cbn.
    destruct cl as [[w cst buf timer]|]; cbn.
    - destruct timer, w; cbn; destruct st; cbn;
        rewrite <- ?app_assoc, ?app_nil_r; repeat split; reflexivity.
    - destruct st; cbn; rewrite ?app_nil_r; repeat split; reflexivity. }
  destruct H as (h1 & h2 & h3 & h4 & h5 & h6 & h7).
  repeat (split; [assumption|]).
  intros env now. apply startSession_buffers, h2.
Qed.


Lemma slice0_firstn {A} (l : list A) (k : Z) :
  0 <= k -> slice0 l k = firstn (Z.to_nat k) l.
Proof.
  intros H. unfold slice0.
  destruct (Z.ltb_spec k 0); [lia|].
  destruct (Z.le_ge_cases k (Z.of_nat (List.length l))).
  - rewrite Z.min_l by lia. reflexivity.
  - rewrite Z.min_r by lia. rewrite Nat2Z.id.
    rewrite firstn_all. symmetry. apply firstn_all2. lia.
Qed.

Lemma pushHistory_firstn maxSize e h :
  0 <= maxSize ->
  pushHistory maxSize e h = firstn (Z.to_nat maxSize) (e :: h).
Proof.
  intros H. unfold pushHistory.
  destruct (Z.gtb_spec (Z.of_nat (List.length (e :: h))) maxSize).
  - apply slice0_firstn, H.
  - symmetry. apply firstn_all2. lia.
Qed.

Lemma pushHistory_prefix maxSize e h :
  exists n, pushHistory maxSize e h = firstn n (e :: h).
Proof.
  unfold pushHistory.
  destruct (Z.of_nat (List.length (e :: h)) >? maxSize).
  - unfold slice0. eexists. reflexivity.
  - exists (List.length (e :: h)). symmetry. apply firstn_all.
Qed.

Lemma pushHistory_room maxSize e h :
  Z.of_nat (List.length h) < maxSize -> pushHistory maxSize e h = e :: h.
Proof.
  intros H. unfold pushHistory.
  destruct (Z.gtb_spec (Z.of_nat (List.length (e :: h))) maxSize);
    [cbn [List.length] in *; lia | reflexivity].
Qed.

Lemma pushHistory_length maxSize e h :
  0 <= maxSize -> Z.of_nat (List.length (pushHistory maxSize e h)) <= maxSize.
Proof.
  intros H. rewrite pushHistory_firstn by exact H.
  rewrite length_firstn. lia.
Qed.

Lemma firstn_cons_firstn {A} (n : nat) (x : A) (l : list A) :
  firstn n (x :: firstn n l) = firstn n (x :: l).
Proof.
  destruct n as [|n]; [reflexivity|]. rewrite !firstn_cons. f_equal.
  rewrite firstn_firstn. f_equal. lia.
Qed.

(** What [stopSession] does to the history and the configuration. *)
Lemma stopSession_history (env : StopEnv) (m : ASRManager) :
  autoSaveHistory (fst (stopSession gzip engineText env m))
    = autoSaveHistory m
  /\ maxHistorySize (fst (stopSession gzip engineText env m))
     = maxHistorySize m
  /\ match snd (stopSession gzip engineText env m) with
     | Some (Ok r) =>
         if autoSaveHistory m && truthy (text r)
         then exists start,
             sessionStartTime m = Some start
             /\ history (fst (stopSession gzip engineText env m))
                = pushHistory (maxHistorySize m)
                    (mkEntry (uuid env) r start (stopNow env)) (history m)
         else history (fst (stopSession gzip engineText env m)) = history m
     | _ => history (fst (stopSession gzip engineText env m)) = history m
     end.
Proof.
  destruct (client m) as [c|] eqn:Ec.
  2:{ unfold stopSession. rewrite Ec. cbn. auto. }
  assert (Hcase : (currentState m = Ready \/ currentState m = Recording)
                  \/ (currentState m <> Ready /\ currentState m <> Recording))
    by (destruct (currentState m); auto; right; split; discriminate).
  destruct Hcase as [Hs|[H1 H2]].
  2:{ unfold stopSession. rewrite Ec.
      destruct (currentState m); try congruence; cbn; auto. }
  destruct (stopSession_active env m c Ec Hs)
    as (m4 & r & k & _ & _ & _ & Hauto & Hmax & Hst & Hh & ->).
  destruct r as [result|e].
  - rewrite <- Hauto.
    destruct (sessionStartTime m4) as [start|] eqn:Estart.
    + destruct (stop_success_fields result env m4 start Estart)
        as (o1 & _ & _ & _ & _ & o6 & o7 & o8).
      rewrite o1, o6, o7, o8, Hmax, Hh.
      split; [reflexivity|]. split; [reflexivity|].
      destruct (autoSaveHistory m4 && truthy (text result)); [|reflexivity].
      exists start. split; [congruence | reflexivity].
    + destruct (setState_fields Completed m4)
        as (_ & _ & s3 & _ & _ & s6 & s7 & s8).
      destruct (autoSaveHistory m4 && truthy (text result)) eqn:Eb.
      * unfold addToHistory. rewrite s3, Estart. unfold raise.
        destruct (stopFailed_fields
                    (ErrorObject (engineText TypeError_nullish))
                    (setState Completed m4))
          as (o1 & _ & _ & _ & _ & o6 & o7 & o8).
        rewrite o1, o6, o7, o8. repeat split; congruence.
      * cbn [fst snd]. rewrite Eb.
        destruct (cleanup_fields (setState Completed m4))
          as (_ & _ & _ & _ & _ & c6 & c7 & c8).
        repeat split; congruence.
  - destruct (stopFailed_fields e m4) as (o1 & _ & _ & _ & _ & o6 & o7 & o8).
    rewrite o1, o6, o7, o8. repeat split; congruence.
Qed.


Lemma startSession_fields env now (m : ASRManager) :
  history (fst (startSession gzip initPayload env now m)) = history m
  /\ autoSaveHistory (fst (startSession gzip initPayload env now m))
     = autoSaveHistory m
  /\ maxHistorySize (fst (startSession gzip initPayload env now m))
     = maxHistorySize m
  /\ (snd (startSession gzip initPayload env now m) = Ok tt ->
      sessionStartTime (fst (startSession gzip initPayload env now m))
      = Some now)
  /\ (currentState m = Idle ->
      sessionStartTime (fst (startSession gzip initPayload env now m))
      = Some now).
Proof.
  unfold startSession.
  destruct (currentState m); try (cbn; repeat split; discriminate).
  destruct (Client.connect gzip initPayload env Client.new)
    as [[c effects] outcome].
  match goal with
  | |- context [runClientEffects effects ?x] =>
      destruct (runClientEffects_same effects x)
        as (a1 & a2 & _ & _ & a5 & a6);
      set (m3 := runClientEffects effects x) in *
  end.
  destruct (setState_fields Connecting m)
    as (_ & _ & _ & _ & _ & s6 & s7 & s8).
  cbn [set_client set_finalResult set_partialResults set_sessionStartTime
       history autoSaveHistory maxHistorySize sessionStartTime]
    in a1, a2, a5, a6.
  destruct outcome;
    cbn [fst snd emitEvent tell history autoSaveHistory maxHistorySize
         sessionStartTime];
    match goal with
    | |- context [setState ?st m3] =>
        destruct (setState_fields st m3)
          as (_ & _ & t3 & _ & _ & t6 & t7 & t8)
    end;
    repeat split; try congruence.
Qed.

Lemma sendAudio_fields (a : Client.bytes) (m : ASRManager) :
  history (fst (sendAudio a m)) = history m
  /\ autoSaveHistory (fst (sendAudio a m)) = autoSaveHistory m
  /\ maxHistorySize (fst (sendAudio a m)) = maxHistorySize m
  /\ sessionStartTime (fst (sendAudio a m)) = sessionStartTime m.
Proof.
  unfold sendAudio. destruct (client m) as [c|]; [|cbn; auto].
  destruct (Client.sendAudio a c) as [c1 effects].
  assert (H1 : forall m1, history m1 = history m ->
                autoSaveHistory m1 = autoSaveHistory m ->
                maxHistorySize m1 = maxHistorySize m ->
                sessionStartTime m1 = sessionStartTime m ->
                let out := match currentState m1 with
                           | Recording =>
                               (runClientEffects effects
                                  (set_client (Some c1) m1), Ok tt)
                           | _ => (tell [Warn] m1, Ok tt)
                           end in
                history (fst out) = history m
                /\ autoSaveHistory (fst out) = autoSaveHistory m
                /\ maxHistorySize (fst out) = maxHistorySize m
                /\ sessionStartTime (fst out) = sessionStartTime m).
  { intros m1 h1 h2 h3 h4.
    destruct (runClientEffects_same effects (set_client (Some c1) m1))
      as (a1 & a2 & _ & _ & a5 & a6).
    cbn [set_client history autoSaveHistory maxHistorySize sessionStartTime]
      in a1, a2, a5, a6.
    destruct (currentState m1); cbn [fst tell history autoSaveHistory
      maxHistorySize sessionStartTime]; repeat split; congruence. }
  destruct (setState_fields Recording m)
    as (_ & _ & s3 & _ & _ & s6 & s7 & s8).
  destruct (currentState m); apply H1; auto.
Qed.

Lemma feed_fields (f : Feed) (m : ASRManager) :
  history (feed f m) = history m
  /\ autoSaveHistory (feed f m) = autoSaveHistory m
  /\ maxHistorySize (feed f m) = maxHistorySize m
  /\ sessionStartTime (feed f m) = sessionStartTime m.
Proof.
  destruct f as [a|r]; cbn [feed].
  - apply sendAudio_fields.
  - destruct (handleTranscriptionResult_same r m)
      as (a1 & a2 & _ & _ & a5 & a6). auto.
Qed.

Lemma feeds_fields (feeds : list Feed) :
  forall m,
    history (fold_left (fun m f => feed f m) feeds m) = history m
    /\ autoSaveHistory (fold_left (fun m f => feed f m) feeds m)
       = autoSaveHistory m
    /\ maxHistorySize (fold_left (fun m f => feed f m) feeds m)
       = maxHistorySize m
    /\ sessionStartTime (fold_left (fun m f => feed f m) feeds m)
       = sessionStartTime m.
Proof.
  induction feeds as [|f l IH]; intros m; cbn [fold_left]; [auto|].
  destruct (IH (feed f m)) as (a1 & a2 & a3 & a4).
  destruct (feed_fields f m) as (b1 & b2 & b3 & b4).
  repeat split; congruence.
Qed.

Lemma cancelSession_fields (m : ASRManager) :
  history (cancelSession m) = history m
  /\ autoSaveHistory (cancelSession m) = autoSaveHistory m
  /\ maxHistorySize (cancelSession m) = maxHistorySize m.
Proof.
  unfold cancelSession.
  match goal with
  | |- context [cleanup ?x] =>
      set (m1 := x);
      destruct (setState_fields Idle (cleanup m1))
        as (_ & _ & _ & _ & _ & -> & -> & ->);
      destruct (cleanup_fields m1) as (_ & _ & _ & _ & _ & -> & -> & ->)
  end.
  subst m1. destruct (client m) as [c|]; [|auto].
  destruct (Client.close c) as [c1 effects].
  destruct (runClientEffects_same effects (set_client (Some c1) m))
    as (a1 & a2 & _ & _ & _ & a6). auto.
Qed.

Lemma run_config (o : Op) (m : ASRManager) :
  autoSaveHistory (run gzip initPayload engineText o m) = autoSaveHistory m
  /\ maxHistorySize (run gzip initPayload engineText o m) = maxHistorySize m.
Proof.
  destruct o as [[env now|a|env|]| |r]; cbn [run runLifecycle].
  - destruct (startSession_fields env now m) as (_ & ? & ? & _ & _). auto.
  - destruct (sendAudio_fields a m) as (_ & ? & ? & _). auto.
  - destruct (stopSession_history env m) as (? & ? & _). auto.
  - destruct (cancelSession_fields m) as (_ & ? & ?). auto.
  - auto.
  - destruct (handleTranscriptionResult_same r m) as (? & ? & _). auto.
Qed.

(** The history after one lifecycle operation. *)
Lemma lifecycle_history (l : Lifecycle) (m : ASRManager) :
  history (runLifecycle gzip initPayload engineText l m) = history m
  \/ exists env r start,
       l = StopSession env
       /\ snd (stopSession gzip engineText env m) = Some (Ok r)
       /\ autoSaveHistory m = true
       /\ truthy (text r) = true
       /\ sessionStartTime m = Some start
       /\ history (runLifecycle gzip initPayload engineText l m)
          = pushHistory (maxHistorySize m)
              (mkEntry (uuid env) r start (stopNow env)) (history m).
Proof.
  destruct l as [env now|a|env|]; cbn [runLifecycle].
  - left. apply startSession_fields.
  - left. apply sendAudio_fields.
  - destruct (stopSession_history env m) as (_ & _ & H).
    destruct (snd (stopSession gzip engineText env m)) as [[r|e]|] eqn:E;
      auto.
    destruct (autoSaveHistory m && truthy (text r)) eqn:Eb; auto.
    apply andb_prop in Eb. destruct Eb as [Ea Et].
    destruct H as (start & Hst & Hh).
    right. exists env, r, start. auto 10.
  - left. apply cancelSession_fields.
Qed.

Lemma run_history_length (o : Op) (m : ASRManager) :
  0 <= maxHistorySize m ->
  Z.of_nat (List.length (history m)) <= maxHistorySize m ->
  Z.of_nat (List.length (history (run gzip initPayload engineText o m)))
  <= maxHistorySize m.
Proof.
  intros Hmax Hlen. destruct o as [l| |r]; cbn [run].
  - destruct (lifecycle_history l m)
      as [->|(env & r & start & _ & _ & _ & _ & _ & ->)];
      [exact Hlen | apply pushHistory_length, Hmax].
  - cbn. exact Hmax.
  - destruct (handleTranscriptionResult_same r m)
      as (_ & _ & _ & _ & _ & ->). exact Hlen.
Qed.

Lemma session_history (m : ASRManager) e (m' : ASRManager) :
  session gzip initPayload engineText m e m' ->
  autoSaveHistory m = true ->
  history m' = pushHistory (maxHistorySize m) e (history m)
  /\ autoSaveHistory m' = autoSaveHistory m
  /\ maxHistorySize m' = maxHistorySize m.
Proof.
  intros [cenv start feeds senv r m1 m3 Hstart Hstop Htext -> ->] Hauto.
  destruct (startSession_fields cenv start m) as (a1 & a2 & a3 & a4 & _).
  rewrite Hstart in a1, a2, a3, a4. cbn [fst snd] in a1, a2, a3, a4.
  specialize (a4 eq_refl).
  destruct (feeds_fields feeds m1) as (b1 & b2 & b3 & b4).
  set (m2 := fold_left (fun m f => feed f m) feeds m1) in *.
  destruct (stopSession_history senv m2) as (c1 & c2 & c3).
  rewrite Hstop in c1, c2, c3. cbn [fst snd] in c1, c2, c3.
  assert (Eb : autoSaveHistory m2 && truthy (text r) = true)
    by (rewrite b2, a2, Hauto, Htext; reflexivity).
  rewrite Eb in c3. destruct c3 as (start' & Hst' & Hh).
  assert (start' = start) by congruence. subst start'.
  destruct (cancelSession_fields m3) as (d1 & d2 & d3).
  repeat split; congruence.
Qed.

Lemma firstn_app_firstn {A} (n : nat) (a b : list A) :
  firstn n (a ++ firstn n b) = firstn n (a ++ b).
Proof.
  rewrite !firstn_app, firstn_firstn. do 2 f_equal. lia.
Qed.

Lemma sessions_history (m : ASRManager) es (m' : ASRManager) :
  sessions gzip initPayload engineText m es m' ->
  autoSaveHistory m = true ->
  0 <= maxHistorySize m ->
  Z.of_nat (List.length (history m)) <= maxHistorySize m ->
  history m' = firstn (Z.to_nat (maxHistorySize m)) (rev es ++ history m).
Proof.
  induction 1 as [m|m e m1 es m2 Hs Hrest IH]; intros Hauto Hmax Hlen.
  - cbn [rev app]. symmetry. apply firstn_all2. lia.
  - destruct (session_history m e m1 Hs Hauto) as (h1 & h2 & h3).
    rewrite IH; rewrite ?h2, ?h3, ?h1; auto.
    + rewrite pushHistory_firstn by exact Hmax.
      rewrite firstn_app_firstn. cbn [rev]. now rewrite <- app_assoc.
    + apply pushHistory_length, Hmax.
Qed.

(** C7: the history changes only through [clearHistory] and through a
    [stopSession] that returns a result with non-empty text while
    [autoSaveHistory] is on, and such a [stopSession] puts one entry in
    front and keeps the first [maxHistorySize] entries; from the
    constructor on the history is never longer than a non-negative
    [maxHistorySize]; and after completed sessions with non-empty text
    the history is the [maxHistorySize] most recent entries, most recent
    first, and has exactly [maxHistorySize] entries once there were more
    sessions than that. *)
Theorem history_bounded_most_recent_first :
  (forall o m,
      history (run gzip initPayload engineText o m) = history m
      \/ (o = ClearHistory
          /\ history (run gzip initPayload engineText o m) = [])
      \/ (exists env r start,
             o = Call (StopSession env)
             /\ snd (stopSession gzip engineText env m) = Some (Ok r)
             /\ autoSaveHistory m = true
             /\ truthy (text r) = true
             /\ sessionStartTime m = Some start
             /\ history (run gzip initPayload engineText o m)
                = pushHistory (maxHistorySize m)
                    (mkEntry (uuid env) r start (stopNow env)) (history m)))
  /\ (forall env m r,
        snd (stopSession gzip engineText env m) = Some (Ok r) ->
        autoSaveHistory m = true ->
        truthy (text r) = true ->
        exists start,
          sessionStartTime m = Some start
          /\ history (fst (stopSession gzip engineText env m))
             = pushHistory (maxHistorySize m)
                 (mkEntry (uuid env) r start (stopNow env)) (history m))
  /\ (forall maxSize e h,
        0 <= maxSize ->
        pushHistory maxSize e h = firstn (Z.to_nat maxSize) (e :: h))
  /\ (forall autoSave maxHistory ops,
        0 <= maxHistorySize (new autoSave maxHistory) ->
        Z.of_nat
          (List.length
             (history
                (fold_left (fun m o => run gzip initPayload engineText o m)
                           ops (new autoSave maxHistory))))
        <= maxHistorySize (new autoSave maxHistory))
  /\ (forall m es m',
        autoSaveHistory m = true ->
        0 <= maxHistorySize m ->
        history m = [] ->
        sessions gzip initPayload engineText m es m' ->
        history m' = firstn (Z.to_nat (maxHistorySize m)) (rev es)
        /\ (maxHistorySize m < Z.of_nat (List.length es) ->
            Z.of_nat (List.length (history m')) = maxHistorySize m)).
Proof.
  split; [|split; [|split; [|split]]].
  - intros [l| |r] m; cbn [run].
    + destruct (lifecycle_history l m)
        as [H|(env & r & start & -> & H1 & H2 & H3 & H4 & H5)]; [auto|].
      right; right. exists env, r, start. auto 10.
    + right; left. auto.
    + left. apply handleTranscriptionResult_same.
  - intros env m r Hout Hauto Htext.
    destruct (stopSession_history env m) as (_ & _ & H).
    rewrite Hout, Hauto, Htext in H. exact H.
  - intros maxSize e h H. apply pushHistory_firstn, H.
  - intros autoSave maxHistory ops Hmax.
    set (maxSize := maxHistorySize (new autoSave maxHistory)) in *.
    assert (Hgen : forall m,
               maxHistorySize m = maxSize ->
               Z.of_nat (List.length (history m)) <= maxSize ->
               Z.of_nat
                 (List.length
                    (history
                       (fold_left
                          (fun m o => run gzip initPayload engineText o m)
                          ops m))) <= maxSize).
    { induction ops as [|o ops IH]; intros m Hm Hlen; cbn [fold_left];
        [exact Hlen|].
      apply IH.
      - destruct (run_config o m) as [_ ->]. exact Hm.
      - rewrite <- Hm. apply run_history_length; rewrite Hm; assumption. }
    apply Hgen; [reflexivity | cbn [new history List.length]; lia].
  - intros m es m' Hauto Hmax Hempty Hs.
    pose proof (sessions_history m es m' Hs Hauto Hmax) as H.
    rewrite Hempty in H. cbn [List.length] in H.
    rewrite app_nil_r in H. specialize (H ltac:(lia)).
    split; [exact H|]. intros Hn. rewrite H, length_firstn, length_rev. lia.
Qed.

(** What [unshift] and the size limit make of a history, in full: the
    new entry in front, cut after [maxSize] entries, and for a negative
    [maxSize], as [slice(0, maxSize)] has it, short of the end by that
    many. *)
Lemma pushHistory_exact maxSize e h :
  pushHistory maxSize e h
  = firstn (Z.to_nat (if maxSize <? 0
                      then Z.of_nat (List.length h) + 1 + maxSize
                      else maxSize))
           (e :: h).
Proof.
  unfold pushHistory, slice0. cbn [List.length].
  rewrite Nat2Z.inj_succ.
  destruct (Z.ltb_spec maxSize 0) as [Hneg|Hpos].
  - replace (Z.succ (Z.of_nat (List.length h)) >? maxSize) with true
      by (symmetry; apply Z.gtb_lt; lia).
    f_equal. lia.
  - destruct (Z.gtb_spec (Z.succ (Z.of_nat (List.length h))) maxSize).
    + f_equal. lia.
    + symmetry. apply firstn_all2. cbn [List.length]. lia.
Qed.

Lemma firstn_full_removelast {A} (x : A) (l : list A) :
  l <> [] -> firstn (List.length l) (x :: l) = x :: removelast l.
Proof.
  destruct l as [|y l]; [congruence|]. intros _.
  cbn [List.length firstn]. f_equal.
  revert y. induction l as [|z l IH]; intros y; [reflexivity|].
  cbn [List.length firstn]. rewrite IH. reflexivity.
Qed.

(** C10: [startSession], [sendAudio] and [cancelSession] leave the
    history as it is.  [stopSession] leaves it as it is, or (when it
    returns a result) puts the entry of the session in front of it and
    keeps the first [maxHistorySize] entries of that: all of them while
    there was room, and all but the oldest when a non-empty history was
    full (for a negative [maxHistorySize], [slice] keeps all but that
    many entries at the end).
    None of the four empties a non-empty history that respects the size
    limit; [clearHistory] empties it. *)
Theorem lifecycle_keeps_history :
  (forall l m,
      history (runLifecycle gzip initPayload engineText l m) = history m
      \/ exists env r start,
           l = StopSession env
           /\ snd (stopSession gzip engineText env m) = Some (Ok r)
           /\ sessionStartTime m = Some start
           /\ let entry := {| id := uuid env; h_text := text r;
                              startTime := start; endTime := stopNow env;
                              duration := stopNow env - start |} in
              let h' := history (runLifecycle gzip initPayload engineText
                                              l m) in
              h' = firstn (Z.to_nat
                             (if maxHistorySize m <? 0
                              then Z.of_nat (List.length (history m)) + 1
                                   + maxHistorySize m
                              else maxHistorySize m))
                          (entry :: history m)
              /\ (0 <= maxHistorySize m ->
                  h' = firstn (Z.to_nat (maxHistorySize m))
                              (entry :: history m))
              /\ (Z.of_nat (List.length (history m)) < maxHistorySize m ->
                  h' = entry :: history m)
              /\ (history m <> [] ->
                  Z.of_nat (List.length (history m)) = maxHistorySize m ->
                  h' = entry :: removelast (history m)))
  /\ (forall env m r start,
        snd (stopSession gzip engineText env m) = Some (Ok r) ->
        autoSaveHistory m = true ->
        truthy (text r) = true ->
        sessionStartTime m = Some start ->
        0 <= maxHistorySize m ->
        history (runLifecycle gzip initPayload engineText (StopSession env) m)
        = firstn (Z.to_nat (maxHistorySize m))
                 ({| id := uuid env; h_text := text r; startTime := start;
                     endTime := stopNow env;
                     duration := stopNow env - start |} :: history m))
  /\ (forall l m,
        history m <> [] ->
        Z.of_nat (List.length (history m)) <= maxHistorySize m ->
        history (runLifecycle gzip initPayload engineText l m) <> [])
  /\ (forall m, history (clearHistory m) = []).
Proof.
  split; [|split; [|split]].
  - intros l m.
    destruct (lifecycle_history l m)
      as [H|(env & r & start & -> & Hout & _ & _ & Hstart & H)]; [auto|].
    right. exists env, r, start.
    split; [reflexivity|]. split; [exact Hout|]. split; [exact Hstart|].
    cbv zeta. rewrite H. unfold mkEntry.
    rewrite pushHistory_exact.
    split; [reflexivity|]. split; [|split].
    + intros Hpos. destruct (Z.ltb_spec (maxHistorySize m) 0); [lia|].
      reflexivity.
    + intros Hroom. destruct (Z.ltb_spec (maxHistorySize m) 0); [lia|].
      apply firstn_all2. cbn [List.length]. lia.
    + intros Hne Hfull. destruct (Z.ltb_spec (maxHistorySize m) 0); [lia|].
      rewrite <- Hfull, Nat2Z.id. apply firstn_full_removelast, Hne.
  - intros env m r start Hout Hauto Htext Hstart Hpos.
    cbn [runLifecycle].
    destruct (stopSession_history env m) as (_ & _ & H).
    rewrite Hout, Hauto, Htext in H. cbn [andb] in H.
    destruct H as (start' & Hs' & ->).
    assert (start' = start) by congruence. subst start'.
    rewrite pushHistory_exact. unfold mkEntry.
    destruct (Z.ltb_spec (maxHistorySize m) 0); [lia|]. reflexivity.
  - intros l m Hne Hlen.
    destruct (lifecycle_history l m)
      as [->|(env & r & start & -> & _ & _ & _ & _ & ->)]; [exact Hne|].
    assert (0 < maxHistorySize m).
    { destruct (history m); [congruence | cbn [List.length] in Hlen; lia]. }
    rewrite pushHistory_firstn by lia.
    destruct (Z.to_nat (maxHistorySize m)) eqn:E; [lia | discriminate].
  - reflexivity.
Qed.


Lemma stopSession_releases_client (env : StopEnv) (m : ASRManager)
  (c : Client.ASRClient) :
  client m = Some c ->
  currentState m = Ready \/ currentState m = Recording ->
  client (fst (stopSession gzip engineText env m)) = None.
Proof.
  intros Ec Hs.
  destruct (stopSession_active env m c Ec Hs)
    as (m4 & r & k & _ & _ & _ & Hauto & _ & _ & _ & ->).
  destruct r as [result|e]; [|apply stopFailed_fields].
  rewrite <- Hauto.
  destruct (sessionStartTime m4) as [start|] eqn:Estart.
  - apply (stop_success_fields result env m4 start Estart).
  - destruct (autoSaveHistory m4 && truthy (text result)).
    + unfold addToHistory.
      destruct (setState_fields Completed m4) as (_ & _ & -> & _).
      rewrite Estart. apply stopFailed_fields.
    + apply cleanup_fields.
Qed.

Lemma cancelSession_client (m : ASRManager) : client (cancelSession m) = None.
Proof.
  unfold cancelSession.
  match goal with
  | |- context [cleanup ?x] =>
      destruct (setState_fields Idle (cleanup x)) as (_ & -> & _);
      apply cleanup_fields
  end.
Qed.

(** A session that owns a client has its start time recorded: the
    premise of the wait policy holds in every state the operations
    reach. *)
Lemma session_start_recorded (o : Op) (m : ASRManager) :
  (client m <> None -> sessionStartTime m <> None) ->
  client (run gzip initPayload engineText o m) <> None ->
  sessionStartTime (run gzip initPayload engineText o m) <> None.
Proof.
  intros Hwf. destruct o as [[env now|a|env|]| |r]; cbn [run runLifecycle].
  - destruct (currentState m) eqn:E;
      try (unfold startSession; rewrite E; exact Hwf).
    destruct (startSession_fields env now m) as (_ & _ & _ & _ & H).
    rewrite (H E). discriminate.
  - destruct (sendAudio_fields a m) as (_ & _ & _ & ->).
    intros Hc. apply Hwf. intros Hn. apply Hc.
    unfold sendAudio. rewrite Hn. exact Hn.
  - destruct (client m) as [c|] eqn:Ec.
    2:{ unfold stopSession. rewrite Ec. cbn [fst]. congruence. }
    assert (Hcase : (currentState m = Ready \/ currentState m = Recording)
                    \/ (currentState m <> Ready
                        /\ currentState m <> Recording))
      by (destruct (currentState m); auto; right; split; discriminate).
    destruct Hcase as [Hs|[H1 H2]].
    + rewrite (stopSession_releases_client env m c Ec Hs). congruence.
    + unfold stopSession. rewrite Ec.
      destruct (currentState m); try congruence; cbn [fst]; intros _;
        apply Hwf; congruence.
  - rewrite cancelSession_client. congruence.
  - exact Hwf.
  - destruct (handleTranscriptionResult_same r m)
      as (_ & _ & -> & _ & -> & _). exact Hwf.
Qed.

End WithLibraries.
End ManagerFacts.

(* ================================================================== *)
(** * Properties of rewrite/index.ts                                    *)
(* ================================================================== *)

Section RewriteFacts.
Import JS Rewrite.

Variable fetch : Request -> Res Response.
Variable engineText : EngineError -> jsstring.
Variable SYSTEM_PROMPT : jsstring.

(** C8, as the code has it: [rewrite] is total and its result always
    carries the original text.  Empty or whitespace-only input gives
    an empty polished text with success and no request; a missing API key gives the
    text back with success and no request; otherwise exactly one request
    is made, and a response that is not ok, an empty completion and any
    exception each give [success = false] with the original text as
    polished text and an error: a fixed non-empty message in the first
    two cases, the message of the exception in the last (empty when that
    message is). *)
Theorem rewrite_always_returns_usable_text
  (config : RewriteConfig) (text : jsstring) :
  let result := fst (rewrite fetch engineText SYSTEM_PROMPT config text) in
  let requests := snd (rewrite fetch engineText SYSTEM_PROMPT config text) in
  let request := mkRequest SYSTEM_PROMPT config (trim text) in
  original result = text
  /\ (success result = false ->
      polished result = text /\ error result <> None)
  /\ (trim text = [] ->
      result = {| original := text; polished := []; success := true;
                  error := None |}
      /\ requests = [])
  /\ (trim text <> [] -> apiKey config = [] ->
      result = {| original := text; polished := text; success := true;
                  error := None |}
      /\ requests = [])
  /\ (trim text <> [] -> apiKey config <> [] ->
      requests = [request]
      /\ match fetch request with
         | Throw e => result = failure text (thrownMessage e)
         | Ok response =>
             if ok response then
               match jsonBody response with
               | Throw e => result = failure text (thrownMessage e)
               | Ok data =>
                   match completion engineText data with
                   | Throw e => result = failure text (thrownMessage e)
                   | Ok (String (c :: s)) =>
                       result = {| original := text; polished := c :: s;
                                   success := true; error := None |}
                   | Ok _ =>
                       result = failure text msg_emptyResult
                       /\ msg_emptyResult <> []
                   end
               end
             else
               match textBody response with
               | Throw e => result = failure text (thrownMessage e)
               | Ok _ =>
                   result = failure text (msg_requestFailed
                                            ++ decimal (status response))
                   /\ msg_requestFailed ++ decimal (status response) <> []
               end
         end).
Proof.
  intros result requests request. subst result requests request.
  unfold rewrite, tryRewrite.
  destruct (trim text) as [|t0 trimmed] eqn:Et.
  - cbn. repeat split; try congruence; try discriminate.
  - destruct (apiKey config) as [|k0 key] eqn:Ek.
    + cbn. repeat split; try congruence; try discriminate.
    + cbn [fst snd].
      set (request := mkRequest SYSTEM_PROMPT config (t0 :: trimmed)).
      destruct (fetch request) as [response|e]; cbn [bind].
      * destruct (ok response); cbn [negb].
        -- destruct (jsonBody response) as [data|e]; cbn [bind].
           ++ destruct (completion engineText data) as [[| | | |[|c s]| |]|e];
                cbn [bind original polished success error failure];
                repeat split; try congruence; try discriminate.
           ++ cbn [original polished success error failure].
              repeat split; try congruence; try discriminate.
        -- destruct (textBody response) as [body|e]; cbn [bind];
             cbn [original polished success error failure];
             repeat split; try congruence; try discriminate.
      * cbn [original polished success error failure].
        repeat split; try congruence; try discriminate.
Qed.
End RewriteFacts.

(* ================================================================== *)
(** * The statements at concrete inputs                                 *)
(* ================================================================== *)

Section ManagerInstances.
Import JS Shared Manager.

(** The input on which the code departs from C1: one partial result,
    timers that fire exactly on time, nothing more from the socket.  The
    timeout branch is taken at the test after 51 sleeps, 5100 ms into
    the wait, not within 5000 ms. *)
Lemma stop_wait_outlasts_5000_ms :
  finalResult (fst (Example.stopSession Example.quietStop
                                        Example.heardPartial)) = None
  /\ snd (Example.stopSession Example.quietStop Example.heardPartial)
     = Some (Ok (promote Example.partialHello))
  /\ waitForFinalResult 5000 Example.quietWait Example.heardPartial
     = Some (tell [Warn] Example.heardPartial,
             Ok (promote Example.partialHello), 51%nat)
  /\ elapsed Example.quietWait 51 = 5100
  /\ ~ elapsed Example.quietWait 51 <= 5000.
Proof.
  split; [vm_compute; reflexivity|].
  split; [vm_compute; reflexivity|].
  split; [vm_compute; reflexivity|].
  split; [vm_compute; reflexivity|].
  vm_compute. intros H. apply H. reflexivity.
Qed.

(** The wait policy on that input, and on one where the timers fire a
    millisecond early and the final result arrives during the third
    sleep: there the wait makes three sleeps and returns that result. *)
Lemma stopSession_wait_policy_witness :
  exists c,
    client Example.heardPartial = Some c
    /\ (currentState Example.heardPartial = Ready
        \/ currentState Example.heardPartial = Recording)
    /\ sessionStartTime Example.heardPartial <> None
    /\ (exists k,
          k = 51%nat
          /\ 5000 < elapsed Example.quietWait k
          /\ elapsed Example.quietWait k = 5100
          /\ snd (stopSession Example.gzip Example.engineText
                              Example.quietStop Example.heardPartial)
             = Some (Ok (promote Example.partialHello)))
    /\ (exists k,
          k = 3%nat
          /\ snd (stopSession Example.gzip Example.engineText
                              Example.earlyStop Example.heardPartial)
             = Some (Ok (Example.finalText "done"))).
Proof.
  eexists.
  assert (Hc : client Example.heardPartial = Some _) by reflexivity.
  assert (Hs : currentState Example.heardPartial = Ready
               \/ currentState Example.heardPartial = Recording)
    by (right; reflexivity).
  assert (Hstart : sessionStartTime Example.heardPartial <> None)
    by (vm_compute; discriminate).
  split; [exact Hc|]. split; [exact Hs|]. split; [exact Hstart|].
  split.
  - pose proof (stopSession_wait_policy Example.gzip Example.engineText
                  Example.quietStop Example.heardPartial _ Hc Hs Hstart)
      as H.
    cbv zeta in H.
    destruct H as (k & (m4 & r & Hwait) & _ & _ & _ & _ & _ & H).
    vm_compute in Hwait. injection Hwait as _ _ Hk. subst k.
    match type of H with
    | match ?final with _ => _ end =>
        assert (Hf : final = None) by (vm_compute; reflexivity);
          rewrite Hf in H
    end.
    destruct H as (Hgt & Hexact & H).
    match type of H with
    | match ?partials with _ => _ end =>
        assert (Hp : partials = [Example.partialHello])
          by (vm_compute; reflexivity);
          rewrite Hp in H
    end.
    exists 51%nat. split; [reflexivity|]. split; [exact Hgt|].
    split; [apply Hexact; reflexivity | apply H].
  - pose proof (stopSession_wait_policy Example.gzip Example.engineText
                  Example.earlyStop Example.heardPartial _ Hc Hs Hstart)
      as H.
    cbv zeta in H.
    destruct H as (k & (m4 & r & Hwait) & _ & _ & _ & _ & _ & H).
    vm_compute in Hwait. injection Hwait as _ _ Hk. subst k.
    match type of H with
    | match ?final with _ => _ end =>
        assert (Hf : final = Some (Example.finalText "done"))
          by (vm_compute; reflexivity);
          rewrite Hf in H
    end.
    exists 3%nat. split; [reflexivity | apply H].
Defined.

(** The input on which C2 as worded fails: after [cancelSession] the
    partial result recorded before it is still there. *)
Lemma cancelSession_keeps_partial_results :
  partialResults Example.heardPartial = [Example.partialHello]
  /\ ~ partialResults (cancelSession Example.heardPartial) = [].
Proof.
  split; [reflexivity|]. vm_compute. discriminate.
Qed.

(** The guards on a fresh manager and on one that has just started. *)
Lemma session_state_guards_witness :
  (currentState Example.readyManager <> Idle
   /\ exists e,
       startSession Example.gzip Example.initPayload Client.SocketOpens 2000
                    Example.readyManager
       = (Example.readyManager, Throw e)
       /\ InvalidStateError e)
  /\ (client (new None None) = None
      /\ exists e,
          sendAudio Example.chunk1 (new None None)
          = (new None None, Throw e)
          /\ InvalidStateError e)
  /\ (currentState (new None None) <> Ready
      /\ currentState (new None None) <> Recording
      /\ exists e,
          stopSession Example.gzip Example.engineText Example.quietStop
                      (new None None)
          = (new None None, Some (Throw e))
          /\ InvalidStateError e).
Proof.
  destruct (session_state_guards Example.gzip Example.initPayload
                                 Example.engineText)
    as (Hstart & _ & Hsend & _ & _ & Hstop).
  assert (H1 : currentState Example.readyManager <> Idle)
    by (vm_compute; discriminate).
  assert (H2 : client (new None None) = None) by reflexivity.
  assert (H3 : currentState (new None None) <> Ready)
    by (vm_compute; discriminate).
  assert (H4 : currentState (new None None) <> Recording)
    by (vm_compute; discriminate).
  split; [split; [exact H1 | apply Hstart, H1]|].
  split; [split; [exact H2 | apply Hsend, H2]|].
  split; [exact H3|]. split; [exact H4|]. apply Hstop; assumption.
Defined.

Lemma example_session (r : ASRResult) (start now : Z) (uuid : string)
  (m : ASRManager) :
  snd (Example.startSession Client.SocketOpens start m) = Ok tt ->
  snd (Example.stopSession (Example.stopWith r now uuid)
         (fst (Example.sendAudio Example.chunk1
                 (fst (Example.startSession Client.SocketOpens start m)))))
  = Some (Ok r) ->
  truthy (text r) = true ->
  session Example.gzip Example.initPayload Example.engineText
          m (Example.entryOf r start now uuid)
          (Example.oneSession r start now uuid m).
Proof.
  intros Hstart Hstop Htext.
  eapply session_intro with
    (cenv := Client.SocketOpens) (start := start)
    (feeds := [Audio Example.chunk1])
    (senv := Example.stopWith r now uuid) (r := r).
  - unfold Example.startSession in Hstart.
    rewrite (surjective_pairing
               (startSession Example.gzip Example.initPayload
                             Client.SocketOpens start m)).
    rewrite Hstart. reflexivity.
  - cbn [fold_left feed].
    unfold Example.stopSession, Example.sendAudio, Example.startSession
      in Hstop.
    rewrite (surjective_pairing (stopSession _ _ _ _)).
    rewrite Hstop. reflexivity.
  - exact Htext.
  - reflexivity.
  - reflexivity.
Defined.

(** Three completed sessions on a manager that keeps two entries. *)
Lemma history_bounded_most_recent_first_witness :
  autoSaveHistory Example.smallManager = true
  /\ 0 <= maxHistorySize Example.smallManager
  /\ history Example.smallManager = []
  /\ history Example.after3
     = [Example.entryOf Example.r3 3000 3500 "id-3";
        Example.entryOf Example.r2 2000 2500 "id-2"]
  /\ Z.of_nat (List.length (history Example.after3)) = 2.
Proof.
  destruct (history_bounded_most_recent_first
              Example.gzip Example.initPayload Example.engineText)
    as (_ & _ & _ & _ & Hsessions).
  assert (H1 : autoSaveHistory Example.smallManager = true) by reflexivity.
  assert (H2 : 0 <= maxHistorySize Example.smallManager)
    by (vm_compute; discriminate).
  assert (H3 : history Example.smallManager = []) by reflexivity.
  assert (Hs : sessions Example.gzip Example.initPayload Example.engineText
                 Example.smallManager
                 [Example.entryOf Example.r1 1000 1500 "id-1";
                  Example.entryOf Example.r2 2000 2500 "id-2";
                  Example.entryOf Example.r3 3000 3500 "id-3"]
                 Example.after3).
  { unfold Example.after3, Example.after2, Example.after1.
    eapply sessions_cons;
      [apply example_session; vm_compute; reflexivity|].
    eapply sessions_cons;
      [apply example_session; vm_compute; reflexivity|].
    eapply sessions_cons;
      [apply example_session; vm_compute; reflexivity|].
    apply sessions_nil. }
  destruct (Hsessions _ _ _ H1 H2 H3 Hs) as [Hh Hlen].
  split; [exact H1|]. split; [exact H2|]. split; [exact H3|].
  split; [exact Hh|]. apply Hlen. vm_compute. reflexivity.
Defined.

(** The third example session is stopped on a history that holds the
    entries of the first two and has no room left: the entry of the
    third goes in front, the second stays, the first and oldest goes. *)
Lemma lifecycle_keeps_history_witness :
  history Example.thirdRecording
  = [Example.entryOf Example.r2 2000 2500 "id-2";
     Example.entryOf Example.r1 1000 1500 "id-1"]
  /\ maxHistorySize Example.thirdRecording = 2
  /\ history (runLifecycle Example.gzip Example.initPayload
                           Example.engineText
                           (StopSession
                              (Example.stopWith Example.r3 3500 "id-3"))
                           Example.thirdRecording)
     = [Example.entryOf Example.r3 3000 3500 "id-3";
        Example.entryOf Example.r2 2000 2500 "id-2"].
Proof.
  destruct (lifecycle_keeps_history
              Example.gzip Example.initPayload Example.engineText)
    as (_ & Hstop & _ & _).
  split; [vm_compute; reflexivity|]. split; [reflexivity|].
  rewrite (Hstop (Example.stopWith Example.r3 3500 "id-3")
                 Example.thirdRecording Example.r3 3000);
    try (vm_compute; reflexivity).
  vm_compute. discriminate.
Defined.

End ManagerInstances.

Section RewriteInstances.
Import JS Rewrite.

(** The input on which C8 as worded fails: [fetch] rejects with an error
    whose message is empty, and the reported error is the empty string. *)
Lemma rewrite_reports_an_empty_error :
  let result := fst (rewrite Example.fetchRejectsBare Example.engineText
                             Example.systemPrompt Example.rewriteConfig
                             (lit "hello")) in
  success result = false
  /\ polished result = lit "hello"
  /\ error result = Some []
  /\ ~ (exists e, error result = Some e /\ e <> []).
Proof.
  cbv zeta.
  split; [reflexivity|]. split; [reflexivity|]. split; [reflexivity|].
  intros (e & He & Hne). vm_compute in He. congruence.
Qed.

(** A 401 answer to a padded text. *)
Lemma rewrite_always_returns_usable_text_witness :
  trim (lit " hello ") <> []
  /\ apiKey Example.rewriteConfig <> []
  /\ fst (rewrite Example.fetchUnauthorized Example.engineText
                  Example.systemPrompt Example.rewriteConfig
                  (lit " hello "))
     = failure (lit " hello ") (msg_requestFailed ++ lit "401").
Proof.
  assert (H1 : trim (lit " hello ") <> []) by (vm_compute; discriminate).
  assert (H2 : apiKey Example.rewriteConfig <> [])
    by (vm_compute; discriminate).
  split; [exact H1|]. split; [exact H2|].
  destruct (rewrite_always_returns_usable_text
              Example.fetchUnauthorized Example.engineText
              Example.systemPrompt Example.rewriteConfig (lit " hello "))
    as (_ & _ & _ & _ & H).
  destruct (H H1 H2) as (_ & Hres). exact (proj1 Hres).
Defined.

End RewriteInstances.
(* ================================================================== *)
(** * Further properties of the embedded code                           *)
(* ================================================================== *)

Section ClientCodec.
Import JS Shared Client.

(** X1: a header built by [buildHeader] from four nibbles is four bytes
    long and reads back as [handleResponse] reads a header: protocol
    version 1, a header size of 4 bytes, the message type, the flags, the
    serialization and the compression that were given, and a zero
    reserved byte. *)
Theorem buildHeader_round_trip (messageType flags serialization compression : Z) :
  0 <= messageType < 16 -> 0 <= flags < 16 ->
  0 <= serialization < 16 -> 0 <= compression < 16 ->
  exists b0 b1 b2 b3,
    buildHeader messageType flags serialization compression = [b0; b1; b2; b3]
    /\ Z.shiftr (u8 b0) 4 = ProtocolVersion_V1
    /\ Z.land (u8 b0) 15 * 4 = 4
    /\ Z.land (Z.shiftr (u8 b1) 4) 15 = messageType
    /\ Z.land (u8 b1) 15 = flags
    /\ Z.land (Z.shiftr (u8 b2) 4) 15 = serialization
    /\ Z.land (u8 b2) 15 = compression
    /\ u8 b3 = 0.
Proof.
  intros Ht Hf Hs Hc. unfold buildHeader. do 4 eexists.
  split; [reflexivity|].
  destruct (header_nibbles messageType flags Ht Hf) as [H1 H2].
  destruct (header_nibbles serialization compression Hs Hc) as [H3 H4].
  cbv zeta in H1, H2, H3, H4.
  repeat split; try assumption; reflexivity.
Qed.

(** X2: the four big-endian bytes that the senders write with
    [setUint32] are read back by [getUint32] for every value below 2^32
    and by [getInt32] for every signed 32-bit value, whatever follows
    them; on fewer than four bytes both reads raise the engine's
    RangeError. *)
Theorem be32_round_trip (engineText : EngineError -> jsstring) :
  (forall n rest, 0 <= n < 2 ^ 32 ->
     getUint32 engineText (be32 n ++ rest) = Ok n)
  /\ (forall n rest, - 2 ^ 31 <= n < 2 ^ 31 ->
        getInt32 engineText (be32 n ++ rest) = Ok n)
  /\ (forall n, List.length (be32 n) = 4%nat)
  /\ (forall payload, (List.length payload < 4)%nat ->
        getUint32 engineText payload = raise engineText RangeError_bounds
        /\ getInt32 engineText payload = raise engineText RangeError_bounds).
Proof.
  split; [|split; [|split]].
  - intros n rest H. rewrite getUint32_be32. f_equal.
    apply Z.mod_small. exact H.
  - intros n rest H. apply getInt32_be32, H.
  - reflexivity.
  - intros payload H. unfold getInt32, getUint32.
    destruct payload as [|a [|b [|c [|d l]]]]; cbn [List.length] in H;
      try lia; split; reflexivity.
Qed.

End ClientCodec.

Section ClientBehaviour.
Import JS Shared Client.

Variable gzip : bytes -> bytes.
Variable initPayload : bytes.

(** X3: an audio frame is the 4-byte audio-only header (flags
    NEG_SEQUENCE on the last packet, NO_SEQUENCE otherwise, no
    serialization, gzip), then the length of the compressed audio as a
    big-endian 32-bit number, then the compressed audio and nothing more;
    the length field reads back as the number of bytes that follow it. *)
Theorem client_frames_carry_their_length
  (engineText : EngineError -> jsstring) (audio : bytes) (isLast : bool) :
  Z.of_nat (List.length (gzip audio)) < 2 ^ 32 ->
  let frame := audioFrame gzip audio isLast in
  firstn 4 frame
  = buildHeader CLIENT_AUDIO_ONLY_REQUEST
      (if isLast then NEG_SEQUENCE else NO_SEQUENCE) NO_SERIALIZATION GZIP
  /\ getUint32 engineText (skipn 4 frame)
     = Ok (Z.of_nat (List.length (skipn 8 frame)))
  /\ skipn 8 frame = gzip audio
  /\ List.length frame = (8 + List.length (gzip audio))%nat.
Proof using Type.
  intros Hlen frame. subst frame. unfold audioFrame.
  set (h := buildHeader CLIENT_AUDIO_ONLY_REQUEST
              (if isLast then NEG_SEQUENCE else NO_SEQUENCE)
              NO_SERIALIZATION GZIP).
  assert (Hh : exists a b c d, h = [a; b; c; d])
    by (unfold h, buildHeader; do 4 eexists; reflexivity).
  destruct Hh as (a & b & c & d & ->).
  cbn [app firstn]. rewrite skipn4_cons.
  split; [reflexivity|].
  split.
  - rewrite getUint32_be32. f_equal.
    change (skipn 8 (a :: b :: c :: d
                       :: be32 (Z.of_nat (List.length (gzip audio)))
                       ++ gzip audio)) with (gzip audio).
    apply Z.mod_small. lia.
  - split; [reflexivity|]. cbn [List.length]. rewrite length_app. cbn. lia.
Qed.

Lemma sendAudio_connected (a : bytes) (c : ASRClient) :
  isConnected c = true ->
  sendAudio a c
  = ({| ws := ws c; connectionState := connectionState c;
        audioBuffer := audioBuffer c ++ [a];
        sendInterval := sendInterval c |}, []).
Proof using Type. intros H. unfold sendAudio. rewrite H. reflexivity. Qed.

Lemma sendAudio_many (chunks : list bytes) :
  forall c, isConnected c = true ->
  fold_left (fun c a => fst (sendAudio a c)) chunks c
  = {| ws := ws c; connectionState := connectionState c;
       audioBuffer := audioBuffer c ++ chunks;
       sendInterval := sendInterval c |}.
Proof using Type.
  induction chunks as [|a l IH]; intros c H; cbn [fold_left].
  - rewrite app_nil_r. destruct c; reflexivity.
  - rewrite (sendAudio_connected a c H). cbn [fst].
    rewrite IH by exact H. cbn. now rewrite <- app_assoc.
Qed.

(** X4: on a connected client [sendAudio] only queues; the next firing
    of the send timer sends everything queued as ONE audio-only frame (not
    marked last) that carries the gzip of the chunks concatenated in
    arrival order, and empties the queue, so that the firing after it
    sends nothing.  With nothing queued a firing does nothing. *)
Theorem tick_sends_the_queue_in_one_frame (c : ASRClient)
  (chunks : list bytes) :
  reachable gzip initPayload c ->
  isConnected c = true ->
  let queued := audioBuffer c ++ chunks in
  let c1 := fold_left (fun c a => fst (sendAudio a c)) chunks c in
  audioBuffer c1 = queued
  /\ (queued <> [] ->
      snd (tick gzip c1)
      = [WsSend ([Byte.x11; Byte.x20; Byte.x01; Byte.x00]
                   ++ be32 (Z.of_nat (List.length (gzip (List.concat queued))))
                   ++ gzip (List.concat queued))]
      /\ audioBuffer (fst (tick gzip c1)) = []
      /\ tick gzip (fst (tick gzip c1)) = (fst (tick gzip c1), []))
  /\ (queued = [] -> tick gzip c1 = (c1, [])).
Proof using Type.
  intros Hreach Hconn queued c1.
  pose proof (reachable_connected_has_socket gzip initPayload c Hreach Hconn)
    as Hws.
  subst c1. rewrite (sendAudio_many chunks c Hconn). fold queued.
  split; [reflexivity|].
  unfold tick, isConnected, sendAudioPacket, mergeAudioBuffer in *.
  cbn [audioBuffer connectionState ws sendInterval].
  destruct (connectionState c) eqn:E; try discriminate.
  rewrite Hws. cbn [negb orb fst snd].
  split.
  - intros Hne. destruct queued as [|q0 qs] eqn:Eq; [congruence|].
    cbn [fst snd audioBuffer]. repeat split; reflexivity.
  - intros ->. reflexivity.
Qed.

(** X5: a client that is not connected never sends: [sendAudio] drops
    the chunk with a warning and changes nothing, a firing of the timer
    does nothing, and [finish] sends no frame and leaves the queue and
    the connection state as they were. *)
Theorem unconnected_client_never_sends (c : ASRClient) (a : bytes) :
  isConnected c = false ->
  sendAudio a c = (c, [ConsoleWarn])
  /\ tick gzip c = (c, [])
  /\ sent (snd (finish gzip c)) = []
  /\ audioBuffer (fst (finish gzip c)) = audioBuffer c
  /\ isConnected (fst (finish gzip c)) = false.
Proof using Type.
  intros H. unfold sendAudio, tick, finish, stopAudioSender, isConnected in *.
  destruct c as [w st buf timer]. cbn in *.
  destruct st; try discriminate; destruct timer, buf; cbn;
    repeat split; reflexivity.
Qed.

(** X6: [close] brings any client back to the state of a fresh one (no
    socket, disconnected, empty queue, no timer); it clears the timer if
    one runs and closes the socket if there is one, in that order; a
    second [close] does nothing; audio offered after it is never sent; and
    the closed client can [connect] again. *)
Theorem close_resets_and_is_idempotent (c : ASRClient) :
  fst (close c) = new
  /\ snd (close c)
     = (if sendInterval c then [ClearInterval] else [])
         ++ (if ws c then [WsClose] else [])
  /\ close (fst (close c)) = (new, [])
  /\ (forall a, sent (snd (finish gzip (fst (sendAudio a (fst (close c))))))
                = [])
  /\ snd (connect gzip initPayload SocketOpens (fst (close c))) = Ok tt.
Proof using Type.
  destruct c as [w st buf timer]. unfold close, stopAudioSender. cbn.
  destruct timer, w; cbn; repeat split; reflexivity.
Qed.

(** Run to its end at once, the [open] listener makes [connect] what it
    is above. *)
Lemma connect_is_the_open_listener_run_at_once (c : ASRClient) :
  connectionState c = disconnected ->
  connect gzip initPayload SocketOpens c
  = (fst (onOpenResumes gzip initPayload
            (onOpenBegins (fst (connectBegins c)))),
     snd (onOpenResumes gzip initPayload
            (onOpenBegins (fst (connectBegins c)))),
     Ok tt).
Proof using Type.
  intros H. unfold connect, connectBegins, onOpenBegins, onOpenResumes.
  rewrite H. reflexivity.
Qed.

Lemma timer_needs_connection (c : ASRClient) :
  reachable gzip initPayload c ->
  sendInterval c = true -> isConnected c = true.
Proof using Type.
  intros Hreach.
  induction Hreach as [|env c Hc IH|a c Hc IH|c Hc IH|c Hc IH|c Hc IH
                      |c Hc IH].
  - discriminate.
  - unfold connect. destruct (connectionState c) eqn:E; try exact IH.
    destruct env; cbn; intros Ht; try reflexivity;
      specialize (IH Ht); unfold isConnected in IH; rewrite E in IH;
      exact IH.
  - unfold sendAudio. destruct (negb (isConnected c)); exact IH.
  - unfold tick. destruct (audioBuffer c); [exact IH|].
    destruct (negb (isConnected c)); exact IH.
  - unfold finish, stopAudioSender, mergeAudioBuffer, isConnected in *.
    destruct c as [w st buf timer]; cbn in *.
    destruct timer, st, buf; cbn in *; try discriminate; exact IH.
  - unfold close, stopAudioSender. destruct c as [w st buf timer].
    destruct timer; cbn; discriminate.
  - unfold onSocketClose, stopAudioSender, setConnectionState.
    destruct c as [w st buf timer]. destruct timer; cbn; discriminate.
Qed.

(** X7: as long as every operation and listener of the client runs to
    its end before the next begins, the send timer runs only while the
    client is connected and has a socket, in every state that [connect],
    [sendAudio], timer firings, [finish], [close] and the socket's close
    event produce from a fresh client.  The proviso is needed: the
    [open] listener awaits the compression of the initial request and
    then starts the timer without looking at the state again, so when
    the socket's close event or [close] comes in between, the timer is
    started on a disconnected client (and after [close] the initial
    request is not sent at all). *)
Theorem timer_runs_only_while_connected :
  (forall c,
      reachable gzip initPayload c ->
      sendInterval c = true -> isConnected c = true /\ ws c = true)
  /\ (forall c,
        connectionState c = disconnected ->
        connect gzip initPayload SocketOpens c
        = (fst (onOpenResumes gzip initPayload
                  (onOpenBegins (fst (connectBegins c)))),
           snd (onOpenResumes gzip initPayload
                  (onOpenBegins (fst (connectBegins c)))),
           Ok tt))
  /\ (forall c,
        connectionState c = disconnected ->
        let waiting := onOpenBegins (fst (connectBegins c)) in
        let dropped :=
          onOpenResumes gzip initPayload (fst (onSocketClose waiting)) in
        let closed :=
          onOpenResumes gzip initPayload (fst (close waiting)) in
        isConnected waiting = true
        /\ sendInterval (fst dropped) = true
        /\ isConnected (fst dropped) = false
        /\ sendInterval (fst closed) = true
        /\ isConnected (fst closed) = false
        /\ ws (fst closed) = false
        /\ sent (snd closed) = []).
Proof using Type.
  split; [|split].
  - intros c Hreach Ht.
    pose proof (timer_needs_connection c Hreach Ht) as H.
    split; [exact H|].
    apply (reachable_connected_has_socket gzip initPayload c Hreach H).
  - apply connect_is_the_open_listener_run_at_once.
  - intros c H. cbv zeta.
    destruct c as [w st buf timer]. cbn in H. subst st.
    unfold connectBegins, onOpenBegins, onOpenResumes, onSocketClose, close,
      stopAudioSender, setConnectionState, startAudioSender,
      sendFullClientRequest, isConnected.
    destruct timer; cbn; repeat split; reflexivity.
Qed.

(** X8: [connect] on a client that is not disconnected throws and
    changes nothing.  On a disconnected client: when the socket opens the
    client is connected, has sent the init frame (full-request header, the
    big-endian length of the gzipped request, the gzipped request) and
    then started the timer, and a second [connect] throws; when the
    socket reports an error nothing is sent, the callback gets one result
    carrying the error, and the promise rejects with the connection
    failure; when the socket cannot be constructed the client is
    unchanged and the exception is passed on. *)
Theorem connect_outcomes (c : ASRClient) (env : ConnectEnv) :
  (connectionState c <> disconnected ->
     exists e, connect gzip initPayload env c = (c, [], Throw e))
  /\ (connectionState c = disconnected ->
      let c' := fst (fst (connect gzip initPayload env c)) in
      let effects := snd (fst (connect gzip initPayload env c)) in
      let outcome := snd (connect gzip initPayload env c) in
      match env with
      | SocketOpens =>
          outcome = Ok tt
          /\ isConnected c' = true
          /\ sendInterval c' = true
          /\ effects
             = [WsSend ([Byte.x11; Byte.x10; Byte.x11; Byte.x00]
                          ++ be32 (Z.of_nat (List.length (gzip initPayload)))
                          ++ gzip initPayload);
                SetInterval]
          /\ exists e,
               connect gzip initPayload env c' = (c', [], Throw e)
      | SocketErrors eventText =>
          outcome = Throw (ErrorObject msg_connectFailed)
          /\ connectionState c' = disconnected
          /\ sendInterval c' = sendInterval c
          /\ sent effects = []
          /\ callbacks effects
             = [{| text := String []; isPartial := true; utterances := None;
                   error := Some (msg_connectionError ++ eventText) |}]
      | ConstructorThrows e =>
          outcome = Throw e /\ c' = c /\ effects = []
      end).
Proof using Type.
  split.
  - intros H. unfold connect.
    destruct (connectionState c); try congruence; eexists; reflexivity.
  - intros H. unfold connect, sendFullClientRequest, startAudioSender.
    rewrite H. destruct env as [|eventText|e]; cbn.
    + repeat split; try reflexivity. eexists; reflexivity.
    + repeat split; reflexivity.
    + repeat split; try reflexivity.
      unfold setConnectionState. destruct c; cbn in *. now subst.
Qed.

End ClientBehaviour.

Section ClientResponses.
Import JS Shared Client.

Variable gunzip : bytes -> option bytes.
Variable utf8_decode : bytes -> jsstring.
Variable JSON_parse : jsstring -> option value.
Variable engineText : EngineError -> jsstring.

Lemma handleFullResponse_effects (jsonData : value) (isLast : bool)
  (effects : list Effect) :
  handleFullResponse engineText jsonData isLast = Ok effects ->
  effects = [] \/ exists r, effects = [Callback r].
Proof using Type.
  unfold handleFullResponse.
  destruct (get engineText jsonData (lit "payload_msg")) as [pm|e];
    cbn [bind]; [|discriminate].
  destruct (optGet engineText pm (lit "result")) as [r1|e];
    cbn [bind]; [|discriminate].
  destruct (if truthy r1 then Ok r1 else get engineText jsonData (lit "result"))
    as [result|e]; cbn [bind]; [|discriminate].
  destruct (truthy result); [|intros [= <-]; left; reflexivity].
  destruct (extractText engineText result) as [t|e]; cbn [bind];
    [|discriminate].
  destruct (get engineText result (lit "utterances")) as [us|e]; cbn [bind];
    [|discriminate].
  destruct (if nullish us then Ok None
            else l <- callMap engineText us (extractUtterance engineText) ;;
                 Ok (Some l)) as [utterances|e]; cbn [bind]; [|discriminate].
  destruct (truthy t || match utterances with Some _ => true | None => false end);
    intros [= <-]; [right; eexists|left]; reflexivity.
Qed.

(** X9: what a parsed full response makes of the callback: either no
    effect at all, or exactly one callback whose result is partial unless
    the frame was flagged last, carries no error, and has a non-empty
    text or an utterance list. *)
Theorem full_response_callback_shape (jsonData : value) (isLast : bool)
  (effects : list Effect) :
  handleFullResponse engineText jsonData isLast = Ok effects ->
  effects = []
  \/ exists r,
       effects = [Callback r]
       /\ isPartial r = negb isLast
       /\ error r = None
       /\ (truthy (text r) = true \/ utterances r <> None).
Proof using Type.
  unfold handleFullResponse.
  destruct (get engineText jsonData (lit "payload_msg")) as [pm|e];
    cbn [bind]; [|discriminate].
  destruct (optGet engineText pm (lit "result")) as [r1|e];
    cbn [bind]; [|discriminate].
  destruct (if truthy r1 then Ok r1 else get engineText jsonData (lit "result"))
    as [result|e]; cbn [bind]; [|discriminate].
  destruct (truthy result); [|intros [= <-]; left; reflexivity].
  destruct (extractText engineText result) as [t|e]; cbn [bind];
    [|discriminate].
  destruct (get engineText result (lit "utterances")) as [us|e]; cbn [bind];
    [|discriminate].
  destruct (if nullish us then Ok None
            else l <- callMap engineText us (extractUtterance engineText) ;;
                 Ok (Some l)) as [utterances|e]; cbn [bind]; [|discriminate].
  destruct (truthy t) eqn:Et; cbn [orb].
  - intros [= <-]. right. eexists. repeat split. left. exact Et.
  - destruct utterances as [l|]; intros [= <-]; [|left; reflexivity].
    right. eexists. repeat split. right. discriminate.
Qed.

(** X10: one incoming message, whatever its bytes, leads to at most
    one callback invocation and never to a frame being sent; a message of
    fewer than four bytes is only logged; and a message of at least four
    bytes whose type is neither the server's full response nor its error
    response is ignored without any effect. *)
Theorem at_most_one_callback_per_message (data : bytes) :
  (List.length (callbacks (onMessage gunzip utf8_decode JSON_parse engineText
                             data)) <= 1)%nat
  /\ sent (onMessage gunzip utf8_decode JSON_parse engineText data) = []
  /\ ((List.length data < 4)%nat ->
      onMessage gunzip utf8_decode JSON_parse engineText data
      = [ConsoleError])
  /\ (forall d0 d1 d2 d3 rest,
        data = d0 :: d1 :: d2 :: d3 :: rest ->
        Z.land (Z.shiftr (u8 d1) 4) 15 <> SERVER_ERROR_RESPONSE ->
        Z.land (Z.shiftr (u8 d1) 4) 15 <> SERVER_FULL_RESPONSE ->
        onMessage gunzip utf8_decode JSON_parse engineText data = []).
Proof using Type.
  assert (Hfull : forall jsonData isLast,
             match handleFullResponse engineText jsonData isLast with
             | Ok effects =>
                 (List.length (callbacks effects) <= 1)%nat
                 /\ sent effects = []
             | Throw _ => True
             end).
  { intros jsonData isLast.
    destruct (handleFullResponse engineText jsonData isLast) as [effects|e]
      eqn:E; [|exact I].
    destruct (handleFullResponse_effects _ _ _ E) as [->|(r & ->)];
      cbn; split; auto. }
  split; [|split; [|split]].
  - unfold onMessage, handleResponse.
    destruct data as [|d0 [|d1 [|d2 [|d3 rest]]]]; try (cbn; lia).
    cbv zeta.
    destruct (_ =? SERVER_ERROR_RESPONSE).
    + destruct (getInt32 engineText _) as [code|e]; cbn [bind];
        [|cbn; lia].
      destruct (decodePayload gunzip utf8_decode engineText _ _) as [msg|e];
        cbn [bind]; cbn; lia.
    + destruct (_ =? SERVER_FULL_RESPONSE); [|cbn; lia].
      destruct (getUint32 engineText _) as [size|e]; cbn [bind];
        [|cbn; lia].
      destruct (skipn 4 _) as [|p0 payload]; [cbn; lia|].
      destruct (decodePayload gunzip utf8_decode engineText _ _) as [txt|e];
        cbn [bind]; [|cbn; lia].
      destruct (JSON_parse txt) as [jsonData|]; [|cbn; lia].
      match goal with
      | |- context [handleFullResponse engineText ?j ?l] =>
          pose proof (Hfull j l) as H;
          destruct (handleFullResponse engineText j l)
      end; [apply H | cbn; lia].
  - unfold onMessage, handleResponse.
    destruct data as [|d0 [|d1 [|d2 [|d3 rest]]]]; try reflexivity.
    cbv zeta.
    destruct (_ =? SERVER_ERROR_RESPONSE).
    + destruct (getInt32 engineText _) as [code|e]; cbn [bind];
        [|reflexivity].
      destruct (decodePayload gunzip utf8_decode engineText _ _) as [msg|e];
        cbn [bind]; reflexivity.
    + destruct (_ =? SERVER_FULL_RESPONSE); [|reflexivity].
      destruct (getUint32 engineText _) as [size|e]; cbn [bind];
        [|reflexivity].
      destruct (skipn 4 _) as [|p0 payload]; [reflexivity|].
      destruct (decodePayload gunzip utf8_decode engineText _ _) as [txt|e];
        cbn [bind]; [|reflexivity].
      destruct (JSON_parse txt) as [jsonData|]; [|reflexivity].
      match goal with
      | |- context [handleFullResponse engineText ?j ?l] =>
          pose proof (Hfull j l) as H;
          destruct (handleFullResponse engineText j l)
      end; [apply H | reflexivity].
  - intros H. unfold onMessage, handleResponse.
    destruct data as [|d0 [|d1 [|d2 [|d3 rest]]]]; try reflexivity.
    cbn [List.length] in H. lia.
  - intros d0 d1 d2 d3 rest -> H15 H9. unfold onMessage, handleResponse.
    cbv zeta.
    apply Z.eqb_neq in H15, H9. rewrite H15, H9. reflexivity.
Qed.

End ClientResponses.

Section ClientText.
Import JS Shared Client.

Variable engineText : EngineError -> jsstring.

Lemma mapM_texts (us : list value) (texts : list jsstring) :
  Forall2 (fun u t => exists members,
               u = Object members
               /\ member (lit "text") members = String t) us texts ->
  mapM (fun u => get engineText u (lit "text")) us
  = Ok (map String texts).
Proof using Type.
  induction 1 as [|u t us' ts' (members & -> & Ht) _ IH]; [reflexivity|].
  cbn [mapM map]. unfold get at 1. cbn [JS.get bind]. rewrite Ht, IH.
  reflexivity.
Qed.

Lemma joinEmpty_strings (texts : list jsstring) :
  joinEmpty (map String texts) = List.concat texts.
Proof using Type.
  unfold joinEmpty. induction texts as [|t l IH]; [reflexivity|].
  cbn [map List.concat nullish ToString]. now rewrite <- IH.
Qed.

(** X11: where the text of a result comes from.  A non-empty
    [result.text] is taken as it is; failing that, a non-empty
    [result.payload_msg.result.text]; failing both (no [payload_msg]), the
    texts of the utterances concatenated in order when the list is not
    empty, and the empty string when the list is absent or empty. *)
Theorem text_is_taken_from_the_first_path_that_has_it
  (members : list (jsstring * value)) :
  (forall c s,
      member (lit "text") members = String (c :: s) ->
      extractText engineText (Object members) = Ok (String (c :: s)))
  /\ (forall nested inner c s,
        truthy (member (lit "text") members) = false ->
        member (lit "payload_msg") members = Object nested ->
        member (lit "result") nested = Object inner ->
        member (lit "text") inner = String (c :: s) ->
        extractText engineText (Object members) = Ok (String (c :: s)))
  /\ (forall us texts,
        truthy (member (lit "text") members) = false ->
        member (lit "payload_msg") members = Undefined ->
        member (lit "utterances") members = Array us ->
        us <> [] ->
        Forall2 (fun u t => exists ums,
                     u = Object ums
                     /\ member (lit "text") ums = String t) us texts ->
        extractText engineText (Object members)
        = Ok (String (List.concat texts)))
  /\ (truthy (member (lit "text") members) = false ->
      member (lit "payload_msg") members = Undefined ->
      (nullish (member (lit "utterances") members) = true
       \/ member (lit "utterances") members = Array []) ->
      extractText engineText (Object members) = Ok (String [])).
Proof using Type.
  unfold extractText, get, optGet. cbn [JS.get bind].
  split; [|split; [|split]].
  - intros c s H. rewrite H. reflexivity.
  - intros nested inner c s Ht Hpm Hres Htext. rewrite Ht, Hpm.
    cbn [JS.optGet nullish JS.get bind]. rewrite Hres.
    cbn [JS.optGet nullish JS.get bind]. rewrite Htext. reflexivity.
  - intros us texts Ht Hpm Hus Hne Htexts. rewrite Ht, Hpm, Hus.
    cbn [JS.optGet nullish bind truthy getLength gtZero].
    destruct us as [|u0 us']; [congruence|].
    assert (Hpos : (0 <? Z.of_nat (List.length (u0 :: us'))) = true)
      by (apply Z.ltb_lt; cbn [List.length]; lia).
    rewrite Hpos. unfold callMap.
    change (mapM (fun u => JS.get engineText u (lit "text")) (u0 :: us'))
      with (mapM (fun u => get engineText u (lit "text")) (u0 :: us')).
    rewrite (mapM_texts _ _ Htexts). cbn [bind].
    now rewrite joinEmpty_strings.
  - intros Ht Hpm Hus. rewrite Ht, Hpm.
    cbn [JS.optGet nullish bind truthy].
    destruct Hus as [Hus|Hus].
    + destruct (member (lit "utterances") members); try discriminate;
        reflexivity.
    + rewrite Hus. reflexivity.
Qed.

End ClientText.

Section ManagerResults.
Import JS Shared Manager.

Variable gzip : Client.bytes -> Client.bytes.
Variable initPayload : Client.bytes.
Variable engineText : EngineError -> jsstring.

(** X12: results handed to the manager one after the other (with a
    listener subscribed to the error event).  The
    partial results without error are appended to the buffer in arrival
    order; the final result is the LAST result without error that is not
    partial (the earlier value when there is none); every result emits
    exactly one event, in arrival order: an error event carrying the
    result and its error text when it has one, a result event otherwise;
    results with an error are not stored; and neither the state, the
    client, the start time nor the history changes. *)
Theorem deliver_keeps_results_in_order (results : list ASRResult) :
  forall m,
    partialResults (deliver results m)
    = partialResults m
        ++ filter (fun r => negb (hasError r) && isPartial r) results
    /\ finalResult (deliver results m)
       = match rev (filter (fun r => negb (hasError r) && negb (isPartial r))
                           results) with
         | r :: _ => Some r
         | [] => finalResult m
         end
    /\ log (deliver results m)
       = log m
           ++ map (fun r =>
                     Emit (if hasError r
                           then {| ev_type := EvError;
                                   ev_state := currentState m;
                                   ev_result := Some r;
                                   ev_error := error r |}
                           else {| ev_type := EvResult;
                                   ev_state := currentState m;
                                   ev_result := Some r;
                                   ev_error := None |}))
                  results
    /\ sameSession m (deliver results m).
Proof using Type.
  unfold deliver.
  induction results as [|r rs IH]; intros m; cbn [fold_left filter map rev].
  - rewrite !app_nil_r. repeat split.
  - destruct (IH (handleTranscriptionResult r m)) as (Hp & Hf & Hl & Hs).
    destruct (handleTranscriptionResult_same r m) as (a1 & a2 & a3 & a4 & a5 & a6).
    split; [|split; [|split]].
    + rewrite Hp. unfold handleTranscriptionResult.
      destruct (hasError r); cbn [negb andb]; [reflexivity|].
      destruct (isPartial r); cbn; [now rewrite <- app_assoc | reflexivity].
    + rewrite Hf. unfold handleTranscriptionResult.
      destruct (hasError r); cbn [negb andb]; [reflexivity|].
      destruct (isPartial r); cbn [negb]; [reflexivity|].
      cbn [rev].
      destruct (rev (filter (fun r0 => negb (hasError r0) && negb (isPartial r0))
                            rs)); reflexivity.
    + rewrite Hl, a4. unfold handleTranscriptionResult.
      destruct (hasError r); cbn; [now rewrite <- app_assoc|].
      destruct (isPartial r); cbn; now rewrite <- app_assoc.
    + eapply sameSession_trans; [|exact Hs].
      repeat split; assumption.
Qed.

Lemma jsstring_eqb_eq (a b : jsstring) : jsstring_eqb a b = true <-> a = b.
Proof using Type.
  unfold jsstring_eqb. destruct (list_eq_dec N.eq_dec a b); split;
    congruence.
Qed.

(** X13: [getHistoryEntry] returns an entry of the history that has
    the identifier asked for, and returns nothing only when no entry has
    it.  Right after a [stopSession] that returned a result with
    non-empty text (history enabled, a positive size limit), the entry
    of that session is found under its identifier, with the result's
    text, the end time of the stop, and a duration equal to end minus
    start. *)
Theorem getHistoryEntry_finds_by_id (wanted : jsstring) (m : ASRManager) :
  (forall entry, getHistoryEntry wanted m = Some entry ->
     In entry (history m) /\ id entry = wanted)
  /\ (getHistoryEntry wanted m = None ->
      forall entry, In entry (history m) -> id entry <> wanted)
  /\ (forall env r,
        snd (stopSession gzip engineText env m) = Some (Ok r) ->
        autoSaveHistory m = true ->
        truthy (text r) = true ->
        0 < maxHistorySize m ->
        exists entry,
          getHistoryEntry (uuid env) (fst (stopSession gzip engineText env m))
          = Some entry
          /\ id entry = uuid env
          /\ h_text entry = text r
          /\ endTime entry = stopNow env
          /\ duration entry = endTime entry - startTime entry).
Proof using Type.
  unfold getHistoryEntry. split; [|split].
  - intros entry H. apply find_some in H. destruct H as [Hin Heq].
    split; [exact Hin | apply jsstring_eqb_eq, Heq].
  - intros H entry Hin Hid.
    pose proof (find_none _ _ H entry Hin) as Hno. cbn beta in Hno.
    apply jsstring_eqb_eq in Hid. congruence.
  - intros env r Hout Hauto Htext Hmax.
    destruct (stopSession_history gzip engineText env m) as (_ & _ & H).
    rewrite Hout, Hauto, Htext in H. cbn [andb] in H.
    destruct H as (start & _ & ->).
    rewrite pushHistory_firstn by lia.
    destruct (Z.to_nat (maxHistorySize m)) as [|n] eqn:E; [lia|].
    cbn [firstn find id mkEntry].
    assert (Hrefl : jsstring_eqb (uuid env) (uuid env) = true)
      by (apply jsstring_eqb_eq; reflexivity).
    rewrite Hrefl. eexists. repeat split.
Qed.

End ManagerResults.

Section ManagerStart.
Import JS Shared Manager.

Variable gzip : Client.bytes -> Client.bytes.
Variable initPayload : Client.bytes.
Variable engineText : EngineError -> jsstring.

(** X14: [startSession] on an idle manager (with a listener subscribed
    to the error event) records the start time and keeps the client it
    created, whatever the outcome.  When the socket
    opens it returns normally in state Ready and has emitted, in order:
    the state change to Connecting, the init frame, the timer start, the
    state change to Ready, and the connected event.  When the socket
    reports an error the call throws the connection failure, the state
    is Error, and TWO error events were emitted: the one of the client's
    callback (still in state Connecting) and the manager's own, after the
    state change to Error.  When the socket cannot be constructed the
    exception is rethrown after the state change to Error and one error
    event with its message. *)
Theorem startSession_outcomes (env : Client.ConnectEnv) (now : Z)
  (m : ASRManager) :
  currentState m = Idle ->
  let m' := fst (startSession gzip initPayload env now m) in
  let outcome := snd (startSession gzip initPayload env now m) in
  sessionStartTime m' = Some now
  /\ client m' <> None
  /\ match env with
     | Client.SocketOpens =>
         outcome = Ok tt
         /\ currentState m' = Ready
         /\ (exists c, client m' = Some c /\ Client.isConnected c = true)
         /\ log m'
            = log m
              ++ [Emit {| ev_type := EvStateChange; ev_state := Connecting;
                          ev_result := None; ev_error := None |};
                  ClientDid
                    (Client.WsSend
                       ([Byte.x11; Byte.x10; Byte.x11; Byte.x00]
                          ++ Client.be32
                               (Z.of_nat (List.length (gzip initPayload)))
                          ++ gzip initPayload));
                  ClientDid Client.SetInterval;
                  Emit {| ev_type := EvStateChange; ev_state := Ready;
                          ev_result := None; ev_error := None |};
                  Emit {| ev_type := EvConnected; ev_state := Ready;
                          ev_result := None; ev_error := None |}]
     | Client.SocketErrors eventText =>
         let r := {| text := String []; isPartial := true;
                     utterances := None;
                     error := Some (Client.msg_connectionError
                                      ++ eventText) |} in
         outcome = Throw (ErrorObject Client.msg_connectFailed)
         /\ currentState m' = Error
         /\ log m'
            = log m
              ++ [Emit {| ev_type := EvStateChange; ev_state := Connecting;
                          ev_result := None; ev_error := None |};
                  ClientDid Client.ConsoleError;
                  ClientDid (Client.Callback r);
                  Emit {| ev_type := EvError; ev_state := Connecting;
                          ev_result := Some r; ev_error := error r |};
                  Emit {| ev_type := EvStateChange; ev_state := Error;
                          ev_result := None; ev_error := None |};
                  Emit {| ev_type := EvError; ev_state := Error;
                          ev_result := None;
                          ev_error := Some Client.msg_connectFailed |}]
     | Client.ConstructorThrows e =>
         outcome = Throw e
         /\ currentState m' = Error
         /\ log m'
            = log m
              ++ [Emit {| ev_type := EvStateChange; ev_state := Connecting;
                          ev_result := None; ev_error := None |};
                  Emit {| ev_type := EvStateChange; ev_state := Error;
                          ev_result := None; ev_error := None |};
                  Emit {| ev_type := EvError; ev_state := Error;
                          ev_result := None;
                          ev_error := messageProperty e |}]
     end.
Proof using Type.
  intros Hidle.
  destruct m as [a b c s t p f h l]. cbn in Hidle. subst s.
  destruct env as [|eventText|e];
    (split; [reflexivity|]); (split; [discriminate|]);
    (split; [reflexivity|]); (split; [reflexivity|]).
  - split; [eexists; split; reflexivity|].
    cbn. rewrite <- !app_assoc. reflexivity.
  - cbn. rewrite <- !app_assoc. reflexivity.
  - cbn. rewrite <- !app_assoc. reflexivity.
Qed.

End ManagerStart.

Section ManagerRest.
Import JS Shared Manager.

Variable gzip : Client.bytes -> Client.bytes.
Variable initPayload : Client.bytes.
Variable engineText : EngineError -> jsstring.

Lemma startSession_idle_fields (env : Client.ConnectEnv) (now : Z)
  (m : ASRManager) :
  currentState m = Idle ->
  let m' := fst (startSession gzip initPayload env now m) in
  sessionStartTime m' = Some now
  /\ client m' <> None
  /\ (snd (startSession gzip initPayload env now m) = Ok tt
      /\ currentState m' = Ready
      \/ (exists e, snd (startSession gzip initPayload env now m) = Throw e)
         /\ currentState m' = Error).
Proof using Type.
  intros Hidle.
  destruct m as [a b c s t p f h l]. cbn in Hidle. subst s.
  destruct env as [|eventText|e];
    (split; [reflexivity|]); (split; [discriminate|]).
  - left. split; reflexivity.
  - right. split; [eexists|]; reflexivity.
  - right. split; [eexists|]; reflexivity.
Qed.

Lemma sendAudio_client (a : Client.bytes) (m : ASRManager) :
  client (fst (sendAudio a m)) = None <-> client m = None.
Proof using Type.
  unfold sendAudio. destruct (client m) as [c|] eqn:Hc.
  - assert (Hc1 : client (match currentState m with
                          | Ready => setState Recording m
                          | _ => m
                          end) = Some c).
    { destruct (currentState m); try exact Hc;
        destruct (setState_fields Recording m) as (_ & -> & _); exact Hc. }
    set (m1 := match currentState m with
               | Ready => setState Recording m
               | _ => m
               end) in *.
    destruct (currentState m1);
      try (cbn [fst tell client]; rewrite Hc1; split; discriminate).
    destruct (Client.sendAudio a c) as [c1 effects]. cbn [fst].
    destruct (runClientEffects_same effects (set_client (Some c1) m1))
      as (_ & _ & -> & _).
    cbn. split; discriminate.
  - cbn [fst]. rewrite Hc. split; reflexivity.
Qed.

Lemma stopSession_settles (env : StopEnv) (m : ASRManager)
  (c : Client.ASRClient) :
  client m = Some c ->
  currentState m = Ready \/ currentState m = Recording ->
  let m' := fst (stopSession gzip engineText env m) in
  client m' = None
  /\ sessionStartTime m' = None
  /\ (currentState m' = Completed \/ currentState m' = Error)
  /\ exists outcome, snd (stopSession gzip engineText env m) = Some outcome.
Proof using Type.
  intros Hc Hs.
  destruct (stopSession_active gzip engineText env m c Hc Hs)
    as (m4 & r & k & _ & _ & _ & _ & _ & _ & _ & ->).
  assert (Hfail : forall e m0,
             client (fst (stopFailed e m0)) = None
             /\ sessionStartTime (fst (stopFailed e m0)) = None
             /\ (currentState (fst (stopFailed e m0)) = Completed
                 \/ currentState (fst (stopFailed e m0)) = Error)
             /\ exists outcome, snd (stopFailed e m0) = Some outcome).
  { intros e m0. unfold stopFailed. cbn [fst snd].
    destruct (cleanup_fields
                (emitEvent EvError None (messageProperty e)
                           (setState Error m0)))
      as (-> & -> & -> & _).
    destruct (setState_fields Error m0) as (Hst & _).
    repeat split; [right; exact Hst | eexists; reflexivity]. }
  assert (Hok : forall m0 (result : ASRResult),
             currentState m0 = Completed ->
             client (cleanup m0) = None
             /\ sessionStartTime (cleanup m0) = None
             /\ (currentState (cleanup m0) = Completed
                 \/ currentState (cleanup m0) = Error)
             /\ exists outcome,
                 Some (Ok result) = Some outcome :> option (Res ASRResult)).
  { intros m0 result H0.
    destruct (cleanup_fields m0) as (-> & -> & -> & _).
    repeat split; [left; exact H0 | eexists; reflexivity]. }
  destruct r as [result|e]; [|apply Hfail].
  destruct (setState_fields Completed m4) as (Hst & _).
  destruct (autoSaveHistory m && truthy (text result)).
  - unfold addToHistory.
    destruct (sessionStartTime (setState Completed m4)); [|apply Hfail].
    cbn [bind fst snd]. apply Hok. exact Hst.
  - cbn [fst snd]. apply Hok. exact Hst.
Qed.

Lemma stopSession_inactive (env : StopEnv) (m : ASRManager) :
  client m = None
  \/ (currentState m <> Ready /\ currentState m <> Recording) ->
  fst (stopSession gzip engineText env m) = m.
Proof using Type.
  intros H. unfold stopSession.
  destruct (client m); [|reflexivity].
  destruct H as [H|[H1 H2]]; [discriminate|].
  destruct (currentState m); try reflexivity; congruence.
Qed.

Lemma cancelSession_idle (m : ASRManager) :
  client (cancelSession m) = None
  /\ sessionStartTime (cancelSession m) = None
  /\ currentState (cancelSession m) = Idle.
Proof using Type.
  unfold cancelSession.
  set (m1 := match client m with
             | Some c => let (c1, effects) := Client.close c in
                         runClientEffects effects (set_client (Some c1) m)
             | None => m
             end).
  destruct (setState_fields Idle (cleanup m1)) as (-> & -> & -> & _).
  destruct (cleanup_fields m1) as (-> & -> & _).
  repeat split.
Qed.

Lemma run_atRest (o : Op) (m : ASRManager) :
  atRest m -> atRest (run gzip initPayload engineText o m).
Proof using Type.
  intros H. destruct o as [[env now|a|env|]| |r]; cbn [run runLifecycle].
  - assert (Hcases : currentState m = Idle \/ currentState m <> Idle)
      by (destruct (currentState m); (left; reflexivity)
                                     || (right; discriminate)).
    destruct Hcases as [Hidle|Hidle].
    + destruct (startSession_idle_fields env now m Hidle)
        as (Ht & Hc & [[_ Hs]|[_ Hs]]);
        unfold atRest; rewrite Hs, Ht.
      * split; [exact Hc | discriminate].
      * split; [intros E; exfalso; exact (Hc E) | discriminate].
    + rewrite (startSession_refused gzip initPayload env now m Hidle).
      exact H.
  - unfold atRest in *.
    destruct (sendAudio_fields a m) as (_ & _ & _ & Ht).
    pose proof (sendAudio_client a m) as Hc.
    rewrite (sendAudio_state a m), Ht.
    destruct (client m) as [c|] eqn:E.
    + destruct (currentState m); try exact H;
        try (destruct H as [H1 H2]; split; [rewrite Hc|]; assumption);
        try (rewrite Hc; exact H).
    + destruct (currentState m); try exact H;
        try (destruct H as [H1 H2]; congruence);
        try (rewrite Hc; exact H).
  - destruct (client m) as [c|] eqn:Hc.
    + assert (Hcases : (currentState m = Ready \/ currentState m = Recording)
                       \/ (currentState m <> Ready
                           /\ currentState m <> Recording))
        by (destruct (currentState m);
            (left; left; reflexivity) || (left; right; reflexivity)
            || (right; split; discriminate)).
      destruct Hcases as [E|E].
      * destruct (stopSession_settles env m c Hc E)
          as (H1 & H2 & [H3|H3] & _); unfold atRest; rewrite H3, H1, H2;
          repeat split.
      * rewrite stopSession_inactive by (right; exact E). exact H.
    + rewrite stopSession_inactive by (left; exact Hc). exact H.
  - destruct (cancelSession_idle m) as (H1 & H2 & H3).
    unfold atRest. rewrite H3, H1, H2. split; reflexivity.
  - exact H.
  - destruct (handleTranscriptionResult_same r m)
      as (_ & _ & Hc & Hs & Ht & _).
    unfold atRest. rewrite Hs, Hc, Ht. exact H.
Qed.

(** X15: whatever sequence of public calls and incoming results is
    applied to a new manager, each call run to the settling of its
    promise before the next, the manager is then at rest: never in
    Connecting or Processing; with a client and a start time in Ready and
    Recording; with neither in Idle and Completed; with both or neither
    in Error. *)
Theorem manager_is_at_rest_between_calls (autoSave : option bool)
  (maxHistory : option Z) (ops : list Op) :
  atRest (fold_left (fun m o => run gzip initPayload engineText o m) ops
                    (new autoSave maxHistory)).
Proof using Type.
  assert (H : atRest (new autoSave maxHistory)) by (split; reflexivity).
  revert H. generalize (new autoSave maxHistory).
  induction ops as [|o ops IH]; intros m H; [exact H|].
  cbn [fold_left]. apply IH, run_atRest, H.
Qed.

(** X16: a [stopSession] on an active session always settles, and the
    manager it leaves does not start again by itself: [startSession] is
    refused with the invalid-state error, [sendAudio] and a second
    [stopSession] fail because no session is started.  Only after
    [cancelSession] does [startSession] succeed again (state Ready, the
    new start time recorded), and the history is untouched by the cancel
    and the restart. *)
Theorem settled_session_needs_cancel_before_restart (env : StopEnv)
  (m : ASRManager) (c : Client.ASRClient) :
  client m = Some c ->
  currentState m = Ready \/ currentState m = Recording ->
  let m' := fst (stopSession gzip engineText env m) in
  (exists outcome, snd (stopSession gzip engineText env m) = Some outcome)
  /\ (forall cenv now,
         exists e, startSession gzip initPayload cenv now m' = (m', Throw e)
                   /\ InvalidStateError e)
  /\ (forall audioData,
         sendAudio audioData m' = (m', Throw (ErrorObject msg_notStarted)))
  /\ (forall env2,
         stopSession gzip engineText env2 m'
         = (m', Some (Throw (ErrorObject msg_notStarted))))
  /\ (forall now,
         let m2 := fst (startSession gzip initPayload Client.SocketOpens now
                                     (cancelSession m')) in
         snd (startSession gzip initPayload Client.SocketOpens now
                           (cancelSession m')) = Ok tt
         /\ currentState m2 = Ready
         /\ sessionStartTime m2 = Some now
         /\ history m2 = history m').
Proof using Type.
  intros Hc Hs.
  destruct (stopSession_settles env m c Hc Hs) as (H1 & H2 & H3 & H4).
  cbv zeta. set (m' := fst (stopSession gzip engineText env m)) in *.
  split; [exact H4|]. split; [|split; [|split]].
  - intros cenv now.
    assert (Hne : currentState m' <> Idle)
      by (destruct H3 as [-> | ->]; discriminate).
    rewrite (startSession_refused gzip initPayload cenv now m' Hne).
    eexists. split; [reflexivity|].
    right. left. eexists. reflexivity.
  - intros a. unfold sendAudio. rewrite H1. reflexivity.
  - intros env2. unfold stopSession. rewrite H1. reflexivity.
  - intros now.
    destruct (cancelSession_idle m') as (_ & _ & Hidle).
    destruct (cancelSession_fields m') as (Hh & _).
    destruct (startSession_fields gzip initPayload Client.SocketOpens now
                                  (cancelSession m')) as (Hh2 & _).
    rewrite Hh2, Hh.
    remember (cancelSession m') as mc eqn:Emc. clear Emc.
    destruct mc as [a b c0 s t p f h l]. cbn in Hidle. subst s.
    repeat split.
Qed.

End ManagerRest.

Section ManagerTrace.
Import JS Shared Manager.

Variable gzip : Client.bytes -> Client.bytes.
Variable initPayload : Client.bytes.
Variable engineText : EngineError -> jsstring.

Lemma lastState_snoc (l : list Obs) (o : Obs) :
  lastState (l ++ [o])
  = match o with
    | Emit e => match ev_type e with
                | EvStateChange => ev_state e
                | _ => lastState l
                end
    | _ => lastState l
    end.
Proof using Type.
  unfold lastState. rewrite fold_left_app. reflexivity.
Qed.

Lemma handleTranscriptionResult_silent (r : ASRResult) (m : ASRManager) :
  lastState (log (handleTranscriptionResult r m)) = lastState (log m)
  /\ currentState (handleTranscriptionResult r m) = currentState m.
Proof using Type.
  unfold handleTranscriptionResult, emitEvent.
  destruct (hasError r); [|destruct (isPartial r)];
    cbn [tell log currentState set_partialResults set_finalResult];
    rewrite lastState_snoc; split; reflexivity.
Qed.

Lemma deliver_silent (rs : list ASRResult) :
  forall m,
    lastState (log (deliver rs m)) = lastState (log m)
    /\ currentState (deliver rs m) = currentState m.
Proof using Type.
  unfold deliver. induction rs as [|r rs IH]; intros m; cbn [fold_left].
  - split; reflexivity.
  - destruct (IH (handleTranscriptionResult r m)) as [-> ->].
    apply handleTranscriptionResult_silent.
Qed.

Lemma runClientEffects_silent (effects : list Client.Effect) :
  forall m,
    lastState (log (runClientEffects effects m)) = lastState (log m)
    /\ currentState (runClientEffects effects m) = currentState m.
Proof using Type.
  unfold runClientEffects.
  induction effects as [|e es IH]; intros m; cbn [fold_left].
  - split; reflexivity.
  - match goal with
    | |- context [fold_left ?f es ?m1] =>
        destruct (IH m1) as [-> ->]
    end.
    assert (Ht : lastState (log (tell [ClientDid e] m)) = lastState (log m)
                 /\ currentState (tell [ClientDid e] m) = currentState m).
    { cbn [tell log currentState]. rewrite lastState_snoc.
      split; reflexivity. }
    destruct e; try exact Ht.
    destruct (handleTranscriptionResult_silent r (tell [ClientDid (Client.Callback r)] m))
      as [-> ->].
    exact Ht.
Qed.

Lemma waitLoop_silent (T : Z) (env : WaitEnv) :
  forall fuel k m m' r k',
    waitLoop fuel T env k m = Some (m', r, k') ->
    lastState (log m') = lastState (log m)
    /\ currentState m' = currentState m.
Proof using Type.
  induction fuel as [|fuel IH]; intros k m m' r k' H; cbn [waitLoop] in H;
    [discriminate|].
  destruct (finalResult m).
  - injection H as <- _ _. split; reflexivity.
  - destruct (elapsed env k >? T).
    + destruct (lastPartial m); injection H as <- _ _.
      * cbn [tell log currentState]. rewrite lastState_snoc.
        split; reflexivity.
      * split; reflexivity.
    + destruct (IH _ _ _ _ _ H) as [-> ->]. apply deliver_silent.
Qed.

Lemma setState_announced (s : ASRState) (m : ASRManager) :
  lastState (log m) = currentState m ->
  lastState (log (setState s m)) = currentState (setState s m).
Proof using Type.
  intros H. unfold setState, emitEvent.
  destruct (ASRState_eqb (currentState m) s) eqn:E.
  - cbn [set_currentState log currentState]. rewrite H.
    destruct (currentState m), s; try discriminate; reflexivity.
  - cbn [tell set_currentState log currentState]. rewrite lastState_snoc.
    reflexivity.
Qed.

Lemma cleanup_silent (m : ASRManager) :
  lastState (log (cleanup m)) = lastState (log m)
  /\ currentState (cleanup m) = currentState m.
Proof using Type.
  unfold cleanup. cbn [set_sessionStartTime log currentState].
  destruct (client m) as [c|]; [|split; reflexivity].
  destruct (Client.close c) as [c1 effects].
  cbn [set_client log currentState].
  apply runClientEffects_silent.
Qed.

Lemma emitEvent_announced (type : ASREventType) result error
  (m : ASRManager) :
  type <> EvStateChange ->
  lastState (log m) = currentState m ->
  lastState (log (emitEvent type result error m))
  = currentState (emitEvent type result error m).
Proof using Type.
  intros Ht H. unfold emitEvent. cbn [tell log currentState].
  rewrite lastState_snoc. cbn [ev_type]. destruct type; congruence.
Qed.

Lemma stopFailed_announced (e : Thrown) (m : ASRManager) :
  lastState (log m) = currentState m ->
  lastState (log (fst (stopFailed e m)))
  = currentState (fst (stopFailed e m)).
Proof using Type.
  intros H. unfold stopFailed. cbn [fst].
  destruct (cleanup_silent
              (emitEvent EvError None (messageProperty e)
                         (setState Error m))) as [-> ->].
  apply emitEvent_announced; [discriminate|].
  apply setState_announced, H.
Qed.

Lemma run_announced (o : Op) (m : ASRManager) :
  lastState (log m) = currentState m ->
  lastState (log (run gzip initPayload engineText o m))
  = currentState (run gzip initPayload engineText o m).
Proof using Type.
  intros H. destruct o as [[env now|a|env|]| |r]; cbn [run runLifecycle].
  - unfold startSession.
    destruct (currentState m) eqn:E; try (cbn [fst]; congruence).
    destruct (Client.connect gzip initPayload env Client.new)
      as [[c effects] outcome].
    set (m2 := set_client (Some c)
                 (set_finalResult None
                    (set_partialResults []
                       (set_sessionStartTime (Some now)
                          (setState Connecting m))))).
    assert (H2 : lastState (log m2) = currentState m2).
    { subst m2.
      cbn [set_client set_finalResult set_partialResults
           set_sessionStartTime log currentState].
      apply setState_announced. congruence. }
    assert (H3 : lastState (log (runClientEffects effects m2))
                 = currentState (runClientEffects effects m2)).
    { destruct (runClientEffects_silent effects m2) as [-> ->]. exact H2. }
    destruct outcome as [u|e]; cbn [fst];
      (apply emitEvent_announced; [discriminate|]);
      apply setState_announced, H3.
  - unfold sendAudio. destruct (client m) as [c|]; [|exact H].
    set (m1 := match currentState m with
               | Ready => setState Recording m
               | _ => m
               end).
    assert (H1 : lastState (log m1) = currentState m1).
    { subst m1.
      destruct (currentState m) eqn:E; rewrite <- E in H; try exact H.
      apply setState_announced, H. }
    destruct (currentState m1) eqn:E1;
      try (cbn [fst tell log currentState]; rewrite lastState_snoc;
           congruence).
    destruct (Client.sendAudio a c) as [c1 effects]. cbn [fst].
    destruct (runClientEffects_silent effects (set_client (Some c1) m1))
      as [-> ->].
    cbn [set_client log currentState]. congruence.
  - unfold stopSession. destruct (client m) as [c|]; [|exact H].
    assert (Hactive :
              lastState
                (log (fst
                   (let m1 := setState Processing m in
                    let (c1, effects) := Client.finish gzip c in
                    let m2 := runClientEffects effects
                                (set_client (Some c1) m1) in
                    let m3 := deliver (duringFinish env) m2 in
                    match waitForFinalResult 5000 (waitEnv env) m3 with
                    | None => (m3, None)
                    | Some (m4, Throw e, _) => stopFailed e m4
                    | Some (m4, Ok result, _) =>
                        let m5 := setState Completed m4 in
                        if autoSaveHistory m5 && truthy (text result) then
                          match addToHistory engineText result (stopNow env)
                                             (uuid env) m5 with
                          | Ok m6 => (cleanup m6, Some (Ok result))
                          | Throw e => stopFailed e m5
                          end
                        else (cleanup m5, Some (Ok result))
                    end)))
              = currentState
                  (fst
                   (let m1 := setState Processing m in
                    let (c1, effects) := Client.finish gzip c in
                    let m2 := runClientEffects effects
                                (set_client (Some c1) m1) in
                    let m3 := deliver (duringFinish env) m2 in
                    match waitForFinalResult 5000 (waitEnv env) m3 with
                    | None => (m3, None)
                    | Some (m4, Throw e, _) => stopFailed e m4
                    | Some (m4, Ok result, _) =>
                        let m5 := setState Completed m4 in
                        if autoSaveHistory m5 && truthy (text result) then
                          match addToHistory engineText result (stopNow env)
                                             (uuid env) m5 with
                          | Ok m6 => (cleanup m6, Some (Ok result))
                          | Throw e => stopFailed e m5
                          end
                        else (cleanup m5, Some (Ok result))
                    end))).
    { cbv zeta. destruct (Client.finish gzip c) as [c1 effects].
      set (m3 := deliver (duringFinish env)
                   (runClientEffects effects
                      (set_client (Some c1) (setState Processing m)))).
      assert (H3 : lastState (log m3) = currentState m3).
      { subst m3.
        destruct (deliver_silent (duringFinish env)
                    (runClientEffects effects
                       (set_client (Some c1) (setState Processing m))))
          as [-> ->].
        destruct (runClientEffects_silent effects
                    (set_client (Some c1) (setState Processing m)))
          as [-> ->].
        cbn [set_client log currentState].
        apply setState_announced, H. }
      destruct (waitForFinalResult 5000 (waitEnv env) m3)
        as [[[m4 r] k]|] eqn:Ew; [|exact H3].
      assert (H4 : lastState (log m4) = currentState m4).
      { unfold waitForFinalResult in Ew.
        destruct (waitLoop_silent _ _ _ _ _ _ _ _ Ew) as [-> ->].
        exact H3. }
      destruct r as [result|e]; [|apply stopFailed_announced, H4].
      pose proof (setState_announced Completed m4 H4) as H5.
      assert (Hclean : lastState (log (cleanup (setState Completed m4)))
                       = currentState (cleanup (setState Completed m4))).
      { destruct (cleanup_silent (setState Completed m4)) as [-> ->].
        exact H5. }
      destruct (autoSaveHistory (setState Completed m4)
                && truthy (text result)); [|exact Hclean].
      unfold addToHistory.
      destruct (sessionStartTime (setState Completed m4));
        [|apply stopFailed_announced, H5].
      cbn [fst].
      match goal with
      | |- context [cleanup ?m6] =>
          destruct (cleanup_silent m6) as [-> ->]
      end.
      exact H5. }
    destruct (currentState m) eqn:E; try exact Hactive;
      cbn [fst]; congruence.
  - unfold cancelSession. apply setState_announced.
    match goal with
    | |- context [cleanup ?m1] => destruct (cleanup_silent m1) as [-> ->]
    end.
    destruct (client m) as [c|]; [|exact H].
    destruct (Client.close c) as [c1 effects].
    destruct (runClientEffects_silent effects (set_client (Some c1) m))
      as [-> ->].
    exact H.
  - exact H.
  - destruct (handleTranscriptionResult_silent r m) as [-> ->]. exact H.
Qed.

(** X17: a subscriber that follows the state-change events always knows
    the state: after any sequence of public calls and incoming results on
    a new manager, the state carried by the last state-change event
    emitted (Idle when there was none) is the manager's current state. *)
Theorem state_changes_are_all_announced (autoSave : option bool)
  (maxHistory : option Z) (ops : list Op) :
  let m := fold_left (fun m o => run gzip initPayload engineText o m) ops
                     (new autoSave maxHistory) in
  lastState (log m) = currentState m.
Proof using Type.
  cbv zeta.
  assert (H : lastState (log (new autoSave maxHistory))
              = currentState (new autoSave maxHistory)) by reflexivity.
  revert H. generalize (new autoSave maxHistory).
  induction ops as [|o ops IH]; intros m H; [exact H|].
  cbn [fold_left]. apply IH, run_announced, H.
Qed.

End ManagerTrace.

Section AudioMore.
Import Audio.

Lemma SFltb_Lt (a b : spec_float) :
  SFltb a b = true <-> SFcompare a b = Some Lt.
Proof.
  unfold SFltb. destruct (SFcompare a b) as [[ | | ]|]; split; congruence.
Qed.

Lemma lex_lt (ea eb : Z) (ma mb : positive) :
  match ea ?= eb with
  | Eq => PosDef.Pos.compare_cont Eq ma mb
  | Lt => Lt
  | Gt => Gt
  end = Lt
  <-> ea < eb \/ (ea = eb /\ (ma < mb)%positive).
Proof.
  change (PosDef.Pos.compare_cont Eq ma mb) with (ma ?= mb)%positive.
  destruct (Z.compare_spec ea eb) as [E|E|E].
  - rewrite Pos.compare_lt_iff. split; [intros H; right; split; assumption|].
    intros [H|[_ H]]; [exfalso; lia | exact H].
  - split; [intros _; left; exact E | reflexivity].
  - split; [discriminate | intros H; exfalso; lia].
Qed.

Lemma lex_gt (ea eb : Z) (ma mb : positive) :
  match ea ?= eb with
  | Eq => CompOpp (PosDef.Pos.compare_cont Eq ma mb)
  | Lt => Gt
  | Gt => Lt
  end = Lt
  <-> eb < ea \/ (ea = eb /\ (mb < ma)%positive).
Proof.
  change (PosDef.Pos.compare_cont Eq ma mb) with (ma ?= mb)%positive.
  destruct (Z.compare_spec ea eb) as [E|E|E].
  - destruct (Pos.compare_spec ma mb) as [P|P|P]; cbn [CompOpp]; split;
      try discriminate; try reflexivity;
      try (intros H; exfalso; lia).
    intros _. right. split; assumption.
  - split; [discriminate | intros H; exfalso; lia].
  - split; [intros _; left; exact E | reflexivity].
Qed.

Lemma SFltb_trans (a b c : spec_float) :
  SFltb a b = true -> SFltb b c = true -> SFltb a c = true.
Proof.
  rewrite !SFltb_Lt.
  destruct a as [sa|sa| |sa ma ea], b as [sb|sb| |sb mb eb],
           c as [sc|sc| |sc mc ec]; cbn [SFcompare];
    try discriminate;
    try (destruct sa; discriminate);
    try (destruct sb; discriminate);
    try (destruct sc; discriminate);
    try (destruct sa, sb; discriminate);
    try (destruct sb, sc; discriminate);
    try (destruct sa, sc; discriminate);
    try (destruct sa, sb, sc; discriminate || reflexivity);
    try (destruct sa, sb; try discriminate; intros _ _; reflexivity);
    try (destruct sb, sc; try discriminate; intros _ _; reflexivity);
    try (destruct sa, sc; try discriminate; intros _ _; reflexivity).
  all: destruct sa, sb, sc; try discriminate; try (intros _ _; reflexivity).
  all: intros [= H1] [= H2]; f_equal.
  - apply lex_gt in H1, H2. apply lex_gt. lia.
  - apply lex_lt in H1, H2. apply lex_lt. lia.
Qed.

Lemma SFltb_irrefl (a : spec_float) : SFltb a a = false.
Proof.
  unfold SFltb.
  destruct a as [s|s| |s m e]; cbn [SFcompare]; try reflexivity.
  - destruct s; reflexivity.
  - rewrite Z.compare_refl.
    change (PosDef.Pos.compare_cont Eq m m) with (m ?= m)%positive.
    rewrite Pos.compare_refl. destruct s; reflexivity.
Qed.

Lemma SFltb_below (p a e : spec_float) :
  SFltb p a = true -> SFltb p e = false -> SFltb a e = false.
Proof.
  intros H1 H2. destruct (SFltb a e) eqn:E; [|reflexivity].
  rewrite (SFltb_trans p a e H1 E) in H2. discriminate.
Qed.

Lemma SFltb_nan_l (a b : spec_float) : SFltb a b = true -> isNaN a = false.
Proof.
  rewrite SFltb_Lt. destruct a; try reflexivity. discriminate.
Qed.

Lemma SFltb_nan_r (a b : spec_float) : SFltb a b = true -> isNaN b = false.
Proof.
  rewrite SFltb_Lt. destruct b; try reflexivity. destruct a; discriminate.
Qed.

Lemma calculatePeak_from (data : list spec_float) :
  forall peak seen,
    isNaN peak = false ->
    ltb peak (ofInt 0) = false ->
    (forall x, In x seen -> ltb peak (SFabs (toNumber x)) = false) ->
    (peak = ofInt 0 \/ exists x, In x seen /\ peak = SFabs (toNumber x)) ->
    let p := fold_left (fun peak x =>
                          let abs := SFabs (toNumber x) in
                          if ltb peak abs then abs else peak)
                       data peak in
    isNaN p = false
    /\ ltb p (ofInt 0) = false
    /\ (forall x, In x (seen ++ data) -> ltb p (SFabs (toNumber x)) = false)
    /\ (p = ofInt 0
        \/ exists x, In x (seen ++ data) /\ p = SFabs (toNumber x)).
Proof.
  induction data as [|y data IH]; intros peak seen Hn H0 Hub Hatt;
    cbn [fold_left].
  - rewrite app_nil_r. repeat split; assumption.
  - replace (seen ++ y :: data) with ((seen ++ [y]) ++ data)
      by (rewrite <- app_assoc; reflexivity).
    cbv zeta.
    destruct (ltb peak (SFabs (toNumber y))) eqn:E; apply IH.
    + exact (SFltb_nan_r _ _ E).
    + exact (SFltb_below _ _ _ E H0).
    + intros x Hx. apply in_app_or in Hx. destruct Hx as [Hx|[<-|[]]].
      * exact (SFltb_below _ _ _ E (Hub x Hx)).
      * apply SFltb_irrefl.
    + right. exists y. split; [apply in_or_app; right; left|]; reflexivity.
    + exact Hn.
    + exact H0.
    + intros x Hx. apply in_app_or in Hx. destruct Hx as [Hx|[<-|[]]].
      * exact (Hub x Hx).
      * exact E.
    + destruct Hatt as [Hz|(x & Hx & Hp)]; [left; exact Hz|].
      right. exists x. split; [apply in_or_app; left; exact Hx | exact Hp].
Qed.

Lemma fold_skips_NaN (data : list spec_float) :
  (forall x, In x data -> isNaN x = true) ->
  forall p,
    fold_left (fun peak x =>
                 let abs := SFabs (toNumber x) in
                 if ltb peak abs then abs else peak)
              data p = p.
Proof.
  induction data as [|y data IH]; intros Hnan p; [reflexivity|].
  cbn [fold_left].
  assert (Hy : isNaN y = true) by (apply Hnan; left; reflexivity).
  destruct y; try discriminate.
  replace (ltb p (SFabs (toNumber S754_nan))) with false
    by (destruct p; reflexivity).
  apply IH. intros x Hx. apply Hnan. right. exact Hx.
Qed.

(** X18: [calculatePeak] returns the largest magnitude of the samples.
    The result is never NaN and never below zero; no sample's magnitude
    exceeds it; it is zero or the magnitude of one of the samples; NaN
    samples are skipped, so that data made of NaN only (or no data)
    gives zero. *)
Theorem calculatePeak_is_the_largest_magnitude (data : list spec_float) :
  let peak := calculatePeak data in
  isNaN peak = false
  /\ ltb peak (ofInt 0) = false
  /\ (forall x, In x data -> ltb peak (SFabs (toNumber x)) = false)
  /\ (peak = ofInt 0
      \/ exists x, In x data /\ peak = SFabs (toNumber x))
  /\ ((forall x, In x data -> isNaN x = true) -> peak = ofInt 0).
Proof.
  cbv zeta.
  destruct (calculatePeak_from data (ofInt 0) [])
    as (H1 & H2 & H3 & H4);
    [reflexivity | reflexivity | intros x [] | left; reflexivity |].
  cbn [app] in H3, H4.
  split; [exact H1|]. split; [exact H2|]. split; [exact H3|].
  split; [exact H4|].
  intros Hnan. unfold calculatePeak. apply fold_skips_NaN, Hnan.
Qed.

End AudioMore.

Section PCMBytes.
Import Audio.

Lemma ToInt16_range (x : spec_float) : -32768 <= ToInt16 x <= 32767.
Proof.
  unfold ToInt16.
  pose proof (Z.mod_pos_bound (truncate x + 32768) 65536 ltac:(lia)). lia.
Qed.

Lemma int16ToUint8_nth (samples : list Z) :
  forall i, (i < List.length samples)%nat ->
    nth (2 * i) (int16ToUint8 samples) 0 = nth i samples 0 mod 256
    /\ nth (2 * i + 1) (int16ToUint8 samples) 0
       = (nth i samples 0 / 256) mod 256.
Proof.
  induction samples as [|s l IH]; intros i Hi; cbn [List.length] in Hi;
    [lia|].
  destruct i as [|i].
  - split; reflexivity.
  - replace (2 * S i)%nat with (S (S (2 * i))) by lia.
    replace (S (S (2 * i)) + 1)%nat with (S (S (2 * i + 1))) by lia.
    cbn [int16ToUint8 flat_map app nth].
    apply IH. lia.
Qed.

(** X19: [float32ToPCMBytes] gives two bytes per sample, each in
    0..255: for the i-th sample, converted to the 16-bit value s by
    [float32ToInt16] (always within -32768..32767), byte 2i is the low
    byte and byte 2i+1 the high byte of s in two's complement, so that
    low + 256 * high = s mod 65536. *)
Theorem pcm_bytes_are_little_endian_samples (data : list spec_float) :
  let samples := float32ToInt16 data in
  let bytes := float32ToPCMBytes data in
  List.length samples = List.length data
  /\ List.length bytes = (2 * List.length data)%nat
  /\ Forall (fun b => 0 <= b < 256) bytes
  /\ forall i, (i < List.length data)%nat ->
       let s := nth i samples 0 in
       let low := nth (2 * i) bytes 0 in
       let high := nth (2 * i + 1) bytes 0 in
       -32768 <= s <= 32767
       /\ low = s mod 256
       /\ high = (s / 256) mod 256
       /\ low + 256 * high = s mod 65536.
Proof.
  cbv zeta. unfold float32ToPCMBytes, float32ToInt16.
  split; [apply length_map|]. split; [|split].
  - induction data as [|x l IH]; [reflexivity|].
    cbn [map int16ToUint8 flat_map app List.length].
    unfold int16ToUint8 in IH. rewrite IH. lia.
  - induction data as [|x l IH]; [constructor|].
    cbn [map int16ToUint8 flat_map app].
    constructor; [apply Z.mod_pos_bound; lia|].
    constructor; [apply Z.mod_pos_bound; lia|]. exact IH.
  - intros i Hi.
    destruct (int16ToUint8_nth (map float32ToInt16_sample data) i)
      as [Hlo Hhi]; [rewrite length_map; exact Hi|].
    rewrite Hlo, Hhi.
    assert (Hs : -32768 <= nth i (map float32ToInt16_sample data) 0 <= 32767).
    { rewrite (nth_indep _ 0 (float32ToInt16_sample (S754_zero false)))
        by (rewrite length_map; exact Hi).
      rewrite map_nth. apply ToInt16_range. }
    split; [exact Hs|]. split; [reflexivity|]. split; [reflexivity|].
    set (s := nth i (map float32ToInt16_sample data) 0) in *.
    pose proof (Z.div_mod s 256 ltac:(lia)) as D1.
    pose proof (Z.mod_pos_bound s 256 ltac:(lia)) as B1.
    change 65536 with (256 * 256).
    rewrite Z.rem_mul_r by lia. lia.
Qed.

End PCMBytes.

Section AudioBufferFacts.
Import AudioBuffer.

Lemma pushes_from (chunks : list bytes) :
  forall b,
    buffers (fold_left (fun b d => push d b) chunks b) = buffers b ++ chunks
    /\ totalLength (fold_left (fun b d => push d b) chunks b)
       = totalLength b + Z.of_nat (List.length (List.concat chunks)).
Proof.
  induction chunks as [|d l IH]; intros b; cbn [fold_left].
  - rewrite app_nil_r. cbn. split; [reflexivity | lia].
  - destruct (IH (push d b)) as [-> ->]. cbn [push buffers totalLength].
    rewrite <- app_assoc. split; [reflexivity|].
    cbn [List.concat]. rewrite length_app. lia.
Qed.

(** X20: an [AudioBuffer] gives back what was pushed.  After any pushes
    on a fresh buffer, [length] is the total number of bytes pushed,
    [isEmpty] holds exactly when no byte was pushed, [flush] returns the
    chunks concatenated in push order and leaves a fresh buffer, and
    [peek n] returns the first n of those bytes (all of them when n is
    larger) without the buffer changing.  For a negative n, [peek] does
    not return nothing: it returns all but the last -n bytes, as
    [slice(0, n)] does. *)
Theorem audio_buffer_returns_what_was_pushed (chunks : list bytes) :
  let b := fold_left (fun b d => push d b) chunks new in
  let pushed := List.concat chunks in
  length b = Z.of_nat (List.length pushed)
  /\ (isEmpty b = true <-> pushed = [])
  /\ flush b = (pushed, new)
  /\ (forall n, 0 <= n -> peek n b = firstn (Z.to_nat n) pushed)
  /\ (forall n, n < 0 ->
        peek n b
        = firstn (List.length pushed - Z.to_nat (- n)) pushed).
Proof.
  cbv zeta. destruct (pushes_from chunks new) as [Hb Ht].
  cbn [new buffers totalLength app] in Hb, Ht.
  unfold length, isEmpty, flush, peek, concatUint8Arrays.
  rewrite Hb, Ht. cbn [Z.add].
  split; [reflexivity|]. split; [|split; [|split]].
  - rewrite Z.eqb_eq. destruct (List.concat chunks); cbn [List.length];
      split; try reflexivity; try lia; discriminate.
  - destruct chunks; reflexivity.
  - intros n Hn. rewrite slice0_firstn by lia.
    destruct (Z.le_gt_cases n (Z.of_nat (List.length (List.concat chunks)))).
    + rewrite Z.min_l by lia. reflexivity.
    + rewrite Z.min_r by lia. rewrite Nat2Z.id.
      rewrite !firstn_all2 by lia. reflexivity.
  - intros n Hn. unfold Manager.slice0.
    rewrite Z.min_l by lia.
    replace (n <? 0) with true by (symmetry; apply Z.ltb_lt; lia).
    f_equal. lia.
Qed.

End AudioBufferFacts.

Section TrimFacts.
Import JS.

Lemma trimStart_head (s : jsstring) (c : N) (r : jsstring) :
  trimStart s = c :: r -> isWhiteSpace c = false.
Proof.
  induction s as [|x s IH]; cbn [trimStart]; [discriminate|].
  destruct (isWhiteSpace x) eqn:E; [exact IH|].
  intros [= <- _]. exact E.
Qed.

Lemma trimStart_snoc (l : jsstring) (c : N) :
  isWhiteSpace c = false -> trimStart (l ++ [c]) = trimStart l ++ [c].
Proof.
  intros Hc. induction l as [|x l IH]; cbn [app trimStart].
  - rewrite Hc. reflexivity.
  - destruct (isWhiteSpace x); [exact IH | reflexivity].
Qed.

Lemma trim_edges (s : jsstring) (c : N) (r : jsstring) :
  trim s = c :: r ->
  isWhiteSpace c = false /\ isWhiteSpace (last (c :: r) c) = false.
Proof.
  unfold trim, trimEnd. intros H.
  destruct (trimStart s) as [|x t] eqn:Es; [discriminate|].
  pose proof (trimStart_head s x t Es) as Hx.
  cbn [rev] in H. rewrite (trimStart_snoc _ _ Hx) in H.
  rewrite rev_app_distr in H. cbn [rev app] in H.
  injection H as <- <-. split; [exact Hx|].
  destruct (trimStart (rev t)) as [|y u] eqn:Et.
  - exact Hx.
  - cbn [rev]. 
    replace (x :: rev u ++ [y]) with ((x :: rev u) ++ [y]) by reflexivity.
    rewrite last_last. exact (trimStart_head _ _ _ Et).
Qed.

End TrimFacts.

Section RewriteMore.
Import JS Rewrite.

Variable fetch : Request -> Res Response.
Variable engineText : EngineError -> jsstring.
Variable SYSTEM_PROMPT : jsstring.

(** X21: how [rewrite] reads the completion out of the response body,
    [data.choices?.[0]?.message?.content?.trim()].  A null or undefined
    body is a TypeError; absent or empty [choices], a first choice
    without [message], and a message without [content] all give
    undefined; a string content gives that string trimmed; any other content is a TypeError, as it has no
    [trim] to call. *)
Theorem completion_reads_the_first_choice (data : value) :
  (nullish data = true ->
   completion engineText data = raise engineText TypeError_nullish)
  /\ (forall ms, data = Object ms ->
        nullish (member (lit "choices") ms) = true
        \/ member (lit "choices") ms = Array [] ->
        completion engineText data = Ok Undefined)
  /\ (forall ms first rest fs,
        data = Object ms ->
        member (lit "choices") ms = Array (first :: rest) ->
        first = Object fs ->
        (nullish (member (lit "message") fs) = true ->
         completion engineText data = Ok Undefined)
        /\ (forall msg,
              member (lit "message") fs = Object msg ->
              match member (lit "content") msg with
              | Undefined | Null =>
                  completion engineText data = Ok Undefined
              | String s =>
                  completion engineText data = Ok (String (trim s))
              | _ =>
                  completion engineText data
                  = raise engineText TypeError_not_callable
              end)).
Proof using Type.
  unfold completion. split; [|split].
  - destruct data; try discriminate; reflexivity.
  - intros ms -> H. cbn [get bind].
    destruct H as [H| ->]; [|reflexivity].
    destruct (member (lit "choices") ms); try discriminate; reflexivity.
  - intros ms first rest fs -> Hc ->. cbn [get bind]. rewrite Hc.
    cbn [nullish getIndex0 bind optGet get]. split.
    + intros H.
      destruct (member (lit "message") fs); try discriminate; reflexivity.
    + intros msg ->. cbn [nullish bind optGet get].
      destruct (member (lit "content") msg); reflexivity.
Qed.

(** X22: when the request is answered with an ok response whose body
    parses, [rewrite] reports success only with a polished text that is
    the completion, trimmed: not empty, with no white space at either
    end, and without an error.  An empty (or all-blank) completion is
    reported as a failure, not as an empty success. *)
Theorem successful_rewrite_is_the_trimmed_completion
  (config : RewriteConfig) (text : jsstring) (response : Response)
  (data : value) :
  trim text <> [] ->
  apiKey config <> [] ->
  fetch (mkRequest SYSTEM_PROMPT config (trim text)) = Ok response ->
  ok response = true ->
  jsonBody response = Ok data ->
  let result := fst (rewrite fetch engineText SYSTEM_PROMPT config text) in
  (success result = true ->
   exists s c r,
     completion engineText data = Ok (String (trim s))
     /\ polished result = trim s
     /\ trim s = c :: r
     /\ isWhiteSpace c = false
     /\ isWhiteSpace (last (c :: r) c) = false
     /\ error result = None)
  /\ (forall s, completion engineText data = Ok (String s) ->
        result = match s with
                 | [] => failure text msg_emptyResult
                 | _ => {| original := text; polished := s;
                           success := true; error := None |}
                 end).
Proof using Type.
  intros Ht Hk Hf Hok Hj. cbv zeta. unfold rewrite, tryRewrite.
  destruct (trim text) as [|t0 tr] eqn:Et; [congruence|].
  destruct (apiKey config) as [|k0 kr] eqn:Ek; [congruence|].
  cbn [fst]. rewrite Hf. cbn [bind]. rewrite Hok. cbn [negb].
  rewrite Hj. cbn [bind]. split.
  - unfold completion.
    destruct (get engineText data (lit "choices")) as [choices|e];
      cbn [bind]; [|discriminate].
    destruct (if nullish choices then Ok Undefined
              else getIndex0 engineText choices) as [first|e];
      cbn [bind]; [|discriminate].
    destruct (optGet engineText first (lit "message")) as [message|e];
      cbn [bind]; [|discriminate].
    destruct (optGet engineText message (lit "content")) as [content|e];
      cbn [bind]; [|discriminate].
    destruct content as [| | | |s| |]; cbn [optCallTrim bind raise];
      try discriminate.
    destruct (trim s) as [|c r] eqn:Es; [discriminate|].
    intros _. destruct (trim_edges s c r Es) as [H1 H2].
    exists s, c, r. rewrite Es. repeat split; assumption.
  - intros s ->. cbn [bind]. destruct s; reflexivity.
Qed.

(** X23: [rewriteText] returns the empty string exactly for blank
    input.  For any other input it returns either the input itself (no
    key, or any failure: the caller cannot tell) or the non-empty
    completion of an ok response. *)
Theorem rewriteText_is_empty_only_for_blank_text
  (text url key modelName : jsstring) (temp : option (Z * positive))
  (maxTok : option Z) :
  let out := rewriteText fetch engineText SYSTEM_PROMPT text url key
                         modelName temp maxTok in
  let request := mkRequest SYSTEM_PROMPT
                           (new url key modelName temp maxTok) (trim text) in
  (out = [] <-> trim text = [])
  /\ (out = text
      \/ trim text = []
      \/ exists response data,
           key <> []
           /\ fetch request = Ok response
           /\ ok response = true
           /\ jsonBody response = Ok data
           /\ completion engineText data = Ok (String out)).
Proof using Type.
  cbv zeta. unfold rewriteText, rewrite, tryRewrite.
  destruct (trim text) as [|t0 tr] eqn:Et.
  - cbn. split; [split; reflexivity|]. right. left. reflexivity.
  - assert (Hne : text <> []) by (intros ->; discriminate).
    cbn [new apiKey].
    destruct key as [|k0 kr]; cbn [fst polished].
    + split; [split; [congruence | discriminate]|]. left. reflexivity.
    + set (request := mkRequest SYSTEM_PROMPT _ (t0 :: tr)).
      destruct (fetch request) as [response|e] eqn:Ef; cbn [bind];
        [|cbn; split; [split; [congruence | discriminate]|];
          left; reflexivity].
      destruct (ok response) eqn:Hok; cbn [negb].
      * destruct (jsonBody response) as [data|e] eqn:Ej; cbn [bind];
          [|cbn; split; [split; [congruence | discriminate]|];
            left; reflexivity].
        destruct (completion engineText data) as [[| | | |[|c s]| |]|e]
          eqn:Ec; cbn [bind polished failure];
          try (split; [split; [congruence | discriminate]|];
               left; reflexivity).
        split; [split; discriminate|]. right. right.
        exists response, data. repeat split; try assumption; try reflexivity.
        discriminate.
      * destruct (textBody response); cbn [bind polished failure];
          (split; [split; [congruence | discriminate]|]); left; reflexivity.
Qed.

(** X24: [createRewriteServiceFromEnv] returns no service exactly when
    one of the three environment variables is unset or empty.  A service
    it does return has the three values, temperature 0.3 and 4096
    tokens, and calls the API once for every text that is not blank (it
    never takes the missing-key path). *)
Theorem service_from_env_needs_all_three_variables
  (transcribe_model_api_url transcribe_model_api_key transcribe_model
     : option jsstring) :
  let missing (v : option jsstring) := v = None \/ v = Some [] in
  (createRewriteServiceFromEnv transcribe_model_api_url
     transcribe_model_api_key transcribe_model = None
   <-> missing transcribe_model_api_url
       \/ missing transcribe_model_api_key
       \/ missing transcribe_model)
  /\ (forall config,
        createRewriteServiceFromEnv transcribe_model_api_url
          transcribe_model_api_key transcribe_model = Some config ->
        transcribe_model_api_url = Some (apiUrl config)
        /\ transcribe_model_api_key = Some (apiKey config)
        /\ transcribe_model = Some (model config)
        /\ temperature config = (3, 10%positive)
        /\ maxTokens config = 4096
        /\ forall text,
             trim text <> [] ->
             snd (rewrite fetch engineText SYSTEM_PROMPT config text)
             = [mkRequest SYSTEM_PROMPT config (trim text)]).
Proof using Type.
  cbv zeta. unfold createRewriteServiceFromEnv. split.
  - destruct transcribe_model_api_url as [[|u url']|],
             transcribe_model_api_key as [[|k key']|],
             transcribe_model as [[|m model']|];
      split; try discriminate; try reflexivity;
      try (intros _; auto 8; fail).
    intros [[H|H]|[[H|H]|[H|H]]]; discriminate.
  - intros config H.
    destruct transcribe_model_api_url as [[|u url']|],
             transcribe_model_api_key as [[|k key']|],
             transcribe_model as [[|m model']|]; try discriminate.
    injection H as <-. cbn [new apiUrl apiKey model temperature maxTokens].
    repeat split.
    intros text Ht. unfold rewrite.
    destruct (trim text); [congruence | reflexivity].
Qed.

End RewriteMore.

Section ClientFrames.
Import JS Shared Client.

Variable gunzip : bytes -> option bytes.
Variable utf8_decode : bytes -> jsstring.
Variable JSON_parse : jsstring -> option value.
Variable engineText : EngineError -> jsstring.

Lemma flag_bit1 (flags : Z) :
  0 <= flags < 16 ->
  negb (Z.land flags 2 =? 0) = Z.testbit flags 1.
Proof using Type.
  intros H. apply nibble_cases in H. simpl in H.
  repeat (destruct H as [<-|H]); try contradiction; reflexivity.
Qed.

(** X26: a full-response frame as the server lays it out (header,
    sequence number when flag bit 0 is set, payload length, payload) is
    decoded back by the message listener: the sequence number and the
    length field are skipped (the length is not checked), the payload is
    gunzipped exactly when the compression nibble says gzip, the result
    is marked last exactly when flag bit 1 is set, and the parsed JSON
    goes to the extraction of the result.  An empty payload is dropped
    without effect; a payload that does not gunzip or does not parse,
    and an exception while extracting, are logged and lead to no
    callback. *)
Theorem full_response_frame_is_decoded
  (flags compression sequence : Z) (body : bytes) :
  0 <= flags < 16 ->
  0 <= compression < 16 ->
  let frame := fullResponseFrame flags compression sequence body in
  onMessage gunzip utf8_decode JSON_parse engineText frame
  = match body with
    | [] => []
    | _ :: _ =>
        match (if compression =? GZIP then gunzip body else Some body) with
        | None => [ConsoleError]
        | Some raw =>
            match JSON_parse (utf8_decode raw) with
            | None => [ConsoleError]
            | Some jsonData =>
                match handleFullResponse engineText jsonData
                                         (Z.testbit flags 1) with
                | Ok effects => effects
                | Throw _ => [ConsoleError]
                end
            end
        end
    end.
Proof using Type.
  intros Hf Hc frame. subst frame.
  unfold onMessage, fullResponseFrame, buildHeader. cbn [app].
  unfold handleResponse.
  destruct (header_nibbles SERVER_FULL_RESPONSE flags) as [Ht Hfl];
    [unfold SERVER_FULL_RESPONSE; lia | exact Hf |].
  destruct (header_nibbles JSON compression) as [_ Hco];
    [unfold JSON; lia | exact Hc |].
  cbv zeta in Ht, Hfl, Hco. rewrite Ht, Hfl, Hco.
  change (Z.to_nat
            (Z.land (u8 (toU8 (Z.lor (Z.shiftl ProtocolVersion_V1 4) 1))) 15
             * 4)) with 4%nat.
  remember ((if Z.testbit flags 0 then be32 sequence else [])
              ++ be32 (Z.of_nat (List.length body)) ++ body)
    as rest eqn:Hrest.
  rewrite skipn4_cons, (flag_bit0 flags Hf), (flag_bit1 flags Hf).
  change (SERVER_FULL_RESPONSE =? SERVER_ERROR_RESPONSE) with false.
  change (SERVER_FULL_RESPONSE =? SERVER_FULL_RESPONSE) with true.
  cbv iota.
  assert (Hpay : (if Z.testbit flags 0 then skipn 4 rest else rest)
                 = be32 (Z.of_nat (List.length body)) ++ body).
  { subst rest. destruct (Z.testbit flags 0); reflexivity. }
  rewrite Hpay, getUint32_be32. cbn [bind]. rewrite skipn_be32.
  destruct body as [|b0 body']; [reflexivity|].
  unfold decodePayload.
  destruct (compression =? GZIP).
  - destruct (gunzip (b0 :: body')) as [raw|]; [|reflexivity].
    cbn [bind]. destruct (JSON_parse (utf8_decode raw)); reflexivity.
  - cbn [bind].
    destruct (JSON_parse (utf8_decode (b0 :: body'))); reflexivity.
Qed.

End ClientFrames.

Section ClientDropped.
Import JS Shared Client.

Variable gzip : bytes -> bytes.
Variable initPayload : bytes.

(** X27: the socket's close event disconnects the client and stops the
    send timer, but keeps the queue: chunks queued before the connection
    dropped are still there, and when the same client connects again the
    first firing of the new timer sends them, in one frame. *)
Theorem queue_survives_a_dropped_connection (c : ASRClient) :
  let c1 := fst (onSocketClose c) in
  let c2 := fst (fst (connect gzip initPayload SocketOpens c1)) in
  isConnected c1 = false
  /\ sendInterval c1 = false
  /\ audioBuffer c1 = audioBuffer c
  /\ snd (onSocketClose c)
     = (if sendInterval c then [ClearInterval] else [])
  /\ snd (connect gzip initPayload SocketOpens c1) = Ok tt
  /\ audioBuffer c2 = audioBuffer c
  /\ (audioBuffer c <> [] ->
      snd (tick gzip c2)
      = [WsSend (audioFrame gzip (List.concat (audioBuffer c)) false)]).
Proof using Type.
  destruct c as [w st buf timer].
  unfold onSocketClose, stopAudioSender, setConnectionState.
  cbn [sendInterval ws connectionState audioBuffer].
  destruct timer; cbn -[audioFrame];
    (repeat split; try reflexivity);
    intros H; destruct buf; try congruence; reflexivity.
Qed.

End ClientDropped.

Section ClientAsync.
Import JS Shared Client.

Variable gzip : bytes -> bytes.
Variable engineText : EngineError -> jsstring.

(** Run to its end at once, the timer callback is [tick] and [finish]
    is [finish]. *)
Lemma tick_is_tickBegins_resumed_at_once (c : ASRClient) :
  tick gzip c
  = (fst (tickBegins c),
     match snd (tickBegins c) with
     | Some p => fst (sendAudioPacketResumes gzip engineText p
                                             (fst (tickBegins c)))
     | None => []
     end).
Proof using Type.
  destruct c as [w st buf timer].
  unfold tick, tickBegins, sendAudioPacket, sendAudioPacketBegins,
    sendAudioPacketResumes, mergeAudioBuffer, isConnected.
  destruct buf, st, w; reflexivity.
Qed.

Lemma finish_is_finishBegins_resumed_at_once (c : ASRClient) :
  finish gzip c
  = (fst (fst (finishBegins c)),
     snd (fst (finishBegins c))
       ++ match snd (finishBegins c) with
          | Some p => fst (sendAudioPacketResumes gzip engineText p
                                                  (fst (fst (finishBegins c))))
          | None => []
          end).
Proof using Type.
  destruct c as [w st buf timer].
  unfold finish, finishBegins, sendAudioPacket, sendAudioPacketBegins,
    sendAudioPacketResumes, mergeAudioBuffer, isConnected, stopAudioSender.
  destruct timer, buf, st, w; cbn; rewrite ?app_nil_r; reflexivity.
Qed.

Lemma sent_app (a b : list Effect) : sent (a ++ b) = sent a ++ sent b.
Proof using Type. unfold sent. apply flat_map_app. Qed.

Lemma nth_error_cut {A} (l : list A) (i : nat) (x : A) :
  nth_error l i = Some x -> l = firstn i l ++ x :: skipn (S i) l.
Proof using Type.
  revert i. induction l as [|y l IH]; intros [|i] H; cbn in H;
    try discriminate.
  - injection H as ->. reflexivity.
  - cbn [firstn skipn app]. f_equal. apply IH, H.
Qed.

(** A compression that completes moves its frame from those about to be
    sent to those sent. *)
Lemma done_committed (i : nat) (r : Running) :
  ws (self r) = true ->
  self (step gzip engineText (Done i) r) = self r
  /\ Permutation (committed gzip (step gzip engineText (Done i) r))
                 (committed gzip r)
  /\ (i = 0%nat ->
      committed gzip (step gzip engineText (Done i) r) = committed gzip r)
  /\ (List.length (inFlight (step gzip engineText (Done i) r))
      <= List.length (inFlight r))%nat.
Proof using Type.
  intros Hws. unfold step.
  destruct (nth_error (inFlight r) i) as [p|] eqn:E.
  - pose proof (nth_error_cut _ _ _ E) as Hcut.
    unfold committed. cbn [self inFlight effects].
    unfold sendAudioPacketResumes. rewrite Hws. cbn [fst].
    rewrite sent_app. cbn [sent flat_map app].
    fold (frameOf gzip p).
    split; [reflexivity|]. split; [|split].
    + rewrite Hcut at 3. rewrite !map_app. cbn [map].
      rewrite <- app_assoc. apply Permutation_app_head.
      cbn [app]. apply Permutation_middle.
    + intros ->. destruct (inFlight r) as [|p0 l]; [discriminate|].
      cbn in E. injection E as ->. cbn [firstn skipn app map].
      rewrite <- app_assoc. reflexivity.
    + rewrite Hcut at 3. rewrite !length_app. cbn [List.length]. lia.
  - repeat split; auto.
Qed.

(** While the socket is open and [finish] has not been called: the
    queue holds the chunks handed in since the last firing, and the
    frames sent or about to be sent are those of the batches closed so
    far. *)
Lemma before_finish (evs : list Event) :
  forall r queue,
    self r = opened queue true ->
    forallb (fun e => match e with Finish => false | _ => true end) evs
    = true ->
    self (steps gzip engineText evs r)
    = opened (snd (batches queue evs)) true
    /\ Permutation
         (committed gzip (steps gzip engineText evs r))
         (committed gzip r
            ++ map (fun b => audioFrame gzip (List.concat b) false)
                   (fst (batches queue evs)))
    /\ (completesInOrder evs = true ->
        committed gzip (steps gzip engineText evs r)
        = committed gzip r
            ++ map (fun b => audioFrame gzip (List.concat b) false)
                   (fst (batches queue evs)))
    /\ List.concat (fst (batches queue evs)) ++ snd (batches queue evs)
       = queue ++ offered evs.
Proof using Type.
  induction evs as [|e evs IH]; intros r queue Hself Hno.
  - cbn. rewrite !app_nil_r. repeat split; auto.
  - cbn [forallb] in Hno. apply andb_prop in Hno. destruct Hno as [He Hno].
    change (steps gzip engineText (e :: evs) r)
      with (steps gzip engineText evs (step gzip engineText e r)).
    destruct e as [a| |i|]; [| | |discriminate].
    + (* a chunk is handed in *)
      specialize (IH (step gzip engineText (Offer a) r) (queue ++ [a])).
      assert (H1 : step gzip engineText (Offer a) r
                   = {| self := opened (queue ++ [a]) true;
                        inFlight := inFlight r;
                        effects := effects r ++ [] |}).
      { unfold step. rewrite Hself. reflexivity. }
      destruct IH as (I1 & I2 & I3 & I4);
        [rewrite H1; reflexivity | exact Hno |].
      assert (Hc : committed gzip (step gzip engineText (Offer a) r)
                   = committed gzip r).
      { rewrite H1. unfold committed. cbn [effects inFlight].
        rewrite app_nil_r. reflexivity. }
      rewrite Hc in I2, I3. cbn [batches offered flat_map].
      split; [exact I1|]. split; [exact I2|]. split; [exact I3|].
      rewrite I4. fold (offered evs). rewrite <- app_assoc. reflexivity.
    + (* the timer fires *)
      destruct queue as [|q0 qs].
      * assert (H1 : step gzip engineText Fire r
                     = {| self := opened [] true; inFlight := inFlight r ++ [];
                          effects := effects r |}).
        { unfold step. rewrite Hself. reflexivity. }
        specialize (IH (step gzip engineText Fire r) []).
        destruct IH as (I1 & I2 & I3 & I4);
          [rewrite H1; reflexivity | exact Hno |].
        assert (Hc : committed gzip (step gzip engineText Fire r)
                     = committed gzip r).
        { rewrite H1. unfold committed. cbn [effects inFlight].
          rewrite app_nil_r. reflexivity. }
        rewrite Hc in I2, I3. cbn [batches offered flat_map app].
        repeat split; assumption.
      * assert (H1 : step gzip engineText Fire r
                     = {| self := opened [] true;
                          inFlight := inFlight r
                                        ++ [{| p_audioData :=
                                                 List.concat (q0 :: qs);
                                               p_isLast := false |}];
                          effects := effects r |}).
        { unfold step. rewrite Hself. reflexivity. }
        specialize (IH (step gzip engineText Fire r) []).
        destruct IH as (I1 & I2 & I3 & I4);
          [rewrite H1; reflexivity | exact Hno |].
        assert (Hc : committed gzip (step gzip engineText Fire r)
                     = committed gzip r
                         ++ [audioFrame gzip (List.concat (q0 :: qs)) false]).
        { rewrite H1. unfold committed. cbn [effects inFlight].
          rewrite map_app, app_assoc. reflexivity. }
        rewrite Hc in I2, I3. cbn [batches].
        destruct (batches [] evs) as [closed left] eqn:Eb.
        cbn [fst snd] in *. cbn [map].
        rewrite <- app_assoc in I2, I3. cbn [app] in I2, I3.
        split; [exact I1|]. split; [exact I2|]. split; [exact I3|].
        cbn [List.concat offered flat_map]. fold (offered evs).
        rewrite <- app_assoc, I4. reflexivity.
    + (* a compression completes *)
      destruct (done_committed i r) as (D1 & D2 & D3 & _);
        [rewrite Hself; reflexivity|].
      specialize (IH (step gzip engineText (Done i) r) queue).
      destruct IH as (I1 & I2 & I3 & I4);
        [rewrite D1; exact Hself | exact Hno |].
      cbn [batches offered flat_map app]. fold (offered evs).
      split; [exact I1|]. split; [|split; [|exact I4]].
      * eapply Permutation_trans; [exact I2|].
        apply Permutation_app_tail, D2.
      * cbn [completesInOrder forallb]. intros Hord.
        apply andb_prop in Hord. destruct Hord as [Hi Hord].
        destruct i; [|discriminate].
        rewrite (I3 Hord), (D3 eq_refl). reflexivity.
Qed.

(** After [finish]: only completions. *)
Lemma after_finish (evs : list Event) :
  forall r,
    ws (self r) = true ->
    Forall (fun e => exists i, e = Done i) evs ->
    Permutation (committed gzip (steps gzip engineText evs r))
                (committed gzip r)
    /\ (completesInOrder evs = true ->
        committed gzip (steps gzip engineText evs r) = committed gzip r)
    /\ self (steps gzip engineText evs r) = self r.
Proof using Type.
  induction evs as [|e evs IH]; intros r Hws Hd.
  - cbn. repeat split; auto.
  - inversion Hd as [|e' l' [i ->] Hd']; subst.
    change (steps gzip engineText (Done i :: evs) r)
      with (steps gzip engineText evs (step gzip engineText (Done i) r)).
    destruct (done_committed i r Hws) as (D1 & D2 & D3 & _).
    destruct (IH (step gzip engineText (Done i) r)) as (I1 & I2 & I3);
      [rewrite D1; exact Hws | exact Hd' |].
    split; [eapply Permutation_trans; eassumption|].
    split; [|congruence].
    cbn [completesInOrder forallb]. intros Hord.
    apply andb_prop in Hord. destruct Hord as [Hi Hord].
    destruct i; [|discriminate].
    rewrite (I2 Hord), (D3 eq_refl). reflexivity.
Qed.

Lemma steps_app (a b : list Event) (r : Running) :
  steps gzip engineText (a ++ b) r
  = steps gzip engineText b (steps gzip engineText a r).
Proof using Type. unfold steps. apply fold_left_app. Qed.

Lemma completesInOrder_app (a b : list Event) :
  completesInOrder (a ++ b) = completesInOrder a && completesInOrder b.
Proof using Type. unfold completesInOrder. apply forallb_app. Qed.

(** X25: every chunk handed to a connected client goes out in exactly
    one frame.  On a connected client with an open socket, a running
    timer and an empty queue, take any sequence of chunks handed in,
    timer firings and completions of compressions under way, then
    [finish], then completions until none is under way.  The frames
    sent are then, up to their order, one frame not marked last for
    every firing that found chunks queued, carrying the gzip of the
    chunks handed in since the firing before it, and one frame marked
    last carrying the gzip of the chunks handed in after the last
    firing.  The frames go out in the order in which their compressions
    complete: in the order above when each compression completes before
    any begun after it, and otherwise not necessarily, so that the last
    packet can go out before the audio queued ahead of it. *)
Theorem every_chunk_is_sent_in_exactly_one_frame
  (c : ASRClient) (before after : list Event) :
  ws c = true -> isConnected c = true -> sendInterval c = true ->
  audioBuffer c = [] ->
  forallb (fun e => match e with Finish => false | _ => true end) before
  = true ->
  Forall (fun e => exists i, e = Done i) after ->
  let final := steps gzip engineText (before ++ Finish :: after) (start c) in
  let closed := fst (batches [] before) in
  let left := snd (batches [] before) in
  let frames :=
    map (fun b => audioFrame gzip (List.concat b) false) closed
      ++ [audioFrame gzip (List.concat left) true] in
  inFlight final = [] ->
  Permutation (sent (effects final)) frames
  /\ (completesInOrder (before ++ after) = true ->
      sent (effects final) = frames)
  /\ Forall (fun b => b <> []) closed
  /\ List.concat closed ++ left = offered before
  /\ (forall audioData,
        sent (effects (steps gzip engineText
                         [Offer audioData; Fire; Finish; Done 1; Done 0]
                         (start c)))
        = [audioFrame gzip [] true;
           audioFrame gzip (List.concat [audioData]) false]).
Proof using Type.
  intros Hws Hconn Htimer Hq Hno Hafter. cbv zeta. intros Hend.
  assert (Hc : self (start c) = opened [] true).
  { destruct c as [w st buf timer]. cbn in *. subst.
    unfold isConnected in Hconn. cbn in Hconn.
    destruct st; try discriminate. reflexivity. }
  assert (Hovertakes :
            forall audioData,
              sent (effects (steps gzip engineText
                               [Offer audioData; Fire; Finish; Done 1; Done 0]
                               (start c)))
              = [audioFrame gzip [] true;
                 audioFrame gzip (List.concat [audioData]) false]).
  { intros a. unfold start in *. cbn [self] in Hc. rewrite Hc.
    reflexivity. }
  destruct (before_finish before (start c) [] Hc Hno)
    as (B1 & B2 & B3 & B4).
  rewrite steps_app in Hend |- *.
  set (r1 := steps gzip engineText before (start c)) in *.
  assert (Hf : self (step gzip engineText Finish r1)
               = opened [] false
               /\ committed gzip (step gzip engineText Finish r1)
                  = committed gzip r1
                      ++ [audioFrame gzip
                            (List.concat (snd (batches [] before))) true]).
  { unfold step. rewrite B1. unfold committed.
    destruct (snd (batches [] before)) as [|q0 qs];
      cbn -[audioFrame List.concat];
      rewrite sent_app, map_app; cbn -[audioFrame List.concat];
      rewrite !app_nil_r, <- app_assoc; split; reflexivity. }
  destruct Hf as [F1 F2].
  destruct (after_finish after (step gzip engineText Finish r1))
    as (A1 & A2 & A3); [rewrite F1; reflexivity | exact Hafter |].
  change (steps gzip engineText (Finish :: after) r1)
    with (steps gzip engineText after (step gzip engineText Finish r1))
    in Hend |- *.
  set (final := steps gzip engineText after (step gzip engineText Finish r1))
    in *.
  assert (Hfinal : committed gzip final = sent (effects final)).
  { unfold committed. rewrite Hend. apply app_nil_r. }
  rewrite Hfinal in A1, A2.
  assert (Hstart : committed gzip (start c) = []) by reflexivity.
  rewrite Hstart in B2, B3. cbn [app] in B2, B3.
  split; [|split; [|split; [|split; [|exact Hovertakes]]]].
  - eapply Permutation_trans; [exact A1|]. rewrite F2.
    apply Permutation_app_tail, B2.
  - rewrite completesInOrder_app. intros Hord.
    apply andb_prop in Hord. destruct Hord as [Ho1 Ho2].
    rewrite (A2 Ho2), F2, (B3 Ho1). reflexivity.
  - clear.
    assert (G : forall evs q, Forall (fun b : list bytes => b <> [])
                                     (fst (batches q evs))).
    { induction evs as [|e evs IH]; intros q; cbn [batches].
      - constructor.
      - destruct e; try apply IH.
        destruct q; [apply IH|].
        specialize (IH []). destruct (batches [] evs). cbn [fst] in *.
        constructor; [discriminate | exact IH]. }
    apply G.
  - exact B4.
Qed.

End ClientAsync.

Section ManagerAudioPath.
Import JS Shared Manager.

Variable gzip : Client.bytes -> Client.bytes.
Variable initPayload : Client.bytes.
Variable engineText : EngineError -> jsstring.

Lemma framesSent_app (a b : list Obs) :
  framesSent (a ++ b) = framesSent a ++ framesSent b.
Proof using Type. apply flat_map_app. Qed.

Lemma framesSent_effects (effects : list Client.Effect) :
  framesSent (map ClientDid effects) = Client.sent effects.
Proof using Type.
  induction effects as [|e l IH]; [reflexivity|].
  cbn [map]. change (ClientDid e :: map ClientDid l)
    with ([ClientDid e] ++ map ClientDid l).
  rewrite framesSent_app, IH. destruct e; reflexivity.
Qed.

Lemma handleTranscriptionResult_frames (r : ASRResult) (m : ASRManager) :
  framesSent (log (handleTranscriptionResult r m)) = framesSent (log m).
Proof using Type.
  unfold handleTranscriptionResult, emitEvent.
  destruct (hasError r); [|destruct (isPartial r)];
    cbn [tell log set_partialResults set_finalResult];
    rewrite framesSent_app; cbn; apply app_nil_r.
Qed.

Lemma deliver_frames (rs : list ASRResult) :
  forall m, framesSent (log (deliver rs m)) = framesSent (log m).
Proof using Type.
  unfold deliver. induction rs as [|r rs IH]; intros m; cbn [fold_left];
    [reflexivity|].
  rewrite IH. apply handleTranscriptionResult_frames.
Qed.

Lemma runClientEffects_frames (effects : list Client.Effect) :
  forall m,
    framesSent (log (runClientEffects effects m))
    = framesSent (log m) ++ Client.sent effects.
Proof using Type.
  unfold runClientEffects.
  induction effects as [|e es IH]; intros m; cbn [fold_left].
  - cbn. symmetry. apply app_nil_r.
  - rewrite IH.
    assert (Ht : framesSent (log (tell [ClientDid e] m))
                 = framesSent (log m) ++ Client.sent [e]).
    { cbn [tell log]. rewrite framesSent_app.
      f_equal; exact (framesSent_effects [e]). }
    replace (Client.sent (e :: es)) with (Client.sent [e] ++ Client.sent es)
      by (unfold Client.sent; cbn [flat_map]; rewrite app_nil_r;
          reflexivity).
    rewrite app_assoc. f_equal.
    destruct e; try exact Ht.
    rewrite handleTranscriptionResult_frames. exact Ht.
Qed.

Lemma waitLoop_frames (T : Z) (env : WaitEnv) :
  forall fuel k m m' r k',
    waitLoop fuel T env k m = Some (m', r, k') ->
    framesSent (log m') = framesSent (log m).
Proof using Type.
  induction fuel as [|fuel IH]; intros k m m' r k' H; cbn [waitLoop] in H;
    [discriminate|].
  destruct (finalResult m).
  - injection H as <- _ _. reflexivity.
  - destruct (elapsed env k >? T).
    + destruct (lastPartial m); injection H as <- _ _; [|reflexivity].
      cbn [tell log]. rewrite framesSent_app. cbn. apply app_nil_r.
    + rewrite (IH _ _ _ _ _ H). apply deliver_frames.
Qed.

Lemma setState_frames (s : ASRState) (m : ASRManager) :
  framesSent (log (setState s m)) = framesSent (log m).
Proof using Type.
  unfold setState, emitEvent.
  destruct (ASRState_eqb (currentState m) s); [reflexivity|].
  cbn [tell set_currentState log]. rewrite framesSent_app. cbn.
  apply app_nil_r.
Qed.

Lemma close_sends_nothing (c : Client.ASRClient) :
  Client.sent (snd (Client.close c)) = [].
Proof using Type.
  unfold Client.close, Client.stopAudioSender.
  destruct (Client.sendInterval c); cbn; destruct (Client.ws c); reflexivity.
Qed.

Lemma cleanup_frames (m : ASRManager) :
  framesSent (log (cleanup m)) = framesSent (log m).
Proof using Type.
  unfold cleanup. cbn [set_sessionStartTime log].
  destruct (client m) as [c|]; [|reflexivity].
  pose proof (close_sends_nothing c) as Hc.
  destruct (Client.close c) as [c1 effects]. cbn [snd] in Hc.
  cbn [set_client log]. rewrite runClientEffects_frames, Hc.
  apply app_nil_r.
Qed.

Lemma stopFailed_frames (e : Thrown) (m : ASRManager) :
  framesSent (log (fst (stopFailed e m))) = framesSent (log m).
Proof using Type.
  unfold stopFailed. cbn [fst]. rewrite cleanup_frames.
  unfold emitEvent. cbn [tell log]. rewrite framesSent_app. cbn.
  rewrite app_nil_r. apply setState_frames.
Qed.

End ManagerAudioPath.

Section ManagerDropped.
Import JS Shared Manager.

Variable gzip : Client.bytes -> Client.bytes.
Variable engineText : EngineError -> jsstring.

(** X28: when the socket closes during a session the manager is not
    told: its state stays as it was and no event is emitted (the only
    effect is the client clearing its timer).  From then on every
    [sendAudio] still returns normally (moving Ready to Recording), but
    the chunk is neither queued nor sent, and [stopSession] sends no
    frame at all, not even the last packet. *)
Theorem audio_after_a_dropped_connection_is_discarded (m : ASRManager)
  (c : Client.ASRClient) :
  client m = Some c ->
  currentState m = Ready \/ currentState m = Recording ->
  let m1 := socketCloses m in
  let c1 := fst (Client.onSocketClose c) in
  client m1 = Some c1
  /\ currentState m1 = currentState m
  /\ log m1
     = log m ++ (if Client.sendInterval c then [ClientDid Client.ClearInterval]
                 else [])
  /\ (forall audioData,
        snd (sendAudio audioData m1) = Ok tt
        /\ currentState (fst (sendAudio audioData m1)) = Recording
        /\ client (fst (sendAudio audioData m1)) = Some c1
        /\ framesSent (log (fst (sendAudio audioData m1)))
           = framesSent (log m))
  /\ (forall env,
        framesSent (log (fst (stopSession gzip engineText env m1)))
        = framesSent (log m)).
Proof using Type.
  intros Hc Hs. cbv zeta.
  destruct c as [w st buf timer].
  assert (Hm1 : socketCloses m
                = tell (if timer then [ClientDid Client.ClearInterval] else [])
                       (set_client
                          (Some {| Client.ws := w;
                                   Client.connectionState :=
                                     Client.disconnected;
                                   Client.audioBuffer := buf;
                                   Client.sendInterval := false |}) m)).
  { unfold socketCloses. rewrite Hc.
    unfold Client.onSocketClose, Client.stopAudioSender,
      Client.setConnectionState.
    cbn [Client.sendInterval Client.ws Client.connectionState
         Client.audioBuffer].
    destruct timer; cbn [runClientEffects fold_left]; [reflexivity|].
    unfold tell. cbn. rewrite app_nil_r. reflexivity. }
  rewrite Hm1.
  assert (Hc1 : fst (Client.onSocketClose
                       {| Client.ws := w; Client.connectionState := st;
                          Client.audioBuffer := buf;
                          Client.sendInterval := timer |})
                = {| Client.ws := w;
                     Client.connectionState := Client.disconnected;
                     Client.audioBuffer := buf;
                     Client.sendInterval := false |})
    by (destruct timer; reflexivity).
  rewrite Hc1. cbn [Client.sendInterval].
  set (c1 := {| Client.ws := w; Client.connectionState := Client.disconnected;
                Client.audioBuffer := buf; Client.sendInterval := false |}).
  set (m1 := tell _ (set_client (Some c1) m)).
  assert (H1c : client m1 = Some c1) by reflexivity.
  assert (H1s : currentState m1 = currentState m) by reflexivity.
  assert (H1f : framesSent (log m1) = framesSent (log m)).
  { subst m1. cbn [tell set_client log]. rewrite framesSent_app.
    destruct timer; cbn; apply app_nil_r. }
  split; [exact H1c|]. split; [exact H1s|]. split; [reflexivity|].
  split.
  - intros a.
    set (m2 := match currentState m1 with
               | Ready => setState Recording m1
               | _ => m1
               end).
    assert (H2 : client m2 = Some c1 /\ currentState m2 = Recording
                 /\ framesSent (log m2) = framesSent (log m)).
    { subst m2. rewrite H1s. destruct Hs as [Hs|Hs]; rewrite Hs.
      - destruct (setState_fields Recording m1) as (-> & -> & _).
        rewrite setState_frames. repeat split; assumption.
      - repeat split; assumption || congruence. }
    destruct H2 as (H2c & H2s & H2f).
    assert (Hsend : sendAudio a m1
                    = (runClientEffects [Client.ConsoleWarn]
                         (set_client (Some c1) m2), Ok tt)).
    { unfold sendAudio. rewrite H1c. fold m2. rewrite H2s. reflexivity. }
    rewrite Hsend. cbn [fst snd]. split; [reflexivity|].
    destruct (runClientEffects_same [Client.ConsoleWarn]
                (set_client (Some c1) m2)) as (_ & _ & -> & -> & _).
    split; [exact H2s|]. split; [reflexivity|].
    rewrite runClientEffects_frames. cbn [set_client log Client.sent flat_map].
    rewrite app_nil_r. exact H2f.
  - intros env.
    assert (Hactive :
       stopSession gzip engineText env m1
       = let m3 := deliver (duringFinish env)
                     (runClientEffects []
                        (set_client (Some c1) (setState Processing m1))) in
         match waitForFinalResult 5000 (waitEnv env) m3 with
         | None => (m3, None)
         | Some (m4, Throw e, _) => stopFailed e m4
         | Some (m4, Ok result, _) =>
             let m5 := setState Completed m4 in
             if autoSaveHistory m5 && truthy (text result) then
               match addToHistory engineText result (stopNow env) (uuid env)
                                  m5 with
               | Ok m6 => (cleanup m6, Some (Ok result))
               | Throw e => stopFailed e m5
               end
             else (cleanup m5, Some (Ok result))
         end).
    { unfold stopSession. rewrite H1c, H1s.
      destruct Hs as [-> | ->]; reflexivity. }
    rewrite Hactive. cbv zeta.
    set (m3 := deliver _ _).
    assert (H3 : framesSent (log m3) = framesSent (log m)).
    { subst m3. rewrite deliver_frames. cbn [runClientEffects fold_left].
      cbn [set_client log]. rewrite setState_frames. exact H1f. }
    destruct (waitForFinalResult 5000 (waitEnv env) m3)
      as [[[m4 r] k]|] eqn:Ew; [|exact H3].
    assert (H4 : framesSent (log m4) = framesSent (log m3))
      by (exact (waitLoop_frames _ _ _ _ _ _ _ _ Ew)).
    rewrite <- H3, <- H4.
    destruct r as [result|e]; [|apply stopFailed_frames].
    destruct (autoSaveHistory (setState Completed m4)
              && truthy (text result)).
    + unfold addToHistory.
      destruct (sessionStartTime (setState Completed m4)).
      * cbn [bind fst]. rewrite cleanup_frames. cbn [set_history log].
        apply setState_frames.
      * unfold raise. rewrite stopFailed_frames. apply setState_frames.
    + cbn [fst]. rewrite cleanup_frames. apply setState_frames.
Qed.

End ManagerDropped.

(* ================================================================== *)
(** * The further properties at concrete inputs                         *)
(* ================================================================== *)

Section ClientExtraInstances.
Import JS Shared Client.

(** X1 on the header of a last full response (type 9, flags 3, JSON,
    gzip). *)
Lemma buildHeader_round_trip_witness :
  exists b0 b1 b2 b3,
    buildHeader 9 3 1 1 = [b0; b1; b2; b3]
    /\ Z.land (Z.shiftr (u8 b1) 4) 15 = 9
    /\ Z.land (u8 b1) 15 = 3.
Proof.
  destruct (buildHeader_round_trip 9 3 1 1)
    as (b0 & b1 & b2 & b3 & H & _ & _ & Ht & Hf & _); try lia.
  exists b0, b1, b2, b3. repeat split; assumption.
Defined.

(** X2 on 300, on -2 and on a two-byte payload. *)
Lemma be32_round_trip_witness :
  getUint32 Example.engineText (be32 300 ++ [Byte.x01]) = Ok 300
  /\ getInt32 Example.engineText (be32 (-2) ++ []) = Ok (-2)
  /\ getUint32 Example.engineText [Byte.x00; Byte.x01]
     = raise Example.engineText RangeError_bounds.
Proof.
  destruct (be32_round_trip Example.engineText) as (H1 & H2 & _ & H4).
  split; [apply H1; lia|]. split; [apply H2; lia|].
  apply H4. cbn. lia.
Defined.

(** X3 on the last frame of the first example chunk. *)
Lemma client_frames_carry_their_length_witness :
  skipn 8 (audioFrame Example.gzip Example.chunk1 true)
  = Example.gzip Example.chunk1
  /\ getUint32 Example.engineText
       (skipn 4 (audioFrame Example.gzip Example.chunk1 true))
     = Ok (Z.of_nat
             (List.length
                (skipn 8 (audioFrame Example.gzip Example.chunk1 true)))).
Proof.
  assert (H : Z.of_nat (List.length (Example.gzip Example.chunk1)) < 2 ^ 32)
    by (vm_compute; reflexivity).
  destruct (client_frames_carry_their_length Example.gzip Example.engineText
              Example.chunk1 true H) as (_ & Hlen & Hbody & _).
  split; [exact Hbody | exact Hlen].
Defined.

(** X4 on a connected client given the two example chunks. *)
Lemma tick_sends_the_queue_in_one_frame_witness :
  reachable Example.gzip Example.initPayload Example.connectedClient
  /\ isConnected Example.connectedClient = true
  /\ audioBuffer
       (fold_left (fun c a => fst (sendAudio a c))
                  [Example.chunk1; Example.chunk2] Example.connectedClient)
     = audioBuffer Example.connectedClient
         ++ [Example.chunk1; Example.chunk2].
Proof.
  assert (Hr : reachable Example.gzip Example.initPayload
                         Example.connectedClient)
    by (apply reach_connect, reach_new).
  assert (Hc : isConnected Example.connectedClient = true) by reflexivity.
  split; [exact Hr|]. split; [exact Hc|].
  exact (proj1 (tick_sends_the_queue_in_one_frame Example.gzip
                  Example.initPayload Example.connectedClient
                  [Example.chunk1; Example.chunk2] Hr Hc)).
Defined.

(** X5 on a fresh client. *)
Lemma unconnected_client_never_sends_witness :
  isConnected new = false
  /\ sendAudio Example.chunk1 new = (new, [ConsoleWarn]).
Proof.
  assert (H : isConnected new = false) by reflexivity.
  split; [exact H|].
  exact (proj1 (unconnected_client_never_sends Example.gzip new
                  Example.chunk1 H)).
Defined.

(** X7 on a fresh client: connected with the timer running when the
    [open] listener runs to its end; with the timer running although
    disconnected when the socket closes while the listener waits. *)
Lemma timer_runs_only_while_connected_witness :
  (sendInterval Example.connectedClient = true
   /\ isConnected Example.connectedClient = true
   /\ ws Example.connectedClient = true)
  /\ (connectionState new = disconnected
      /\ sendInterval
           (fst (onOpenResumes Example.gzip Example.initPayload
                   (fst (onSocketClose
                           (onOpenBegins (fst (connectBegins new)))))))
         = true
      /\ isConnected
           (fst (onOpenResumes Example.gzip Example.initPayload
                   (fst (onSocketClose
                           (onOpenBegins (fst (connectBegins new)))))))
         = false).
Proof.
  destruct (timer_runs_only_while_connected Example.gzip Example.initPayload)
    as (Hkept & _ & Hbroken).
  assert (Hr : reachable Example.gzip Example.initPayload
                         Example.connectedClient)
    by (apply reach_connect, reach_new).
  assert (Ht : sendInterval Example.connectedClient = true) by reflexivity.
  assert (Hd : connectionState new = disconnected) by reflexivity.
  split; [split; [exact Ht | exact (Hkept _ Hr Ht)]|].
  split; [exact Hd|].
  destruct (Hbroken new Hd) as (_ & H1 & H2 & _).
  split; [exact H1 | exact H2].
Defined.

(** X8 on a fresh client whose socket opens, and on the connected client
    that results. *)
Lemma connect_outcomes_witness :
  snd (connect Example.gzip Example.initPayload SocketOpens new) = Ok tt
  /\ exists e,
       connect Example.gzip Example.initPayload SocketOpens
               Example.connectedClient
       = (Example.connectedClient, [], Throw e).
Proof.
  split.
  - destruct (connect_outcomes Example.gzip Example.initPayload new
                               SocketOpens) as (_ & H).
    specialize (H eq_refl). cbv zeta in H. exact (proj1 H).
  - destruct (connect_outcomes Example.gzip Example.initPayload
                               Example.connectedClient SocketOpens)
      as (H & _).
    apply H. discriminate.
Defined.

(** X9 on a response that carries the text hello, not flagged last. *)
Lemma full_response_callback_shape_witness :
  handleFullResponse Example.engineText Example.helloResponse false
  = Ok [Callback {| text := String (lit "hello"); isPartial := true;
                    utterances := None; error := None |}]
  /\ ([Callback {| text := String (lit "hello"); isPartial := true;
                   utterances := None; error := None |}] = []
      \/ exists r,
           [Callback {| text := String (lit "hello"); isPartial := true;
                        utterances := None; error := None |}]
           = [Callback r]
           /\ isPartial r = negb false
           /\ error r = None
           /\ (truthy (text r) = true \/ utterances r <> None)).
Proof.
  assert (H : handleFullResponse Example.engineText Example.helloResponse
                                 false
              = Ok [Callback {| text := String (lit "hello");
                                isPartial := true;
                                utterances := None; error := None |}])
    by reflexivity.
  split; [exact H|].
  exact (full_response_callback_shape Example.engineText
           Example.helloResponse false _ H).
Defined.

(** X10 on the empty message and on a message of an unknown type. *)
Lemma at_most_one_callback_per_message_witness :
  onMessage Example.gunzip Example.utf8_decode Example.parseThisText
            Example.engineText []
  = [ConsoleError]
  /\ onMessage Example.gunzip Example.utf8_decode Example.parseThisText
               Example.engineText [Byte.x11; Byte.xb0; Byte.x00; Byte.x00]
     = [].
Proof.
  split.
  - destruct (at_most_one_callback_per_message Example.gunzip
                Example.utf8_decode Example.parseThisText Example.engineText
                []) as (_ & _ & H & _).
    apply H. cbn. lia.
  - destruct (at_most_one_callback_per_message Example.gunzip
                Example.utf8_decode Example.parseThisText Example.engineText
                [Byte.x11; Byte.xb0; Byte.x00; Byte.x00]) as (_ & _ & _ & H).
    apply (H Byte.x11 Byte.xb0 Byte.x00 Byte.x00 []);
      [reflexivity | vm_compute; discriminate | vm_compute; discriminate].
Defined.

(** X11 on a result with two utterances and no text. *)
Lemma text_is_taken_from_the_first_path_that_has_it_witness :
  extractText Example.engineText (Object Example.twoUtterances)
  = Ok (String (List.concat [lit "he"; lit "llo"])).
Proof.
  destruct (text_is_taken_from_the_first_path_that_has_it Example.engineText
              Example.twoUtterances) as (_ & _ & H & _).
  apply (H [Object [(lit "text", String (lit "he"))];
            Object [(lit "text", String (lit "llo"))]]);
    try reflexivity; [discriminate|].
  repeat constructor; eexists; split; reflexivity.
Defined.

End ClientExtraInstances.

Section ManagerExtraInstances.
Import JS Shared Manager.

(** X13 on the first example session: its entry is found under id-1. *)
Lemma getHistoryEntry_finds_by_id_witness :
  exists entry,
    getHistoryEntry (uuid (Example.stopWith Example.r1 1500 "id-1"))
      (fst (stopSession Example.gzip Example.engineText
              (Example.stopWith Example.r1 1500 "id-1")
              Example.recordingManager))
    = Some entry
    /\ id entry = uuid (Example.stopWith Example.r1 1500 "id-1")
    /\ h_text entry = text Example.r1
    /\ endTime entry = stopNow (Example.stopWith Example.r1 1500 "id-1")
    /\ duration entry = endTime entry - startTime entry.
Proof.
  destruct (getHistoryEntry_finds_by_id Example.gzip Example.engineText
              (lit "id-1") Example.recordingManager) as (_ & _ & H).
  apply H; [vm_compute; reflexivity | reflexivity | reflexivity
            | vm_compute; reflexivity].
Defined.

(** X14 on a new manager whose socket opens. *)
Lemma startSession_outcomes_witness :
  currentState (new None None) = Idle
  /\ snd (startSession Example.gzip Example.initPayload Client.SocketOpens
                       1000 (new None None)) = Ok tt
  /\ currentState Example.readyManager = Ready.
Proof.
  assert (H : currentState (new None None) = Idle) by reflexivity.
  split; [exact H|].
  destruct (startSession_outcomes Example.gzip Example.initPayload
              Client.SocketOpens 1000 (new None None) H)
    as (_ & _ & Hout & Hstate & _).
  split; [exact Hout | exact Hstate].
Defined.

(** X16 on the recording example manager, stopped with no result from
    the socket. *)
Lemma settled_session_needs_cancel_before_restart_witness :
  exists c,
    client Example.recordingManager = Some c
    /\ currentState Example.recordingManager = Recording
    /\ exists e,
         startSession Example.gzip Example.initPayload Client.SocketOpens
           9000
           (fst (stopSession Example.gzip Example.engineText
                   Example.quietStop Example.recordingManager))
         = (fst (stopSession Example.gzip Example.engineText
                   Example.quietStop Example.recordingManager), Throw e)
         /\ InvalidStateError e.
Proof.
  eexists.
  assert (Hc : client Example.recordingManager = Some _) by reflexivity.
  assert (Hs : currentState Example.recordingManager = Recording)
    by reflexivity.
  split; [exact Hc|]. split; [exact Hs|].
  pose proof (settled_session_needs_cancel_before_restart Example.gzip
                Example.initPayload Example.engineText Example.quietStop
                Example.recordingManager _ Hc (or_intror Hs)) as H.
  cbv zeta in H. destruct H as (_ & H & _).
  exact (H Client.SocketOpens 9000).
Defined.

End ManagerExtraInstances.

Section AudioExtraInstances.
Import Audio.

(** X18 on the samples 1.5, -1.5 and NaN: the peak is not below the
    magnitude of the first. *)
Lemma calculatePeak_is_the_largest_magnitude_witness :
  In f_one_and_half Example.samples
  /\ ltb (calculatePeak Example.samples) (SFabs (toNumber f_one_and_half))
     = false.
Proof.
  assert (H : In f_one_and_half Example.samples) by (left; reflexivity).
  split; [exact H|].
  destruct (calculatePeak_is_the_largest_magnitude Example.samples)
    as (_ & _ & Hub & _).
  exact (Hub _ H).
Defined.

(** X19 on the second of those samples. *)
Lemma pcm_bytes_are_little_endian_samples_witness :
  (1 < List.length Example.samples)%nat
  /\ nth (2 * 1) (float32ToPCMBytes Example.samples) 0
     + 256 * nth (2 * 1 + 1) (float32ToPCMBytes Example.samples) 0
     = nth 1 (float32ToInt16 Example.samples) 0 mod 65536.
Proof.
  assert (H : (1 < List.length Example.samples)%nat) by (cbn; lia).
  split; [exact H|].
  destruct (pcm_bytes_are_little_endian_samples Example.samples)
    as (_ & _ & _ & Hi).
  destruct (Hi 1%nat H) as (_ & _ & _ & Hsum). exact Hsum.
Defined.

(** X20 on the two example chunks: [peek 2] and [peek (-1)]. *)
Lemma audio_buffer_returns_what_was_pushed_witness :
  AudioBuffer.peek 2
    (fold_left (fun b d => AudioBuffer.push d b)
               [Example.chunk1; Example.chunk2] AudioBuffer.new)
  = firstn (Z.to_nat 2) (List.concat [Example.chunk1; Example.chunk2])
  /\ AudioBuffer.peek (-1)
       (fold_left (fun b d => AudioBuffer.push d b)
                  [Example.chunk1; Example.chunk2] AudioBuffer.new)
     = firstn (List.length (List.concat [Example.chunk1; Example.chunk2])
               - Z.to_nat (- -1))
              (List.concat [Example.chunk1; Example.chunk2]).
Proof.
  destruct (audio_buffer_returns_what_was_pushed
              [Example.chunk1; Example.chunk2]) as (_ & _ & _ & Hp & Hn).
  split; [apply Hp; lia | apply Hn; lia].
Defined.

End AudioExtraInstances.

Section RewriteExtraInstances.
Import JS Rewrite.

(** X21 on the example completion body. *)
Lemma completion_reads_the_first_choice_witness :
  completion Example.engineText Example.completionBody
  = Ok (String (trim (lit "  Hello world. "))).
Proof.
  destruct (completion_reads_the_first_choice Example.engineText
              Example.completionBody) as (_ & _ & H).
  destruct (H _ _ _ _ eq_refl eq_refl eq_refl) as (_ & Hmsg).
  exact (Hmsg _ eq_refl).
Defined.

(** X22 on a text with fillers around it and a [fetch] that answers with
    the example completion. *)
Lemma successful_rewrite_is_the_trimmed_completion_witness :
  trim (lit " um hello ") <> []
  /\ apiKey Example.rewriteConfig <> []
  /\ fst (rewrite Example.fetchCompletes Example.engineText
                  Example.systemPrompt Example.rewriteConfig
                  (lit " um hello "))
     = {| original := lit " um hello "; polished := lit "Hello world.";
          success := true; error := None |}.
Proof.
  assert (Ht : trim (lit " um hello ") <> []) by (vm_compute; discriminate).
  assert (Hk : apiKey Example.rewriteConfig <> [])
    by (vm_compute; discriminate).
  split; [exact Ht|]. split; [exact Hk|].
  destruct (successful_rewrite_is_the_trimmed_completion
              Example.fetchCompletes Example.engineText Example.systemPrompt
              Example.rewriteConfig (lit " um hello ") _
              Example.completionBody Ht Hk eq_refl eq_refl eq_refl)
    as (_ & H).
  apply (H (lit "Hello world.")). vm_compute. reflexivity.
Defined.

(** X23 on a blank text. *)
Lemma rewriteText_is_empty_only_for_blank_text_witness :
  trim (lit "  ") = []
  /\ rewriteText Example.fetchCompletes Example.engineText
                 Example.systemPrompt (lit "  ")
                 (lit "https://api.example.com") (lit "key") (lit "model")
                 None None = [].
Proof.
  assert (H : trim (lit "  ") = []) by (vm_compute; reflexivity).
  split; [exact H|].
  exact (proj2 (proj1 (rewriteText_is_empty_only_for_blank_text
                         Example.fetchCompletes Example.engineText
                         Example.systemPrompt (lit "  ")
                         (lit "https://api.example.com") (lit "key")
                         (lit "model") None None)) H).
Defined.

(** X24 with the key unset. *)
Lemma service_from_env_needs_all_three_variables_witness :
  createRewriteServiceFromEnv (Some (lit "https://api.example.com")) None
                              (Some (lit "model")) = None.
Proof.
  apply (proj1 (service_from_env_needs_all_three_variables
                  Example.fetchCompletes Example.engineText
                  Example.systemPrompt
                  (Some (lit "https://api.example.com")) None
                  (Some (lit "model")))).
  right. left. left. reflexivity.
Defined.

End RewriteExtraInstances.

Section SessionExtraInstances.
Import JS Shared Manager.

(** X25 on the connected example client: the first chunk, a firing, the
    second chunk, then [finish]; the compression of the last packet
    completes first. *)
Lemma every_chunk_is_sent_in_exactly_one_frame_witness :
  Client.ws Example.connectedClient = true
  /\ Client.isConnected Example.connectedClient = true
  /\ Client.sendInterval Example.connectedClient = true
  /\ Client.audioBuffer Example.connectedClient = []
  /\ Client.inFlight
       (Client.steps Example.gzip Example.engineText
          ([Client.Offer Example.chunk1; Client.Fire;
            Client.Offer Example.chunk2]
             ++ Client.Finish :: [Client.Done 1; Client.Done 0])
          (Client.start Example.connectedClient)) = []
  /\ Permutation
       (Client.sent
          (Client.effects
             (Client.steps Example.gzip Example.engineText
                ([Client.Offer Example.chunk1; Client.Fire;
                  Client.Offer Example.chunk2]
                   ++ Client.Finish :: [Client.Done 1; Client.Done 0])
                (Client.start Example.connectedClient))))
       [Client.audioFrame Example.gzip Example.chunk1 false;
        Client.audioFrame Example.gzip Example.chunk2 true]
  /\ Client.sent
       (Client.effects
          (Client.steps Example.gzip Example.engineText
             ([Client.Offer Example.chunk1; Client.Fire;
               Client.Offer Example.chunk2]
                ++ Client.Finish :: [Client.Done 1; Client.Done 0])
             (Client.start Example.connectedClient)))
     = [Client.audioFrame Example.gzip Example.chunk2 true;
        Client.audioFrame Example.gzip Example.chunk1 false].
Proof.
  assert (H1 : Client.ws Example.connectedClient = true) by reflexivity.
  assert (H2 : Client.isConnected Example.connectedClient = true)
    by reflexivity.
  assert (H3 : Client.sendInterval Example.connectedClient = true)
    by reflexivity.
  assert (H4 : Client.audioBuffer Example.connectedClient = [])
    by reflexivity.
  assert (H5 : Client.inFlight
                 (Client.steps Example.gzip Example.engineText
                    ([Client.Offer Example.chunk1; Client.Fire;
                      Client.Offer Example.chunk2]
                       ++ Client.Finish :: [Client.Done 1; Client.Done 0])
                    (Client.start Example.connectedClient)) = [])
    by (vm_compute; reflexivity).
  pose proof (every_chunk_is_sent_in_exactly_one_frame
                Example.gzip Example.engineText Example.connectedClient
                [Client.Offer Example.chunk1; Client.Fire;
                 Client.Offer Example.chunk2]
                [Client.Done 1; Client.Done 0]%nat
                H1 H2 H3 H4 eq_refl
                (Forall_cons _ (ex_intro _ 1%nat eq_refl)
                   (Forall_cons _ (ex_intro _ 0%nat eq_refl)
                      (Forall_nil _)))) as H.
  cbv zeta in H. destruct (H H5) as (Hperm & _).
  split; [exact H1|]. split; [exact H2|]. split; [exact H3|].
  split; [exact H4|]. split; [exact H5|].
  split; [|vm_compute; reflexivity].
  assert (Hframes :
            map (fun b => Client.audioFrame Example.gzip (List.concat b) false)
                (fst (Client.batches
                        [] [Client.Offer Example.chunk1; Client.Fire;
                            Client.Offer Example.chunk2]))
              ++ [Client.audioFrame Example.gzip
                    (List.concat
                       (snd (Client.batches
                               [] [Client.Offer Example.chunk1; Client.Fire;
                                   Client.Offer Example.chunk2]))) true]
            = [Client.audioFrame Example.gzip Example.chunk1 false;
               Client.audioFrame Example.gzip Example.chunk2 true])
    by (vm_compute; reflexivity).
  rewrite <- Hframes. exact Hperm.
Defined.

(** X26 on a gzipped last frame with a sequence number. *)
Lemma full_response_frame_is_decoded_witness :
  Client.onMessage Example.gunzip Example.utf8_decode Example.parseThisText
    Example.engineText
    (Client.fullResponseFrame 3 1 7
       (Example.gzip Example.emptyUtterancesBody))
  = [Client.Callback {| text := String []; isPartial := false;
                        utterances := Some []; error := None |}].
Proof.
  rewrite (full_response_frame_is_decoded Example.gunzip Example.utf8_decode
             Example.parseThisText Example.engineText 3 1 7
             (Example.gzip Example.emptyUtterancesBody)) by lia.
  vm_compute. reflexivity.
Defined.

(** X27 on the connected client with the two example chunks queued. *)
Lemma queue_survives_a_dropped_connection_witness :
  Client.audioBuffer Example.liveClient <> []
  /\ snd (Client.tick Example.gzip
            (fst (fst (Client.connect Example.gzip Example.initPayload
                         Client.SocketOpens
                         (fst (Client.onSocketClose Example.liveClient))))))
     = [Client.WsSend
          (Client.audioFrame Example.gzip
             (List.concat (Client.audioBuffer Example.liveClient)) false)].
Proof.
  assert (H : Client.audioBuffer Example.liveClient <> [])
    by (vm_compute; discriminate).
  split; [exact H|].
  pose proof (queue_survives_a_dropped_connection Example.gzip
                Example.initPayload Example.liveClient) as Hq.
  cbv zeta in Hq. destruct Hq as (_ & _ & _ & _ & _ & _ & Hq).
  exact (Hq H).
Defined.

(** X28 on the recording example manager. *)
Lemma audio_after_a_dropped_connection_is_discarded_witness :
  exists c,
    client Example.recordingManager = Some c
    /\ currentState Example.recordingManager = Recording
    /\ snd (sendAudio Example.chunk2
              (socketCloses Example.recordingManager)) = Ok tt
    /\ framesSent
         (log (fst (sendAudio Example.chunk2
                      (socketCloses Example.recordingManager))))
       = framesSent (log Example.recordingManager).
Proof.
  eexists.
  assert (Hc : client Example.recordingManager = Some _) by reflexivity.
  assert (Hs : currentState Example.recordingManager = Recording)
    by reflexivity.
  split; [exact Hc|]. split; [exact Hs|].
  pose proof (audio_after_a_dropped_connection_is_discarded Example.gzip
                Example.engineText Example.recordingManager _ Hc
                (or_intror Hs)) as H.
  cbv zeta in H. destruct H as (_ & _ & _ & H & _).
  destruct (H Example.chunk2) as (H1 & _ & _ & H2).
  split; [exact H1 | exact H2].
Defined.

End SessionExtraInstances.

(* ================================================================== *)
(** * Properties of audio-processor.ts                                  *)
(* ================================================================== *)

Section AudioFacts.
Import Audio.

Lemma SFcompare_antisym (a b : spec_float) (c : comparison) :
  SFcompare a b = Some c -> SFcompare b a = Some (CompOpp c).
Proof.
  destruct a as [sa|sa| |sa ma ea], b as [sb|sb| |sb mb eb]; simpl;
    try discriminate;
    try (intros [= <-]; reflexivity);
    try (destruct sa; intros [= <-]; reflexivity);
    try (destruct sb; intros [= <-]; reflexivity);
    try (destruct sa, sb; intros [= <-]; reflexivity).
  destruct sa, sb; intros [= <-]; try reflexivity;
    rewrite (Z.compare_antisym ea eb);
    destruct (ea ?= eb) eqn:E; simpl; try reflexivity;
    change (PosDef.Pos.compare_cont Eq mb ma) with (Pos.compare_cont Eq mb ma);
    change (PosDef.Pos.compare_cont Eq ma mb) with (Pos.compare_cont Eq ma mb);
    pose proof (Pos.compare_cont_antisym ma mb Eq) as P; simpl in P;
    rewrite <- P; reflexivity.
Qed.

Lemma ltb_compare (a b : spec_float) :
  ltb a b = true -> SFcompare a b = Some Lt.
Proof.
  unfold ltb, SFltb. destruct (SFcompare a b) as [[ | | ]|]; congruence.
Qed.

Lemma ltb_not_nan_r (a b : spec_float) : ltb a b = true -> isNaN b = false.
Proof.
  intros H. apply ltb_compare in H. destruct b; try reflexivity.
  destruct a; discriminate.
Qed.

Lemma ltb_not_nan_l (a b : spec_float) : ltb a b = true -> isNaN a = false.
Proof.
  intros H. apply ltb_compare in H. destruct a; try reflexivity.
  discriminate.
Qed.

Lemma clamp_above (x : spec_float) :
  gtOne x = true -> float32ToInt16_sample x = 32767.
Proof.
  unfold gtOne, float32ToInt16_sample. intros H.
  assert (Hm : Math_min (ofInt 1) (toNumber x) = ofInt 1).
  { unfold Math_min. rewrite (ltb_not_nan_r _ _ H), (ltb_compare _ _ H).
    reflexivity. }
  rewrite Hm. vm_compute. reflexivity.
Qed.

Lemma clamp_below (x : spec_float) :
  ltMinusOne x = true -> float32ToInt16_sample x = -32768.
Proof.
  unfold ltMinusOne, float32ToInt16_sample. intros H.
  pose proof (ltb_compare _ _ H) as Hc.
  pose proof (SFcompare_antisym _ _ _ Hc) as Hc'.
  change (CompOpp Lt) with Gt in Hc'.
  assert (Hs : Math_max (ofInt (-1)) (Math_min (ofInt 1) (toNumber x))
               = ofInt (-1)).
  { destruct (toNumber x) as [s|s| |s m e] eqn:E.
    - vm_compute in Hc. discriminate.
    - destruct s; [vm_compute; reflexivity | vm_compute in Hc; discriminate].
    - discriminate.
    - destruct s; [| vm_compute in Hc; discriminate].
      assert (Hmin : Math_min (ofInt 1) (S754_finite true m e)
                     = S754_finite true m e) by reflexivity.
      rewrite Hmin. unfold Math_max.
      change (isNaN (ofInt (-1)) || isNaN (S754_finite true m e))
        with false.
      cbv iota. rewrite Hc'. reflexivity. }
  rewrite Hs. vm_compute. reflexivity.
Qed.

Lemma roundTripWithin1_sound (n : nat) :
  forall lo, roundTripWithin1 n lo = true ->
  forall x, lo <= x < lo + Z.of_nat n ->
  exists y, float32ToInt16 (int16ToFloat32 [x]) = [y] /\ Z.abs (y - x) <= 1.
Proof.
  induction n as [|n IH]; intros lo H x Hx; [lia|].
  cbn [roundTripWithin1] in H.
  destruct (float32ToInt16 (int16ToFloat32 [lo])) as [|y [|? ?]] eqn:E;
    try discriminate.
  apply andb_prop in H. destruct H as [Hy Hrest].
  destruct (Z.eq_dec x lo) as [->|Hne].
  - exists y. split; [exact E | apply Z.leb_le; exact Hy].
  - apply (IH (lo + 1) Hrest). lia.
Qed.

Lemma roundTrip_all_int16 :
  roundTripWithin1 (Pos.to_nat 65536) (-32768) = true.
Proof. vm_compute. reflexivity. Qed.

(** C9: [float32ToInt16] maps 0.0 to 0, 1.0 to 32767 and -1.0 to -32768;
    every input above 1.0 gives 32767 and every input below -1.0 gives
    -32768; and converting any int16 value to float32 and back moves it by
    at most 1. *)
Theorem float32ToInt16_bounds_and_round_trip :
  float32ToInt16 [f_zero] = [0]
  /\ float32ToInt16 [f_one] = [32767]
  /\ float32ToInt16 [f_minus_one] = [-32768]
  /\ (forall x, gtOne x = true -> float32ToInt16 [x] = [32767])
  /\ (forall x, ltMinusOne x = true -> float32ToInt16 [x] = [-32768])
  /\ (forall x, -32768 <= x <= 32767 ->
        exists y, float32ToInt16 (int16ToFloat32 [x]) = [y]
                  /\ Z.abs (y - x) <= 1).
Proof.
  do 3 (split; [vm_compute; reflexivity|]).
  split; [|split].
  - intros x H. cbn [float32ToInt16 map]. now rewrite clamp_above.
  - intros x H. cbn [float32ToInt16 map]. now rewrite clamp_below.
  - intros x H.
    apply (roundTripWithin1_sound _ _ roundTrip_all_int16).
    rewrite positive_nat_Z. lia.
Qed.

(** The theorem at 1.5, at -1.5 and at the int16 value 16384. *)
Lemma float32ToInt16_bounds_and_round_trip_witness :
  float32ToInt16 [f_one_and_half] = [32767]
  /\ float32ToInt16 [SFopp f_one_and_half] = [-32768]
  /\ exists y, float32ToInt16 (int16ToFloat32 [16384]) = [y]
               /\ Z.abs (y - 16384) <= 1.
Proof.
  pose proof float32ToInt16_bounds_and_round_trip
    as (_ & _ & _ & Habove & Hbelow & Hround).
  split; [apply Habove; vm_compute; reflexivity|].
  split; [apply Hbelow; vm_compute; reflexivity|].
  apply Hround. lia.
Defined.

End AudioFacts.
